(** * shell-gpt (sgpt.py): the local memory stores and their dispatch

    A shallow embedding of [src/sgpt.py]: the interaction cache kept in
    [.inst_memory.json], the fact log kept in [fact_memory.txt], and the
    command dispatcher [main] that routes one invocation to one of them.

    Conventions.
    - A Python [str] is a Rocq [string]; each character is read as the
      Unicode code point U+0000..U+00FF of the same number (Latin-1).
    - A Python exception is a value of [PyErr]; a function that may raise
      runs in the monad [Py], which threads the [World] (files, clock,
      pending keyboard input, and the chronological log of effects) and
      keeps the world reached when the exception was raised.
    - Files are those of a POSIX system: the text written to a file is its
      content ([os.linesep] is a line feed).
    - Functions imported from [utils/], the network call and the parsers
      of the [yaml] package are collected in the record [Env]. *)

From Stdlib Require Import String Ascii ZArith NArith List Bool Lia QArith.
Import ListNotations.
Local Open Scope string_scope.
Local Open Scope list_scope.

(** ** Python text primitives *)

Module PyStr.

Definition code_point (c : ascii) : N := N_of_ascii c.

(** [Nd] characters below U+0100: the ASCII digits. *)
Definition char_isdecimal (c : ascii) : bool :=
  ((48 <=? code_point c) && (code_point c <=? 57))%N.

(** Characters below U+0100 with [Numeric_Type] Decimal or Digit: the ASCII
    digits and the superscripts U+00B2, U+00B3, U+00B9. *)
Definition char_isdigit (c : ascii) : bool :=
  char_isdecimal c
  || (code_point c =? 178)%N || (code_point c =? 179)%N
  || (code_point c =? 185)%N.

(** Characters below U+0100 for which [str.isspace] holds. *)
Definition char_isspace (c : ascii) : bool :=
  let n := code_point c in
  (((9 <=? n) && (n <=? 13)) || ((28 <=? n) && (n <=? 32))
   || (n =? 133) || (n =? 160))%N.

Fixpoint all_chars (p : ascii -> bool) (s : string) : bool :=
  match s with
  | EmptyString => true
  | String c r => p c && all_chars p r
  end.

Definition is_empty (s : string) : bool :=
  match s with EmptyString => true | _ => false end.

(** [str.isdigit()]: every character is a digit and there is at least one. *)
Definition isdigit (s : string) : bool :=
  negb (is_empty s) && all_chars char_isdigit s.

Fixpoint lstrip (s : string) : string :=
  match s with
  | String c r => if char_isspace c then lstrip r else s
  | EmptyString => EmptyString
  end.

Definition reverse (s : string) : string :=
  string_of_list_ascii (rev (list_ascii_of_string s)).

Definition rstrip (s : string) : string := reverse (lstrip (reverse s)).

(** [str.strip()] *)
Definition strip (s : string) : string := rstrip (lstrip s).

Definition digit_value (c : ascii) : Z := Z.of_N (code_point c) - 48.

(** The digit part of an integer literal: decimal digits, single
    underscores allowed between two digits. *)
Fixpoint parse_digits (acc : Z) (after_digit : bool) (s : string) : option Z :=
  match s with
  | EmptyString => if after_digit then Some acc else None
  | String c r =>
      if char_isdecimal c then parse_digits (10 * acc + digit_value c) true r
      else if Ascii.eqb c "_" then
        if after_digit then parse_digits acc false r else None
      else None
  end.

(** [sys.int_info.default_max_str_digits]: the most digits a base-10
    literal may have for [int] to convert it (CPython 3.11, and 3.7 to 3.10
    from their security releases of September 2022). *)
Definition int_max_str_digits : Z := 4300.

(** The digits of a literal, underscores not counted. *)
Fixpoint count_digits (s : string) : Z :=
  match s with
  | EmptyString => 0
  | String c r => if char_isdecimal c then 1 + count_digits r else count_digits r
  end.

(** The literal after its sign: refused when malformed or when it has more
    than [int_max_str_digits] digits. *)
Definition parse_literal (body : string) : option Z :=
  if (int_max_str_digits <? count_digits body)%Z then None
  else parse_digits 0 false body.

(** [int(s)] for a [str] argument, base 10; [None] is [ValueError], raised
    for a malformed literal and for one over the digit limit alike. *)
Definition py_int (s : string) : option Z :=
  let t := strip s in
  match t with
  | String "-" r => option_map Z.opp (parse_literal r)
  | String "+" r => parse_literal r
  | _ => parse_literal t
  end.

Definition digit_char (d : Z) : ascii := ascii_of_N (Z.to_N (48 + d)).

Fixpoint dec_digits (fuel : nat) (n : Z) (acc : string) : string :=
  match fuel with
  | O => acc
  | S f =>
      let acc' := String (digit_char (n mod 10)) acc in
      if n <? 10 then acc' else dec_digits f (n / 10) acc'
  end%Z.

(** [str(n)] for an [int]. *)
Definition decimal (n : Z) : string :=
  if (n <? 0)%Z
  then String "-" (dec_digits (S (Z.to_nat (Z.log2 (- n)))) (- n) EmptyString)
  else dec_digits (S (Z.to_nat (Z.log2 n))) n EmptyString.

Fixpoint starts_with (p s : string) : bool :=
  match p, s with
  | EmptyString, _ => true
  | String a p', String b s' => Ascii.eqb a b && starts_with p' s'
  | String _ _, EmptyString => false
  end.

Definition ends_with (p s : string) : bool :=
  starts_with (reverse p) (reverse s).

Fixpoint drop (n : nat) (s : string) : string :=
  match n, s with
  | S k, String _ r => drop k r
  | _, _ => s
  end.

(** [s.replace(old, new)] for a non-empty [old]: leftmost non-overlapping
    occurrences. The fuel bounds the characters still to be skipped. *)
Fixpoint replace_aux (skip : nat) (old new s : string) : string :=
  match s with
  | EmptyString => EmptyString
  | String c r =>
      match skip with
      | S k => replace_aux k old new r
      | O =>
          if starts_with old s
          then new ++ replace_aux (String.length old - 1) old new r
          else String c (replace_aux 0 old new r)
      end
  end.

Definition replace (old new s : string) : string := replace_aux 0 old new s.

(** The lines of a text: the pieces between line feeds. *)
Fixpoint lines (s : string) : list string :=
  match s with
  | EmptyString => [EmptyString]
  | String c r =>
      if Ascii.eqb c "010" then EmptyString :: lines r
      else match lines r with
           | l :: ls => String c l :: ls
           | [] => [String c EmptyString]
           end
  end.

Definition has_newline (s : string) : bool :=
  negb (all_chars (fun c => negb (Ascii.eqb c "010")) s).

(** The newline translation of a file read in text mode ([newline=None],
    the default of [open] and of [Path.read_text]): a carriage return
    followed by a line feed, and a carriage return alone, are each read as
    one line feed. [after_cr] tells that the character just read was a
    carriage return, whose line feed is already out. *)
Fixpoint translate_newlines (after_cr : bool) (s : string) : string :=
  match s with
  | EmptyString => EmptyString
  | String c r =>
      if Ascii.eqb c "013" then String "010" (translate_newlines true r)
      else if Ascii.eqb c "010" then
        if after_cr then translate_newlines false r
        else String "010" (translate_newlines false r)
      else String c (translate_newlines false r)
  end.

Definition universal_newlines (s : string) : string :=
  translate_newlines false s.

(** A line feed or a carriage return occurs in the text. *)
Definition has_line_break (s : string) : bool :=
  negb (all_chars (fun c => negb (Ascii.eqb c "010" || Ascii.eqb c "013")) s).

End PyStr.

(** ** The clock: [time.gmtime] and [time.strftime] *)

Module PyTime.
Local Open Scope Z_scope.

Record struct_time := mk_time
  { tm_year : Z; tm_mon : Z; tm_mday : Z;
    tm_hour : Z; tm_min : Z; tm_sec : Z }.

(** The civil calendar from a day count, by 400-year eras that start on
    1 March: [doe] is the day of the era, [yoe] the year of the era, [doy]
    the day of the year counted from 1 March, [mp] the month counted from
    March. *)
Definition year_of_era (doe : Z) : Z :=
  (doe - doe / 1460 + doe / 36524 - doe / 146096) / 365.

Definition day_of_year (doe : Z) : Z :=
  let yoe := year_of_era doe in
  doe - (365 * yoe + yoe / 4 - yoe / 100).

Definition month_from_march (doe : Z) : Z := (5 * day_of_year doe + 2) / 153.

Definition month_of (doe : Z) : Z :=
  let mp := month_from_march doe in
  if mp <? 10 then mp + 3 else mp - 9.

Definition day_of_month (doe : Z) : Z :=
  day_of_year doe - (153 * month_from_march doe + 2) / 5 + 1.

(** [gmtime(secs)]: seconds since 1970-01-01T00:00:00Z to a proleptic
    Gregorian calendar date and a time of day. *)
Definition gmtime (secs : Z) : struct_time :=
  let days := secs / 86400 in
  let rem := secs mod 86400 in
  let z := days + 719468 in
  let era := z / 146097 in
  let doe := z mod 146097 in
  let y := year_of_era doe + era * 400 in
  {| tm_year := if month_of doe <=? 2 then y + 1 else y;
     tm_mon := month_of doe;
     tm_mday := day_of_month doe;
     tm_hour := rem / 3600;
     tm_min := rem mod 3600 / 60;
     tm_sec := rem mod 60 |}.

(** [localtime(secs)] where local time is [offset] seconds east of UTC. *)
Definition localtime (offset secs : Z) : struct_time := gmtime (secs + offset).

(** A field printed on two columns, zero padded. *)
Definition pad2 (n : Z) : string :=
  String (PyStr.digit_char (n / 10 mod 10))
    (String (PyStr.digit_char (n mod 10)) EmptyString).

Definition directive (d : ascii) (t : struct_time) : string :=
  if Ascii.eqb d "H" then pad2 (tm_hour t)
  else if Ascii.eqb d "M" then pad2 (tm_min t)
  else if Ascii.eqb d "S" then pad2 (tm_sec t)
  else if Ascii.eqb d "d" then pad2 (tm_mday t)
  else if Ascii.eqb d "m" then pad2 (tm_mon t)
  else if Ascii.eqb d "Y" then PyStr.decimal (tm_year t)
  else String "%" (String d EmptyString).

(** [strftime(fmt, t)] for the directives the program uses. *)
Fixpoint strftime (fmt : string) (t : struct_time) : string :=
  match fmt with
  | String "%" (String d rest) => (directive d t ++ strftime rest t)%string
  | String c rest => String c (strftime rest t)
  | EmptyString => EmptyString
  end.

(** The shape [HH:MM:SS DD/MM/YYYY]. *)
Definition is_timestamp (s : string) : bool :=
  match s with
  | String h1 (String h2 (String c1 (String m1 (String m2 (String c2
    (String s1 (String s2 (String sp (String d1 (String d2 (String l1
    (String o1 (String o2 (String l2 (String y1 (String y2 (String y3
    (String y4 EmptyString)))))))))))))))))) =>
      forallb PyStr.char_isdecimal
        [h1; h2; m1; m2; s1; s2; d1; d2; o1; o2; y1; y2; y3; y4]
      && Ascii.eqb c1 ":" && Ascii.eqb c2 ":" && Ascii.eqb sp " "
      && Ascii.eqb l1 "/" && Ascii.eqb l2 "/"
  | _ => false
  end.

End PyTime.

(** ** Python values, as [json.load] and [yaml.safe_load] build them *)

#[warnings="-register-all"]
Inductive json : Type :=
| JNull
| JBool (b : bool)
| JInt (n : Z)
| JFloat (literal : string)
| JStr (s : string)
| JList (items : list json)
| JDict (entries : list (string * json)).

Inductive PyErr : Type :=
| FileNotFoundError
| PermissionError
| JSONDecodeError
| YAMLError
| TypeError
| AttributeError
| ValueError
| KeyError
| IndexError
| EOFError
| Abort
| RequestException
| UsageError (msg : string)
| MissingParameter (param_hint param_type : string).

Module PyVal.

Fixpoint assoc (k : string) (kv : list (string * json)) : option json :=
  match kv with
  | [] => None
  | (k', v) :: r => if String.eqb k k' then Some v else assoc k r
  end.

(** [d[k] = v] on a dict: an existing key keeps its place. *)
Fixpoint assoc_set (k : string) (v : json) (kv : list (string * json))
  : list (string * json) :=
  match kv with
  | [] => [(k, v)]
  | (k', v') :: r =>
      if String.eqb k k' then (k, v) :: r else (k', v') :: assoc_set k v r
  end.

(** [len(v)]; [None] is [TypeError]. *)
Definition len (v : json) : option Z :=
  match v with
  | JList l => Some (Z.of_nat (length l))
  | JDict kv => Some (Z.of_nat (length kv))
  | JStr s => Some (Z.of_nat (String.length s))
  | _ => None
  end.

(** [v[i]] for an [int] subscript. *)
Definition getitem_int (v : json) (i : Z) : PyErr + json :=
  match v with
  | JList l =>
      let n := Z.of_nat (length l) in
      let j := if (i <? 0)%Z then (i + n)%Z else i in
      if ((j <? 0) || (n <=? j))%Z then inl IndexError
      else match nth_error l (Z.to_nat j) with
           | Some x => inr x
           | None => inl IndexError
           end
  | JStr s =>
      let n := Z.of_nat (String.length s) in
      let j := if (i <? 0)%Z then (i + n)%Z else i in
      if ((j <? 0) || (n <=? j))%Z then inl IndexError
      else match String.get (Z.to_nat j) s with
           | Some c => inr (JStr (String c EmptyString))
           | None => inl IndexError
           end
  | JDict _ => inl KeyError
  | _ => inl TypeError
  end.

(** [v[k]] for a [str] subscript. *)
Definition getitem_str (v : json) (k : string) : PyErr + json :=
  match v with
  | JDict kv => match assoc k kv with Some x => inr x | None => inl KeyError end
  | _ => inl TypeError
  end.

(** [v[k] = x] for a [str] subscript. *)
Definition setitem_str (v : json) (k : string) (x : json) : PyErr + json :=
  match v with
  | JDict kv => inr (JDict (assoc_set k x kv))
  | _ => inl TypeError
  end.

(** [v.append(x)]: only a list has the method. *)
Definition append (v : json) (x : json) : PyErr + json :=
  match v with
  | JList l => inr (JList (l ++ [x]))
  | _ => inl AttributeError
  end.

(** [f"{p}"] for an optional [str]. *)
Definition format (p : option string) : string :=
  match p with Some s => s | None => "None" end.

(** [not p] for an optional [str]. *)
Definition falsy (p : option string) : bool :=
  match p with Some s => PyStr.is_empty s | None => true end.

End PyVal.

(** ** The world the program runs in *)

Inductive File : Type := KEY_FILE | FACT_MEMORY_FILE | INST_MEMORY | TEMP_PY.

Inductive FsOp : Type :=
| Exists | Mkdir | Unlink | OpenRead | OpenReadWrite | OpenWrite | OpenAppend.

Inductive Model : Type := davinci | curie | codex.

Inductive Event : Type :=
| Fs (op : FsOp) (f : File)
| ReadResource (name : string)
| Print (s : string)
| Secho (s fg : string)
| TyperWriter (text : json) (code shell animation : bool)
| Ask (question : string)
| Post (prompt : option string) (model : Model) (max_tokens : Z)
       (api_key : json) (temperature top_p : Q)
| Editor
| System (cmd : string).

(** [.inst_memory.json] in the working directory. *)
Inductive InstFile : Type :=
| Absent
| Unreadable
| Garbled
| Document (data : json).

(** [~/.config/shell-gpt] and the two files the program keeps there. *)
Record DataDir : Type := mkDir
  { key_file : option string;      (* config.yml *)
    fact_file : option string }.   (* fact_memory.txt *)

Record World : Type := mkWorld
  { clock : Z;                     (* seconds since the epoch *)
    utc_offset : Z;                (* local time zone, seconds east of UTC *)
    data_dir : option DataDir;
    inst_memory : InstFile;
    temp_py : option string;
    keyboard : list string;        (* lines the user will type *)
    log : list Event }.

(** Collaborators that are not part of [sgpt.py]. [yaml_safe_load] is
    [yaml.safe_load] of the configuration file opened for reading, as a
    function of the content of the file. *)
Record Env : Type := mkEnv
  { yaml_safe_load : string -> option json;
    yaml_dump : json -> string;
    completion : option string -> Model -> Z -> json -> Q -> Q -> PyErr + string;
    hf_rank : string -> string -> json -> option string;
    edited_prompt : string;
    script_path : string;
    instruction_generation_v2 : option string;
    fact_retrieval_v1 : option string }.

(** ** The monad of Python computations *)

Inductive Res (A : Type) : Type :=
| Ok (a : A)
| Raised (e : PyErr).
Arguments Ok {A} a.
Arguments Raised {A} e.

Definition Py (A : Type) : Type := World -> Res A * World.

Definition ret {A} (a : A) : Py A := fun w => (Ok a, w).

Definition raise {A} (e : PyErr) : Py A := fun w => (Raised e, w).

Definition bind {A B} (c : Py A) (k : A -> Py B) : Py B :=
  fun w => match c w with
           | (Ok a, w') => k a w'
           | (Raised e, w') => (Raised e, w')
           end.

Declare Scope py_scope.
Delimit Scope py_scope with py.
Notation "x <- c ;; k" := (bind c (fun x => k))
  (at level 61, c at next level, right associativity) : py_scope.
Notation "c ;; k" := (bind c (fun _ => k))
  (at level 61, right associativity) : py_scope.
Local Open Scope py_scope.

Definition lift {A} (r : PyErr + A) : Py A :=
  match r with inr a => ret a | inl e => raise e end.

Definition get_world : Py World := fun w => (Ok w, w).

Definition emit (e : Event) : Py unit :=
  fun w => (Ok tt, mkWorld (clock w) (utc_offset w) (data_dir w)
                     (inst_memory w) (temp_py w) (keyboard w) (log w ++ [e])).

Definition set_data_dir (d : option DataDir) : Py unit :=
  fun w => (Ok tt, mkWorld (clock w) (utc_offset w) d
                     (inst_memory w) (temp_py w) (keyboard w) (log w)).

Definition set_inst_memory (c : InstFile) : Py unit :=
  fun w => (Ok tt, mkWorld (clock w) (utc_offset w) (data_dir w)
                     c (temp_py w) (keyboard w) (log w)).

Definition set_temp_py (c : option string) : Py unit :=
  fun w => (Ok tt, mkWorld (clock w) (utc_offset w) (data_dir w)
                     (inst_memory w) c (keyboard w) (log w)).

Definition set_keyboard (k : list string) : Py unit :=
  fun w => (Ok tt, mkWorld (clock w) (utc_offset w) (data_dir w)
                     (inst_memory w) (temp_py w) k (log w)).

(** ** The file system *)

Definition is_some {A} (o : option A) : bool :=
  match o with Some _ => true | None => false end.

Definition key_text (w : World) : option string :=
  match data_dir w with Some d => key_file d | None => None end.

Definition fact_text (w : World) : option string :=
  match data_dir w with Some d => fact_file d | None => None end.

Definition present (f : File) (w : World) : bool :=
  match f with
  | KEY_FILE => is_some (key_text w)
  | FACT_MEMORY_FILE => is_some (fact_text w)
  | INST_MEMORY => match inst_memory w with Absent => false | _ => true end
  | TEMP_PY => is_some (temp_py w)
  end.

(** [path.exists()] *)
Definition path_exists (f : File) : Py bool :=
  emit (Fs Exists f) ;;
  w <- get_world ;;
  ret (present f w).

(** [path.parent.mkdir(parents=True, exist_ok=True)] for a file of the
    data directory. *)
Definition mkdir_parent (f : File) : Py unit :=
  emit (Fs Mkdir f) ;;
  w <- get_world ;;
  match data_dir w with
  | Some _ => ret tt
  | None => set_data_dir (Some (mkDir None None))
  end.

(** [KEY_FILE.write_text(s)] and [KEY_FILE.open("w").write(s)]. *)
Definition write_key_file (s : string) : Py unit :=
  emit (Fs OpenWrite KEY_FILE) ;;
  w <- get_world ;;
  match data_dir w with
  | Some d => set_data_dir (Some (mkDir (Some s) (fact_file d)))
  | None => raise FileNotFoundError
  end.

Definition read_key_file : Py string :=
  emit (Fs OpenRead KEY_FILE) ;;
  w <- get_world ;;
  match key_text w with
  | Some s => ret s
  | None => raise FileNotFoundError
  end.

(** [FACT_MEMORY_FILE.read_text()]: the file is read in text mode, so the
    text returned is the content after newline translation. *)
Definition read_fact_file : Py string :=
  emit (Fs OpenRead FACT_MEMORY_FILE) ;;
  w <- get_world ;;
  match fact_text w with
  | Some s => ret (PyStr.universal_newlines s)
  | None => raise FileNotFoundError
  end.

(** [open(FACT_MEMORY_FILE, "a").write(s)]: the file is created when it is
    missing, its directory is not. *)
Definition append_fact_file (s : string) : Py unit :=
  emit (Fs OpenAppend FACT_MEMORY_FILE) ;;
  w <- get_world ;;
  match data_dir w with
  | Some d =>
      let old := match fact_file d with Some t => t | None => EmptyString end in
      set_data_dir (Some (mkDir (key_file d) (Some (old ++ s)%string)))
  | None => raise FileNotFoundError
  end.

(** [FACT_MEMORY_FILE.unlink()] *)
Definition unlink_fact_file : Py unit :=
  emit (Fs Unlink FACT_MEMORY_FILE) ;;
  w <- get_world ;;
  match data_dir w with
  | Some d =>
      match fact_file d with
      | Some _ => set_data_dir (Some (mkDir (key_file d) None))
      | None => raise FileNotFoundError
      end
  | None => raise FileNotFoundError
  end.

(** [with open(".inst_memory.json", "r+") as f: data = json.load(f)] *)
Definition load_inst_memory : Py json :=
  emit (Fs OpenReadWrite INST_MEMORY) ;;
  w <- get_world ;;
  match inst_memory w with
  | Absent => raise FileNotFoundError
  | Unreadable => raise PermissionError
  | Garbled => raise JSONDecodeError
  | Document data => ret data
  end.

(** [f = open(".inst_memory.json", "w+"); f.write(json.dumps(data)); f.close()] *)
Definition dump_inst_memory (data : json) : Py unit :=
  emit (Fs OpenWrite INST_MEMORY) ;;
  w <- get_world ;;
  match inst_memory w with
  | Unreadable => raise PermissionError
  | _ => set_inst_memory (Document data)
  end.

(** [open("temp.py", "w").write(s)] *)
Definition write_temp_py (s : string) : Py unit :=
  emit (Fs OpenWrite TEMP_PY) ;;
  set_temp_py (Some s).

(** ** Terminal and process *)

Definition print (s : string) : Py unit := emit (Print s).

Definition secho (s fg : string) : Py unit := emit (Secho s fg).

Definition typer_writer (text : json) (code shell animation : bool) : Py unit :=
  emit (TyperWriter text code shell animation).

(** [os.system(cmd)]: the call is recorded. What the command does once it
    runs is outside this model: the world after the call is the world that
    [main] itself has made. *)
Definition system (cmd : string) : Py unit := emit (System cmd).

(** [input(question)] and [getpass(question)]: the next line typed. *)
Definition input (question : string) : Py string :=
  emit (Ask question) ;;
  w <- get_world ;;
  match keyboard w with
  | [] => raise EOFError
  | l :: r => set_keyboard r ;; ret l
  end.

Definition lower_char (c : ascii) : ascii :=
  let n := PyStr.code_point c in
  if ((65 <=? n) && (n <=? 90))%N then ascii_of_N (n + 32) else c.

Fixpoint lower (s : string) : string :=
  match s with
  | EmptyString => EmptyString
  | String c r => String (lower_char c) (lower r)
  end.

(** [typer.confirm(question)] with its default [False]: asks until the
    answer is one of y, yes, n, no or empty. *)
Fixpoint confirm_answers (question : string) (answers : list string) : Py bool :=
  match answers with
  | [] => emit (Ask question) ;; raise Abort
  | l :: r =>
      emit (Ask question) ;;
      set_keyboard r ;;
      let v := PyStr.strip (lower l) in
      if String.eqb v "y" || String.eqb v "yes" then ret true
      else if String.eqb v "n" || String.eqb v "no" || PyStr.is_empty v
           then ret false
      else confirm_answers question r
  end.

Definition confirm (question : string) : Py bool :=
  w <- get_world ;;
  confirm_answers question (keyboard w).

(** [Path(path).read_text()] of a file shipped with the program. *)
Definition read_resource (name : string) (content : option string) : Py string :=
  emit (ReadResource name) ;;
  match content with
  | Some s => ret s
  | None => raise FileNotFoundError
  end.

(** [s + p] where [p] may be [None]. *)
Definition str_add (s : string) (p : option string) : Py string :=
  match p with
  | Some t => ret (s ++ t)%string
  | None => raise TypeError
  end.

Definition newline : string := String "010" EmptyString.

(** ** Command-line arguments of [main] *)

Record Args : Type := mkArgs
  { prompt : option string;
    model : Model;
    max_tokens : Z;
    temperature : Q;
    top_probability : Q;
    cache : bool;
    shell : bool;
    execute : bool;
    memorize_fact : bool;
    clear_facts : bool;
    retrieve_fact : bool;
    add_instruction : bool;
    code : bool;
    editor : bool;
    animation : bool;
    spinner : bool;
    set_history : Z;
    set_openai_api_key : option string;
    set_hugging_face_api_key : option string;
    favorite : bool;
    ls_common : bool;
    ls_history : bool;
    ls_memory : bool }.

(** The defaults typer gives to options that are not on the command line. *)
Definition default_args : Args :=
  {| prompt := None; model := davinci; max_tokens := 2048;
     temperature := 1; top_probability := 1;
     cache := false; shell := false; execute := false;
     memorize_fact := false; clear_facts := false; retrieve_fact := false;
     add_instruction := false; code := false; editor := false;
     animation := true; spinner := true; set_history := 500;
     set_openai_api_key := None; set_hugging_face_api_key := None;
     favorite := false; ls_common := false; ls_history := false;
     ls_memory := false |}.

(** ** The relevance filter *)

Inductive FilterMode : Type := passthrough | embeddingRank.

(** Modelled from the spec: [filter_facts] lives in [utils/memory.py], which
    is not among the sources. Section 4.3: with mode [passthrough] the full
    fact text is returned unchanged; with mode [embeddingRank] the text is
    handed to the external ranking capability ([rank], [None] when it cannot
    be reached), and the filter degrades to [passthrough] when that
    capability is unreachable. *)
Definition filter_facts (rank : string -> string -> json -> option string)
    (query fullFactText : string) (mode : FilterMode) (credentials : json)
  : string :=
  match mode with
  | passthrough => fullFactText
  | embeddingRank =>
      match rank query fullFactText credentials with
      | Some reduced => reduced
      | None => fullFactText
      end
  end.

(** ** The program *)

Section Program.

Variable env : Env.

Definition create_config : Py unit :=
  openai_api_key <- input "Please enter your OpenAI API secret key: " ;;
  mkdir_parent KEY_FILE ;;
  write_key_file ("openai_api_key: " ++ openai_api_key).

Definition load_key_file : Py json :=
  text <- read_key_file ;;
  match yaml_safe_load env text with
  | Some data => ret data
  | None => raise YAMLError
  end.

Definition get_config (key : string) : Py json :=
  found <- path_exists KEY_FILE ;;
  (if negb found then create_config else ret tt) ;;
  data <- load_key_file ;;
  match PyVal.getitem_str data key with
  | inr v => ret v
  | inl KeyError =>
      raise (UsageError ("Key '" ++ key ++
               "' not found in config file. Please check your config file."))
  | inl e => raise e
  end.

Definition update_config (key : string) (value : json) : Py json :=
  found <- path_exists KEY_FILE ;;
  (if negb found then create_config else ret tt) ;;
  data <- load_key_file ;;
  data <- lift (PyVal.setitem_str data key value) ;;
  write_key_file (yaml_dump env data) ;;
  ret value.

Definition save_fact (fact : string) : Py unit :=
  found <- path_exists FACT_MEMORY_FILE ;;
  (if negb found then mkdir_parent FACT_MEMORY_FILE else ret tt) ;;
  append_fact_file (fact ++ newline).

Definition clear_fact_memory : Py unit :=
  found <- path_exists FACT_MEMORY_FILE ;;
  if found then unlink_fact_file else ret tt.

Definition openai_request (prompt : option string) (model : Model)
    (max_tokens : Z) (api_key : json) (temperature top_p : Q)
    (spinner : bool) : Py string :=
  emit (Post prompt model max_tokens api_key temperature top_p) ;;
  lift (completion env prompt model max_tokens api_key temperature top_p).

(** The record [write_to_memory] builds from its arguments. *)
Definition dictionary (input_text : option string) (output_text name : string)
    (favorite : bool) : json :=
  JDict [ ("input", match input_text with Some s => JStr s | None => JNull end);
          ("output", JStr output_text);
          ("name", JStr name);
          ("favorite", JBool favorite);
          ("uid", JBool false) ].

Definition write_to_memory (input_text : option string) (output_text : string)
    (name : string) (favorite : bool) : Py unit :=
  data <- load_inst_memory ;;
  data <- lift (PyVal.append data (dictionary input_text output_text name favorite)) ;;
  dump_inst_memory data.

Definition time_format : string := "%H:%M:%S %d/%m/%Y".

(** [main], lines 184-222: [--add_instruction]. *)
Definition main_add_instruction (a : Args) (openai_api_key : json) : Py unit :=
  secho "Adding new instruction..." "green" ;;
  instruction_prompt <-
    read_resource "prompts/instruction_generation_v2.txt"
      (instruction_generation_v2 env) ;;
  let custom_prompt := prompt a in
  full_prompt <- str_add (instruction_prompt ++ " ") custom_prompt ;;
  response_text <-
    openai_request (Some full_prompt) (model a) (max_tokens a) openai_api_key
      0 (top_probability a) (spinner a) ;;
  let response_text := PyStr.strip response_text in
  typer_writer (JStr response_text) (code a) (shell a) (animation a) ;;
  confirmation <- input "Execute? (y/n)" ;;
  let response_text :=
    PyStr.replace "lsh" ("python " ++ script_path env) response_text in
  write_temp_py response_text ;;
  if String.eqb confirmation "y" then system "python temp.py"
  else secho "Command not executed." "red".

(** [main], lines 229-232: [--memorize]. *)
Definition main_memorize_fact (a : Args) : Py unit :=
  w <- get_world ;;
  let curr_time := PyTime.strftime time_format (PyTime.gmtime (clock w)) in
  fact <- str_add (curr_time ++ " ") (prompt a) ;;
  save_fact fact.

(** [main], lines 234-262: [--retrieve]. *)
Definition main_retrieve_fact (a : Args) (openai_api_key : json) : Py unit :=
  found <- path_exists FACT_MEMORY_FILE ;;
  if negb found then secho "No facts have been memorized yet." "red"
  else
    let query := prompt a in
    hf_api_key <- get_config "hugging_face_api_key" ;;
    all_facts <- read_fact_file ;;
    let filtered_facts :=
      filter_facts (hf_rank env) ("What is " ++ PyVal.format query ++ "?")
        all_facts embeddingRank hf_api_key in
    retrieval_prompt <-
      read_resource "prompts/fact_retrieval_v1.txt" (fact_retrieval_v1 env) ;;
    let full_prompt :=
      (retrieval_prompt ++ newline ++ filtered_facts ++ newline
       ++ " What is " ++ PyVal.format query ++ "?")%string in
    response_text <-
      openai_request (Some full_prompt) (model a) (max_tokens a)
        openai_api_key 0 (top_probability a) (spinner a) ;;
    let response_text := PyStr.strip response_text in
    typer_writer (JStr response_text) (code a) (shell a) (animation a).

(** [main], lines 264-292: no prompt and no editor. *)
Definition main_settings (a : Args) : Py unit :=
  if negb (set_history a =? 500)%Z then
    update_config "history_length" (JInt (set_history a)) ;;
    typer_writer
      (JStr ("History length set to " ++ PyStr.decimal (set_history a) ++ "."))
      false false (animation a)
  else
    match set_openai_api_key a with
    | Some k =>
        update_config "openai_api_key" (JStr k) ;;
        typer_writer (JStr "OpenAI API key set.") false false (animation a)
    | None =>
        match set_hugging_face_api_key a with
        | Some k =>
            update_config "hugging_face_api_key" (JStr k) ;;
            typer_writer (JStr "Hugging Face API key set.") false false
              (animation a)
        | None =>
            if ls_common a then ret tt
            else if ls_history a then ret tt
            else if ls_memory a then
              all_facts <- read_fact_file ;;
              print all_facts
            else raise (MissingParameter "PROMPT" "string")
        end
    end.

(** [main], lines 293-310: [--cache]. *)
Definition main_cache (a : Args) : Py unit :=
  match prompt a with
  | None => raise AttributeError
  | Some p =>
      if PyStr.isdigit p then
        data <- load_inst_memory ;;
        N <- lift (match PyVal.len data with
                   | Some n => inr n
                   | None => inl TypeError
                   end) ;;
        i <- lift (match PyStr.py_int p with
                   | Some i => inr i
                   | None => inl ValueError
                   end) ;;
        if (i >=? N)%Z then print "Index is out of range"
        else
          let reversed_index := (N - i - 1)%Z in
          record <- lift (PyVal.getitem_int data reversed_index) ;;
          output <- lift (PyVal.getitem_str record "output") ;;
          typer_writer output (code a) (shell a) (animation a)
      else print "need to implement lol"
  end.

(** [main], lines 312-344: ask for a completion. *)
Definition main_complete (a : Args) (openai_api_key : json) : Py unit :=
  let unchanged := Qeq_bool (temperature a) 1 && Qeq_bool 1 (top_probability a) in
  let '(temperature, top_probability, prompt) :=
    if shell a then
      (if unchanged then (2 # 10, 9 # 10)
       else (temperature a, top_probability a),
       Some (PyVal.format (prompt a)
               ++ ". Provide only shell command as output.")%string)
    else if code a then
      (if unchanged then (8 # 10, 2 # 10)
       else (temperature a, top_probability a),
       Some (PyVal.format (prompt a) ++ ". Provide only code as output.")%string)
    else (temperature a, top_probability a, prompt a) in
  let max_tokens :=
    match model a with
    | curie => if (max_tokens a =? 2048)%Z then 1024%Z else max_tokens a
    | _ => max_tokens a
    end in
  prompt <- (if editor a then emit Editor ;; ret (Some (edited_prompt env))
             else ret prompt) ;;
  response_text <-
    openai_request prompt (model a) max_tokens openai_api_key temperature
      top_probability (spinner a) ;;
  let response_text := PyStr.strip response_text in
  typer_writer (JStr response_text) (code a) (shell a) (animation a) ;;
  (if shell a then write_to_memory prompt response_text "bro" (favorite a)
   else ret tt) ;;
  if shell a && execute a then
    yes <- confirm "Execute shell command?" ;;
    if yes then system response_text else ret tt
  else ret tt.

Definition main (a : Args) : Py unit :=
  openai_api_key <- get_config "openai_api_key" ;;
  if add_instruction a then main_add_instruction a openai_api_key
  else if clear_facts a then clear_fact_memory
  else if memorize_fact a then main_memorize_fact a
  else if retrieve_fact a then main_retrieve_fact a openai_api_key
  else if PyVal.falsy (prompt a) && negb (editor a) then main_settings a
  else if cache a then main_cache a
  else main_complete a openai_api_key.

End Program.

(** * Properties *)

Local Close Scope Q_scope.

(** ** Running a computation *)

(** The world [w] after the events [es] were logged. *)
Definition logged (w : World) (es : list Event) : World :=
  mkWorld (clock w) (utc_offset w) (data_dir w) (inst_memory w) (temp_py w)
    (keyboard w) (log w ++ es).

(** The events a computation adds to the log of [w]. *)
Definition events_of {A} (c : Py A) (w : World) : list Event :=
  skipn (length (log w)) (log (snd (c w))).

(** The configuration file holds the OpenAI key [k]. *)
Definition config_ready (env : Env) (w : World) (k : json) : Prop :=
  exists text data,
    key_text w = Some text
    /\ yaml_safe_load env text = Some data
    /\ PyVal.getitem_str data "openai_api_key" = inr k.

(** What every invocation logs while it loads the configuration. *)
Definition config_events : list Event :=
  [Fs Exists KEY_FILE; Fs OpenRead KEY_FILE].

Lemma logged_logged w es1 es2 :
  logged (logged w es1) es2 = logged w (es1 ++ es2).
Proof. unfold logged; simpl. now rewrite <- app_assoc. Qed.

Lemma emit_run e w : emit e w = (Ok tt, logged w [e]).
Proof. reflexivity. Qed.

Lemma events_of_logged {A} (c : Py A) w r es :
  c w = (r, logged w es) -> events_of c w = es.
Proof.
  intros H. unfold events_of. rewrite H. simpl.
  rewrite skipn_app, skipn_all, Nat.sub_diag. reflexivity.
Qed.

Ltac run_all :=
  repeat (unfold bind, ret, raise, lift, get_world, path_exists, present,
            print, secho, typer_writer, system, emit, set_data_dir,
            set_inst_memory, set_temp_py, set_keyboard; simpl).

Ltac log_eq := unfold logged; simpl; rewrite <- ?app_assoc; reflexivity.

Ltac open_world w :=
  destruct w as [?clk ?off [[?kf ?ff]|] ?im ?tp ?kb ?lg];
  unfold key_text, fact_text in *; simpl in *.

Lemma get_config_ready env w k :
  config_ready env w k ->
  get_config env "openai_api_key" w = (Ok k, logged w config_events).
Proof.
  intros (text & data & Htext & Hyaml & Hkey).
  open_world w; [|discriminate]. subst kf.
  unfold get_config, load_key_file, read_key_file, key_text. run_all.
  rewrite Hyaml. simpl. rewrite Hkey. simpl.
  unfold logged, config_events. simpl. now rewrite <- app_assoc.
Qed.

Lemma bind_ok {A B} (c : Py A) (k : A -> Py B) w a w' :
  c w = (Ok a, w') -> bind c k w = k a w'.
Proof. intros H. unfold bind. now rewrite H. Qed.

Lemma bind_raised {A B} (c : Py A) (k : A -> Py B) w e w' :
  c w = (Raised e, w') -> bind c k w = (Raised e, w').
Proof. intros H. unfold bind. now rewrite H. Qed.

(** An invocation [sgpt --cache p] with no flag of a command that [main]
    tests before [--cache]. *)
Definition recall_call (a : Args) (p : string) : Prop :=
  add_instruction a = false /\ clear_facts a = false
  /\ memorize_fact a = false /\ retrieve_fact a = false
  /\ cache a = true /\ prompt a = Some p.

Lemma main_recall env a w k p :
  config_ready env w k -> recall_call a p ->
  PyStr.is_empty p && negb (editor a) = false ->
  main env a w = main_cache a (logged w config_events).
Proof.
  intros Hcfg (Ha & Hc & Hm & Hr & Hcache & Hp) Hne.
  unfold main. rewrite (bind_ok _ _ _ _ _ (get_config_ready _ _ _ Hcfg)).
  rewrite Ha, Hc, Hm, Hr, Hcache, Hp. simpl. now rewrite Hne.
Qed.

Record Interaction : Type := mkInteraction
  { r_input : string; r_output : string; r_name : string; r_favorite : bool }.

(** The stored form of an interaction, as [write_to_memory] builds it. *)
Definition entry (r : Interaction) : json :=
  dictionary (Some (r_input r)) (r_output r) (r_name r) (r_favorite r).

Lemma isdigit_nonempty p : PyStr.isdigit p = true -> PyStr.is_empty p = false.
Proof. destruct p; [discriminate | reflexivity]. Qed.

#[local] Arguments PyVal.getitem_int : simpl never.
#[local] Arguments PyVal.getitem_str : simpl never.
#[local] Arguments Z.geb : simpl never.
#[local] Arguments Z.sub : simpl never.
#[local] Arguments Z.of_nat : simpl never.

(** The cache branch on a list store and a token that reads as [i]. *)
Lemma main_cache_list a w p i items :
  prompt a = Some p -> PyStr.isdigit p = true ->
  PyStr.py_int p = Some i ->
  inst_memory w = Document (JList items) ->
  main_cache a w =
    if (i >=? Z.of_nat (length items))%Z
    then (Ok tt, logged w [Fs OpenReadWrite INST_MEMORY;
                            Print "Index is out of range"])
    else
      match PyVal.getitem_int (JList items) (Z.of_nat (length items) - i - 1) with
      | inl e => (Raised e, logged w [Fs OpenReadWrite INST_MEMORY])
      | inr record =>
          match PyVal.getitem_str record "output" with
          | inl e => (Raised e, logged w [Fs OpenReadWrite INST_MEMORY])
          | inr output =>
              (Ok tt, logged w [Fs OpenReadWrite INST_MEMORY;
                                 TyperWriter output (code a) (shell a) (animation a)])
          end
      end.
Proof.
  intros Hp Hd Hi Hs. unfold main_cache. rewrite Hp, Hd.
  open_world w; subst im; unfold load_inst_memory; run_all; rewrite Hi; simpl.
  all: destruct (i >=? Z.of_nat (length items))%Z; simpl; try log_eq.
  all: destruct (PyVal.getitem_int _ _) as [e|r]; simpl; try log_eq.
  all: destruct (PyVal.getitem_str _ _) as [e|o]; simpl; log_eq.
Qed.

Lemma getitem_int_list items j x :
  nth_error items j = Some x ->
  PyVal.getitem_int (JList items) (Z.of_nat j) = inr x.
Proof.
  intros H. unfold PyVal.getitem_int.
  assert (Hlt : j < length items) by (apply nth_error_Some; congruence).
  destruct (Z.ltb_spec (Z.of_nat j) 0); [lia|].
  destruct (Z.ltb_spec (Z.of_nat j) 0); [lia|].
  destruct (Z.leb_spec (Z.of_nat (length items)) (Z.of_nat j)); [lia|].
  simpl. now rewrite Nat2Z.id, H.
Qed.

Lemma entry_output r : PyVal.getitem_str (entry r) "output" = inr (JStr (r_output r)).
Proof. reflexivity. Qed.

(** C1. Reverse-index law: on a store of N >= 1 records, [--cache i] with
    i < N shows the output of the record at position N - i - 1; for i = 0
    that record is the last one appended, for i = N - 1 the first one. The
    index is given by a token that [int] reads as [i], which has at most
    [PyStr.int_max_str_digits] digits. *)
Theorem reverse_index_law env a w k p (i : nat) (rs : list Interaction) :
  config_ready env w k -> recall_call a p ->
  PyStr.isdigit p = true -> PyStr.py_int p = Some (Z.of_nat i) ->
  inst_memory w = Document (JList (map entry rs)) ->
  i < length rs ->
  exists r,
    nth_error rs (length rs - i - 1) = Some r
    /\ main env a w =
         (Ok tt, logged w (config_events ++
                   [Fs OpenReadWrite INST_MEMORY;
                    TyperWriter (JStr (r_output r)) (code a) (shell a) (animation a)]))
    /\ (i = 0 -> exists older, rs = older ++ [r])
    /\ (i = length rs - 1 -> exists newer, rs = r :: newer).
Proof.
  intros Hcfg Hcall Hd Hi Hs Hlt.
  destruct (nth_error rs (length rs - i - 1)) as [r|] eqn:Hr;
    [|apply nth_error_None in Hr; lia].
  exists r. split; [reflexivity|]. split; [|split].
  - rewrite (main_recall env a w k p Hcfg Hcall)
      by (now rewrite (isdigit_nonempty p Hd)).
    assert (Hp : prompt a = Some p) by apply Hcall.
    rewrite (main_cache_list a (logged w config_events) p (Z.of_nat i) (map entry rs) Hp Hd Hi Hs).
    rewrite length_map.
    destruct (Z.geb_spec (Z.of_nat i) (Z.of_nat (length rs))); [lia|].
    replace (Z.of_nat (length rs) - Z.of_nat i - 1)%Z
      with (Z.of_nat (length rs - i - 1)) by lia.
    rewrite (getitem_int_list _ _ (entry r)) by (now rewrite nth_error_map, Hr).
    rewrite entry_output. now rewrite logged_logged.
  - intros Hi0.
    destruct (exists_last (l := rs)) as (older & x & Hrs).
    { intros ->. simpl in Hlt. lia. }
    exists older. rewrite Hrs in Hr |- *. rewrite length_app in Hr. simpl in Hr.
    replace (length older + 1 - i - 1) with (length older) in Hr by lia.
    rewrite nth_error_app2, Nat.sub_diag in Hr by lia. simpl in Hr. congruence.
  - intros Hi1.
    replace (length rs - i - 1) with 0 in Hr by lia.
    destruct rs as [|x newer]; [discriminate|].
    exists newer. simpl in Hr. congruence.
Qed.

(** X21. Out of range, within the digit limit of [int]: on a store of N
    records, [--cache p] for a token [p] of digit characters that [int]
    reads as an index i >= N prints a notice and returns normally; nothing
    of the store is shown. *)
Theorem recall_out_of_range env a w k p (i : Z) (items : list json) :
  config_ready env w k -> recall_call a p ->
  PyStr.isdigit p = true -> PyStr.py_int p = Some i ->
  inst_memory w = Document (JList items) ->
  (Z.of_nat (length items) <= i)%Z ->
  main env a w =
    (Ok tt, logged w (config_events ++
              [Fs OpenReadWrite INST_MEMORY; Print "Index is out of range"]))
  /\ forall t c s n, ~ In (TyperWriter t c s n) (events_of (main env a) w).
Proof.
  intros Hcfg Hcall Hd Hi Hs Hge.
  assert (Hp : prompt a = Some p) by apply Hcall.
  assert (Hrun : main env a w =
    (Ok tt, logged w (config_events ++
              [Fs OpenReadWrite INST_MEMORY; Print "Index is out of range"]))).
  { rewrite (main_recall env a w k p Hcfg Hcall)
      by (now rewrite (isdigit_nonempty p Hd)).
    rewrite (main_cache_list a (logged w config_events) p i items Hp Hd Hi Hs).
    destruct (Z.geb_spec i (Z.of_nat (length items))); [|lia].
    now rewrite logged_logged. }
  split; [exact Hrun|].
  intros t c s n Hin. rewrite (events_of_logged _ _ _ _ Hrun) in Hin.
  simpl in Hin. intuition discriminate.
Qed.

(** ** A concrete environment and world *)

(** A configuration reader that understands the one line [create_config]
    writes. *)
Definition toy_yaml_load (text : string) : option json :=
  if PyStr.starts_with "openai_api_key: " text
  then Some (JDict [("openai_api_key", JStr (PyStr.drop 16 text))])
  else None.

Definition env0 : Env :=
  {| yaml_safe_load := toy_yaml_load;
     yaml_dump := fun _ => "openai_api_key: sk-test";
     completion := fun _ _ _ _ _ _ => inr "ls -la";
     hf_rank := fun _ _ _ => None;
     edited_prompt := "list files";
     script_path := "/opt/shell_gpt/sgpt.py";
     instruction_generation_v2 := None;
     fact_retrieval_v1 := None |}.

Definition list_files : Interaction := mkInteraction "list files" "ls -la" "bro" false.
Definition show_date : Interaction := mkInteraction "show date" "date" "bro" false.

(** Key file present, no fact file, two interactions stored; local time is
    one hour ahead of UTC. *)
Definition w0 : World :=
  {| clock := 1700000000;
     utc_offset := 3600;
     data_dir := Some (mkDir (Some "openai_api_key: sk-test") None);
     inst_memory := Document (JList [entry list_files; entry show_date]);
     temp_py := None;
     keyboard := [];
     log := [] |}.

Lemma w0_config_ready : config_ready env0 w0 (JStr "sk-test").
Proof. do 2 eexists. repeat split. Qed.

(** [sgpt --cache p] *)
Definition recall_args (p : string) : Args :=
  mkArgs (Some p) davinci 2048 1 1 true false false false false false false
    false false true true 500 None None false false false false.

Lemma recall_args_call p : recall_call (recall_args p) p.
Proof. repeat split. Qed.

(** The scenario of the spec: two interactions stored, the newest is shown
    for index 0, the oldest for index 1, and index 2 is out of range. *)
Lemma reverse_index_law_witness :
  exists r,
    nth_error [list_files; show_date] (2 - 0 - 1) = Some r
    /\ main env0 (recall_args "0") w0 =
         (Ok tt, logged w0 (config_events ++
                   [Fs OpenReadWrite INST_MEMORY;
                    TyperWriter (JStr (r_output r)) false false true]))
    /\ (0 = 0 -> exists older, [list_files; show_date] = older ++ [r])
    /\ (0 = 2 - 1 -> exists newer, [list_files; show_date] = r :: newer).
Proof.
  exact (reverse_index_law env0 (recall_args "0") w0 (JStr "sk-test") "0" 0
           [list_files; show_date] w0_config_ready (recall_args_call "0")
           eq_refl eq_refl eq_refl (Nat.lt_0_succ 1)).
Defined.

Example recall_newest :
  main env0 (recall_args "0") w0 =
    (Ok tt, logged w0 (config_events ++
              [Fs OpenReadWrite INST_MEMORY;
               TyperWriter (JStr "date") false false true])).
Proof. vm_compute. reflexivity. Qed.

Example recall_oldest :
  main env0 (recall_args "1") w0 =
    (Ok tt, logged w0 (config_events ++
              [Fs OpenReadWrite INST_MEMORY;
               TyperWriter (JStr "ls -la") false false true])).
Proof. vm_compute. reflexivity. Qed.

Lemma recall_out_of_range_witness :
  main env0 (recall_args "2") w0 =
    (Ok tt, logged w0 (config_events ++
              [Fs OpenReadWrite INST_MEMORY; Print "Index is out of range"]))
  /\ forall t c s n,
       ~ In (TyperWriter t c s n) (events_of (main env0 (recall_args "2")) w0).
Proof.
  exact (recall_out_of_range env0 (recall_args "2") w0 (JStr "sk-test") "2" 2
           [entry list_files; entry show_date] w0_config_ready
           (recall_args_call "2") eq_refl eq_refl eq_refl
           ltac:(simpl; lia)).
Defined.

(** A token over the digit limit of [int]: the numeral of 4301 ones. *)
Definition many_ones : string := N.iter 4301 (String "1") EmptyString.

(** C2. Out of range, as stated, fails on the code for an index whose
    numeral is over the digit limit of [int]. The token of 4301 ones passes
    [isdigit] and denotes an index beyond the two stored records; [main]
    loads the store, and [int] refuses the token: the invocation ends in an
    uncaught [ValueError], without the notice. *)
Theorem recall_beyond_digit_limit :
  Z.of_nat (String.length many_ones) = 4301%Z
  /\ PyStr.isdigit many_ones = true
  /\ (exists i, PyStr.parse_digits 0 false many_ones = Some i
                /\ (Z.of_nat (length [entry list_files; entry show_date]) <= i)%Z)
  /\ PyStr.py_int many_ones = None
  /\ main env0 (recall_args many_ones) w0 =
       (Raised ValueError,
        logged w0 (config_events ++ [Fs OpenReadWrite INST_MEMORY]))
  /\ ~ In (Print "Index is out of range")
         (events_of (main env0 (recall_args many_ones)) w0).
Proof.
  split; [vm_compute; reflexivity|].
  split; [vm_compute; reflexivity|].
  split.
  { eexists. split; [vm_compute; reflexivity|].
    vm_compute. intros H. discriminate H. }
  split; [vm_compute; reflexivity|].
  assert (Hrun : main env0 (recall_args many_ones) w0 =
            (Raised ValueError,
             logged w0 (config_events ++ [Fs OpenReadWrite INST_MEMORY])))
    by (vm_compute; reflexivity).
  split; [exact Hrun|].
  rewrite (events_of_logged _ _ _ _ Hrun). simpl. intuition discriminate.
Qed.

(** ** The interaction store *)

(** C3. Append monotonicity: [write_to_memory] lengthens the stored list by
    exactly one record, placed last; the records already stored keep their
    positions and contents. *)
Theorem append_monotone input_text output_text name favorite w items :
  inst_memory w = Document (JList items) ->
  exists w' items',
    write_to_memory input_text output_text name favorite w = (Ok tt, w')
    /\ inst_memory w' = Document (JList items')
    /\ length items' = S (length items)
    /\ firstn (length items) items' = items
    /\ (forall j x, nth_error items j = Some x -> nth_error items' j = Some x)
    /\ nth_error items' (length items) =
         Some (dictionary input_text output_text name favorite)
    /\ data_dir w' = data_dir w.
Proof.
  intros Hs.
  exists (mkWorld (clock w) (utc_offset w) (data_dir w)
            (Document (JList (items ++ [dictionary input_text output_text name favorite])))
            (temp_py w) (keyboard w)
            (log w ++ [Fs OpenReadWrite INST_MEMORY; Fs OpenWrite INST_MEMORY])),
         (items ++ [dictionary input_text output_text name favorite]).
  split; [|split; [reflexivity|split; [|split; [|split; [|split]]]]].
  - unfold write_to_memory, load_inst_memory, dump_inst_memory.
    open_world w; subst im; run_all; now rewrite <- app_assoc.
  - rewrite length_app. simpl. lia.
  - now rewrite firstn_app, Nat.sub_diag, firstn_all, app_nil_r.
  - intros j x Hj. rewrite nth_error_app1; [exact Hj|].
    apply nth_error_Some. congruence.
  - now rewrite nth_error_app2, Nat.sub_diag by lia.
  - reflexivity.
Qed.

Lemma append_monotone_witness :
  exists w' items',
    write_to_memory (Some "show date") "date" "bro" false w0 = (Ok tt, w')
    /\ inst_memory w' = Document (JList items')
    /\ length items' = 3
    /\ firstn 2 items' = [entry list_files; entry show_date]
    /\ (forall j x, nth_error [entry list_files; entry show_date] j = Some x ->
                    nth_error items' j = Some x)
    /\ nth_error items' 2 = Some (dictionary (Some "show date") "date" "bro" false)
    /\ data_dir w' = data_dir w0.
Proof.
  exact (append_monotone (Some "show date") "date" "bro" false w0
           [entry list_files; entry show_date] eq_refl).
Defined.

(** The failures of the backing file that the spec calls PersistenceError. *)
Definition PersistenceError (e : PyErr) : Prop :=
  e = FileNotFoundError \/ e = PermissionError \/ e = JSONDecodeError.

(** A backing file that is missing, unreadable or not valid JSON. *)
Definition unusable (f : InstFile) : Prop :=
  match f with Document _ => False | _ => True end.

(** C8. [write_to_memory] on a missing, unreadable or garbled file raises
    and leaves the file as it was: it is not created. [save_fact] on a
    missing fact file creates it. *)
Theorem append_needs_store :
  (forall input_text output_text name favorite w,
     unusable (inst_memory w) ->
     exists e,
       PersistenceError e
       /\ write_to_memory input_text output_text name favorite w =
            (Raised e, logged w [Fs OpenReadWrite INST_MEMORY]))
  /\ (forall fact w,
        fact_text w = None ->
        exists w',
          save_fact fact w = (Ok tt, w')
          /\ fact_text w' = Some (fact ++ newline)%string
          /\ inst_memory w' = inst_memory w).
Proof.
  split.
  - intros input_text output_text name favorite w Hu.
    unfold write_to_memory, load_inst_memory, PersistenceError.
    open_world w; destruct im; try contradiction; run_all; eauto 6.
  - intros fact w Hf. unfold save_fact, mkdir_parent, append_fact_file.
    open_world w; [subst ff|]; run_all; eauto.
Qed.

Lemma append_needs_store_witness :
  (exists e,
     PersistenceError e
     /\ write_to_memory (Some "list files") "ls -la" "bro" false
          (mkWorld 0 0 None Absent None [] []) =
          (Raised e, logged (mkWorld 0 0 None Absent None [] [])
                       [Fs OpenReadWrite INST_MEMORY]))
  /\ (exists w',
        save_fact "12:00:00 01/01/2024 coffee machine is broken"
          (mkWorld 0 0 None Absent None [] []) = (Ok tt, w')
        /\ fact_text w' =
             Some ("12:00:00 01/01/2024 coffee machine is broken" ++ newline)%string
        /\ inst_memory w' = Absent).
Proof.
  split.
  - exact (proj1 append_needs_store (Some "list files") "ls -la" "bro" false
             (mkWorld 0 0 None Absent None [] []) I).
  - exact (proj2 append_needs_store "12:00:00 01/01/2024 coffee machine is broken"
             (mkWorld 0 0 None Absent None [] []) eq_refl).
Defined.

(** ** The relevance filter *)

(** C9. Passthrough fidelity: in mode [passthrough] the filter returns the
    fact text it was given, whatever the query, the credentials and the
    ranking service; the empty text included. *)
Theorem filter_passthrough rank query text credentials :
  filter_facts rank query text passthrough credentials = text
  /\ filter_facts rank query EmptyString passthrough credentials = EmptyString.
Proof. split; reflexivity. Qed.

(** ** Tokens that are not an index *)

(** U+00B2, superscript two: a digit for [str.isdigit], not for [int]. *)
Definition superscript_two : string := String "178" EmptyString.

(** A token that [int] does not read as a non-negative integer. *)
Definition unparseable (p : string) : bool :=
  match PyStr.py_int p with
  | Some n => (n <? 0)%Z
  | None => true
  end.

(** What the caller of one invocation observes: how it ended and what it
    logged. *)
Definition report (env : Env) (a : Args) (w : World) : Res unit * list Event :=
  (fst (main env a w), events_of (main env a) w).

(** The cache branch on a token that [str.isdigit] rejects. *)
Lemma main_cache_non_digit a w p :
  prompt a = Some p -> PyStr.isdigit p = false ->
  main_cache a w = (Ok tt, logged w [Print "need to implement lol"]).
Proof. intros Hp Hd. unfold main_cache. now rewrite Hp, Hd. Qed.

(** C7, as amended. A token that [str.isdigit] rejects is answered with the
    placeholder notice of the unimplemented free-text branch: the call
    returns normally, the store is not opened, and the notice is not the
    out-of-range notice. *)
Theorem recall_non_digit env a w k p :
  config_ready env w k -> recall_call a p ->
  PyStr.isdigit p = false ->
  PyStr.is_empty p && negb (editor a) = false ->
  main env a w =
    (Ok tt, logged w (config_events ++ [Print "need to implement lol"]))
  /\ ~ In (Fs OpenReadWrite INST_MEMORY) (events_of (main env a) w)
  /\ ~ In (Print "Index is out of range") (events_of (main env a) w).
Proof.
  intros Hcfg Hcall Hd Hne.
  assert (Hrun : main env a w =
    (Ok tt, logged w (config_events ++ [Print "need to implement lol"]))).
  { rewrite (main_recall env a w k p Hcfg Hcall Hne).
    rewrite (main_cache_non_digit a _ p) by (apply Hcall || exact Hd).
    now rewrite logged_logged. }
  split; [exact Hrun|].
  rewrite (events_of_logged _ _ _ _ Hrun). simpl.
  split; intros H; intuition discriminate.
Qed.

Lemma recall_non_digit_witness :
  main env0 (recall_args "-1") w0 =
    (Ok tt, logged w0 (config_events ++ [Print "need to implement lol"]))
  /\ ~ In (Fs OpenReadWrite INST_MEMORY) (events_of (main env0 (recall_args "-1")) w0)
  /\ ~ In (Print "Index is out of range") (events_of (main env0 (recall_args "-1")) w0).
Proof.
  exact (recall_non_digit env0 (recall_args "-1") w0 (JStr "sk-test") "-1"
           w0_config_ready (recall_args_call "-1") eq_refl eq_refl).
Defined.

(** C7, as stated, fails: [abc] and superscript two are both unparseable,
    yet the first is answered by a normal return with the placeholder
    notice and the second by an uncaught [ValueError]; no single
    invalid-index report covers the unparseable tokens. *)
Lemma invalid_index_not_uniform :
  unparseable "abc" = true
  /\ unparseable superscript_two = true
  /\ report env0 (recall_args "abc") w0 =
       (Ok tt, config_events ++ [Print "need to implement lol"])
  /\ report env0 (recall_args superscript_two) w0 =
       (Raised ValueError, config_events ++ [Fs OpenReadWrite INST_MEMORY])
  /\ ~ (exists invalid_index,
          forall p, unparseable p = true ->
                    report env0 (recall_args p) w0 = invalid_index).
Proof.
  assert (H1 : report env0 (recall_args "abc") w0 =
                 (Ok tt, config_events ++ [Print "need to implement lol"]))
    by (vm_compute; reflexivity).
  assert (H2 : report env0 (recall_args superscript_two) w0 =
                 (Raised ValueError, config_events ++ [Fs OpenReadWrite INST_MEMORY]))
    by (vm_compute; reflexivity).
  split; [reflexivity|]. split; [reflexivity|].
  split; [exact H1|]. split; [exact H2|].
  intros (r & Hr).
  pose proof (Hr "abc" eq_refl) as Ha.
  pose proof (Hr superscript_two eq_refl) as Hb.
  rewrite H1 in Ha. rewrite H2 in Hb. rewrite <- Hb in Ha. discriminate.
Qed.

(** ** Reading facts before any was written *)

(** [sgpt --retrieve p] *)
Definition retrieve_args (p : string) : Args :=
  mkArgs (Some p) davinci 2048 1 1 false false false false false true false
    false false true true 500 None None false false false false.

(** [sgpt --list_memory] *)
Definition list_memory_args : Args :=
  mkArgs None davinci 2048 1 1 false false false false false false false
    false false true true 500 None None false false false true.

(** [--retrieve] without a fact file: a notice and a normal return. *)
Lemma retrieve_without_store env a w k :
  config_ready env w k ->
  add_instruction a = false -> clear_facts a = false ->
  memorize_fact a = false -> retrieve_fact a = true ->
  fact_text w = None ->
  main env a w =
    (Ok tt, logged w (config_events ++
              [Fs Exists FACT_MEMORY_FILE;
               Secho "No facts have been memorized yet." "red"])).
Proof.
  intros Hcfg Ha Hc Hm Hr Hf.
  unfold main. rewrite (bind_ok _ _ _ _ _ (get_config_ready _ _ _ Hcfg)).
  rewrite Ha, Hc, Hm, Hr. unfold main_retrieve_fact.
  open_world w; [subst ff|]; run_all; log_eq.
Qed.

(** [--list_memory] without a fact file: [read_text] raises. *)
Lemma list_memory_without_store env a w k :
  config_ready env w k ->
  add_instruction a = false -> clear_facts a = false ->
  memorize_fact a = false -> retrieve_fact a = false ->
  PyVal.falsy (prompt a) = true -> editor a = false ->
  set_history a = 500%Z -> set_openai_api_key a = None ->
  set_hugging_face_api_key a = None ->
  ls_common a = false -> ls_history a = false -> ls_memory a = true ->
  fact_text w = None ->
  main env a w =
    (Raised FileNotFoundError,
     logged w (config_events ++ [Fs OpenRead FACT_MEMORY_FILE])).
Proof.
  intros Hcfg Ha Hc Hm Hr Hp He Hh Ho Hg Hlc Hlh Hlm Hf.
  unfold main. rewrite (bind_ok _ _ _ _ _ (get_config_ready _ _ _ Hcfg)).
  rewrite Ha, Hc, Hm, Hr, Hp, He. simpl.
  unfold main_settings. rewrite Hh, Ho, Hg, Hlc, Hlh, Hlm. simpl.
  unfold read_fact_file.
  open_world w; [subst ff|]; run_all; log_eq.
Qed.

(** C4. On a world whose fact file was never created, [--retrieve] answers
    with a notice and returns, while [--list_memory] ends in an uncaught
    [FileNotFoundError]. *)
Theorem list_memory_fails_on_fresh_store :
  fact_text w0 = None
  /\ main env0 (retrieve_args "coffee") w0 =
       (Ok tt, logged w0 (config_events ++
                 [Fs Exists FACT_MEMORY_FILE;
                  Secho "No facts have been memorized yet." "red"]))
  /\ main env0 list_memory_args w0 =
       (Raised FileNotFoundError,
        logged w0 (config_events ++ [Fs OpenRead FACT_MEMORY_FILE])).
Proof.
  split; [reflexivity|split].
  - now apply (retrieve_without_store env0 _ w0 (JStr "sk-test") w0_config_ready).
  - now apply (list_memory_without_store env0 _ w0 (JStr "sk-test") w0_config_ready).
Qed.

(** ** The time stamp *)

Module TimeStamp.
Import PyTime.
Local Open Scope Z_scope.

(** [p] holds of the [n] integers from [z] on. *)
Fixpoint holds_from (n : nat) (z : Z) (p : Z -> bool) : bool :=
  match n with
  | O => true
  | S k => p z && holds_from k (z + 1) p
  end.

Lemma holds_from_spec n p :
  forall z0, holds_from n z0 p = true ->
  forall z, z0 <= z < z0 + Z.of_nat n -> p z = true.
Proof.
  induction n as [|k IH]; intros z0 H z Hz; [lia|].
  simpl in H. apply andb_prop in H. destruct H as [Hk Hrest].
  destruct (Z.eq_dec z z0) as [->|Hne]; [exact Hk|].
  apply (IH (z0 + 1)); [exact Hrest | lia].
Qed.

(** The calendar fields of one era, checked day by day: the month and the
    day of the month are in range, and the year of the era, counted from
    January, crosses 200 and 400 on the expected days. *)
Definition era_day_ok (doe : Z) : bool :=
  let yoe := (doe - doe / 1460 + doe / 36524 - doe / 146096) / 365 in
  let doy := doe - (365 * yoe + yoe / 4 - yoe / 100) in
  let mp := (5 * doy + 2) / 153 in
  let m := if mp <? 10 then mp + 3 else mp - 9 in
  let d := doy - (153 * mp + 2) / 5 + 1 in
  let y := if m <=? 2 then yoe + 1 else yoe in
  (1 <=? m) && (m <=? 12) && (1 <=? d) && (d <=? 31)
  && (0 <=? y) && (y <=? 400)
  && (if 72989 <=? doe then 200 <=? y else true)
  && (if doe <=? 146036 then y <=? 399 else true).

Lemma era_days_ok : holds_from (Z.to_nat 146097) 0 era_day_ok = true.
Proof. vm_compute. reflexivity. Qed.


Lemma era_day_fields doe :
  0 <= doe < 146097 ->
  let y := if month_of doe <=? 2 then year_of_era doe + 1 else year_of_era doe in
  1 <= month_of doe <= 12 /\ 1 <= day_of_month doe <= 31
  /\ 0 <= y <= 400
  /\ (72989 <= doe -> 200 <= y) /\ (doe <= 146036 -> y <= 399).
Proof.
  intros Hdoe.
  pose proof (holds_from_spec _ _ _ era_days_ok doe) as H.
  rewrite Z2Nat.id in H by lia. specialize (H ltac:(lia)).
  unfold era_day_ok in H.
  change ((doe - doe / 1460 + doe / 36524 - doe / 146096) / 365)
    with (year_of_era doe) in H.
  change (doe - (365 * year_of_era doe + year_of_era doe / 4
                 - year_of_era doe / 100))
    with (day_of_year doe) in H.
  change ((5 * day_of_year doe + 2) / 153) with (month_from_march doe) in H.
  change (if month_from_march doe <? 10 then month_from_march doe + 3
          else month_from_march doe - 9) with (month_of doe) in H.
  change (day_of_year doe - (153 * month_from_march doe + 2) / 5 + 1)
    with (day_of_month doe) in H.
  cbv zeta in H |- *.
  repeat (apply andb_prop in H; destruct H as [H ?]).
  repeat match goal with
         | H : (_ <=? _) = true |- _ => apply Z.leb_le in H
         end.
  repeat split; try lia.
  - intros Hge. destruct (Z.leb_spec 72989 doe); [|lia].
    now apply Z.leb_le.
  - intros Hle. destruct (Z.leb_spec doe 146036); [|lia].
    now apply Z.leb_le.
Qed.

(** Clock readings from 1000-01-01T00:00:00Z to 9999-12-31T23:59:59Z. *)
Definition four_digit_years (secs : Z) : Prop :=
  -30610224000 <= secs < 253402300800.

Lemma gmtime_fields secs :
  four_digit_years secs ->
  let t := gmtime secs in
  0 <= tm_hour t <= 23 /\ 0 <= tm_min t <= 59 /\ 0 <= tm_sec t <= 59
  /\ 1 <= tm_mday t <= 31 /\ 1 <= tm_mon t <= 12
  /\ 1000 <= tm_year t <= 9999.
Proof.
  unfold four_digit_years. intros Hs. unfold gmtime. cbv zeta. simpl.
  set (days := secs / 86400).
  set (rem := secs mod 86400).
  set (z := days + 719468).
  set (era := z / 146097).
  set (doe := z mod 146097).
  assert (Hrem : 0 <= rem < 86400) by (apply Z.mod_pos_bound; lia).
  assert (Hdays : -354285 <= days <= 2932896).
  { unfold days. split.
    - apply Z.div_le_lower_bound; lia.
    - apply Z.lt_succ_r. apply Z.div_lt_upper_bound; lia. }
  assert (Hdoe : 0 <= doe < 146097) by (apply Z.mod_pos_bound; lia).
  assert (Hz : z = 146097 * era + doe) by (apply Z.div_mod; lia).
  assert (Hera : 2 <= era <= 24) by lia.
  destruct (era_day_fields doe Hdoe) as (Hm & Hd & Hy & Hlo & Hhi).
  assert (Hyear :
    (if month_of doe <=? 2 then year_of_era doe + era * 400 + 1
     else year_of_era doe + era * 400)
    = (if month_of doe <=? 2 then year_of_era doe + 1 else year_of_era doe)
      + era * 400) by (destruct (month_of doe <=? 2); lia).
  rewrite Hyear.
  repeat split; try lia.
  - apply Z.div_pos; lia.
  - apply Z.lt_succ_r. apply Z.div_lt_upper_bound; lia.
  - apply Z.div_pos; [apply Z.mod_pos_bound|]; lia.
  - apply Z.lt_succ_r. apply Z.div_lt_upper_bound; [lia|].
    pose proof (Z.mod_pos_bound rem 3600). lia.
  - apply Z.mod_pos_bound; lia.
  - pose proof (Z.mod_pos_bound rem 60). lia.
Qed.


Lemma digit_char_decimal d :
  0 <= d <= 9 -> PyStr.char_isdecimal (PyStr.digit_char d) = true.
Proof.
  intros H.
  assert (d = 0 \/ d = 1 \/ d = 2 \/ d = 3 \/ d = 4 \/ d = 5 \/ d = 6
          \/ d = 7 \/ d = 8 \/ d = 9) as Hd by lia.
  repeat (destruct Hd as [->|Hd]; [reflexivity|]). now subst.
Qed.

Lemma digit_char_mod n : PyStr.char_isdecimal (PyStr.digit_char (n mod 10)) = true.
Proof. apply digit_char_decimal. pose proof (Z.mod_pos_bound n 10). lia. Qed.

(** A year of four digits prints as its four digits. *)
Lemma decimal_year y :
  1000 <= y <= 9999 ->
  PyStr.decimal y =
    String (PyStr.digit_char (y / 10 / 10 / 10 mod 10))
      (String (PyStr.digit_char (y / 10 / 10 mod 10))
         (String (PyStr.digit_char (y / 10 mod 10))
            (String (PyStr.digit_char (y mod 10)) EmptyString))).
Proof.
  intros Hy. unfold PyStr.decimal.
  destruct (Z.ltb_spec y 0); [lia|].
  assert (Hlog : 9 <= Z.log2 y).
  { change 9 with (Z.log2 1000). apply Z.log2_le_mono. lia. }
  destruct (Z.to_nat (Z.log2 y)) as [|[|[|f]]] eqn:E; try lia.
  cbn [PyStr.dec_digits].
  destruct (Z.ltb_spec y 10); [lia|].
  destruct (Z.ltb_spec (y / 10) 10);
    [Z.to_euclidean_division_equations; lia|].
  destruct (Z.ltb_spec (y / 10 / 10) 10);
    [Z.to_euclidean_division_equations; lia|].
  destruct (Z.ltb_spec (y / 10 / 10 / 10) 10);
    [reflexivity|Z.to_euclidean_division_equations; lia].
Qed.

Lemma append_nil_r (s : string) : (s ++ EmptyString)%string = s.
Proof. induction s as [|c s IH]; simpl; [reflexivity | now rewrite IH]. Qed.

Lemma append_assoc (a b c : string) :
  ((a ++ b) ++ c)%string = (a ++ b ++ c)%string.
Proof. induction a as [|x a IH]; simpl; [reflexivity | now rewrite IH]. Qed.

Lemma strftime_time_format t :
  strftime time_format t =
    (pad2 (tm_hour t) ++ ":" ++ pad2 (tm_min t) ++ ":" ++ pad2 (tm_sec t)
     ++ " " ++ pad2 (tm_mday t) ++ "/" ++ pad2 (tm_mon t) ++ "/"
     ++ PyStr.decimal (tm_year t))%string.
Proof.
  unfold time_format. cbn [strftime]. unfold directive. simpl.
  now rewrite append_nil_r.
Qed.

(** The time stamp of a clock reading in the years 1000 to 9999 has the
    shape HH:MM:SS DD/MM/YYYY. *)
Lemma timestamp_shape secs :
  four_digit_years secs ->
  is_timestamp (strftime time_format (gmtime secs)) = true.
Proof.
  intros Hs. destruct (gmtime_fields secs Hs) as (_ & _ & _ & _ & _ & Hy).
  rewrite strftime_time_format, (decimal_year _ Hy).
  unfold pad2, is_timestamp. cbn [String.append forallb].
  rewrite !digit_char_mod. reflexivity.
Qed.


Lemma decimal_not_newline c :
  PyStr.char_isdecimal c = true -> Ascii.eqb c "010" = false.
Proof.
  destruct c as [[] [] [] [] [] [] [] []]; intros H;
    try reflexivity; discriminate H.
Qed.

Lemma timestamp_one_line secs :
  four_digit_years secs ->
  PyStr.has_newline (strftime time_format (gmtime secs)) = false.
Proof.
  intros Hs. destruct (gmtime_fields secs Hs) as (_ & _ & _ & _ & _ & Hy).
  rewrite strftime_time_format, (decimal_year _ Hy).
  unfold pad2, PyStr.has_newline. cbn [String.append PyStr.all_chars].
  rewrite !(decimal_not_newline _ (digit_char_mod _)). reflexivity.
Qed.

Lemma decimal_not_return c :
  PyStr.char_isdecimal c = true -> Ascii.eqb c "013" = false.
Proof.
  destruct c as [[] [] [] [] [] [] [] []]; intros H;
    try reflexivity; discriminate H.
Qed.

(** The time stamp holds no line feed and no carriage return. *)
Lemma timestamp_no_line_break secs :
  four_digit_years secs ->
  PyStr.has_line_break (strftime time_format (gmtime secs)) = false.
Proof.
  intros Hs. destruct (gmtime_fields secs Hs) as (_ & _ & _ & _ & _ & Hy).
  rewrite strftime_time_format, (decimal_year _ Hy).
  unfold pad2, PyStr.has_line_break. cbn [String.append PyStr.all_chars].
  rewrite !(decimal_not_newline _ (digit_char_mod _)),
    !(decimal_not_return _ (digit_char_mod _)). reflexivity.
Qed.

End TimeStamp.

(** ** Lines of text *)

Module LineFacts.
Import TimeStamp.

Lemma lines_not_nil s : PyStr.lines s <> [].
Proof.
  destruct s as [|c s]; simpl; [discriminate|].
  destruct (Ascii.eqb c "010"); [discriminate|].
  destruct (PyStr.lines s); discriminate.
Qed.

Lemma lines_app_newline a b :
  PyStr.lines (a ++ newline ++ b) = PyStr.lines a ++ PyStr.lines b.
Proof.
  induction a as [|c a IH]; [reflexivity|].
  cbn [String.append PyStr.lines]. rewrite IH.
  destruct (Ascii.eqb c "010"); [reflexivity|].
  destruct (PyStr.lines a) as [|l ls] eqn:E; [now apply lines_not_nil in E|].
  reflexivity.
Qed.

Lemma lines_one_line s :
  PyStr.has_newline s = false -> PyStr.lines s = [s].
Proof.
  unfold PyStr.has_newline. induction s as [|c s IH]; [reflexivity|].
  cbn [PyStr.all_chars PyStr.lines]. intros H.
  apply negb_false_iff, andb_prop in H. destruct H as [Hc Hs].
  apply negb_true_iff in Hc. rewrite Hc.
  rewrite IH by (now apply negb_false_iff). reflexivity.
Qed.

Lemma has_newline_app a b :
  PyStr.has_newline (a ++ b) = PyStr.has_newline a || PyStr.has_newline b.
Proof.
  unfold PyStr.has_newline. induction a as [|c a IH]; [reflexivity|].
  cbn [String.append PyStr.all_chars].
  destruct (Ascii.eqb c "010"); [reflexivity|]. simpl. exact IH.
Qed.

(** A fact text that is empty or ends with a line feed, as every text that
    [save_fact] has written does. *)
Definition newline_terminated (s : string) : Prop :=
  s = EmptyString \/ exists t, s = (t ++ newline)%string.

(** Appending one entry without a line feed, and then a line feed, to a
    terminated text adds exactly the line of that entry. *)
Lemma lines_append_entry old e :
  newline_terminated old -> PyStr.has_newline e = false ->
  exists L,
    PyStr.lines old = L ++ [EmptyString]
    /\ PyStr.lines (old ++ e ++ newline) = L ++ [e; EmptyString].
Proof.
  intros [->|(t & ->)] He.
  - exists []. split; [reflexivity|].
    change (EmptyString ++ e ++ newline)%string
      with (e ++ newline ++ EmptyString)%string.
    now rewrite lines_app_newline, (lines_one_line e He).
  - exists (PyStr.lines t). split.
    + change (t ++ newline)%string with (t ++ newline ++ EmptyString)%string.
      now rewrite lines_app_newline.
    + rewrite append_assoc.
      change (newline ++ e ++ newline)%string
        with (newline ++ (e ++ newline ++ EmptyString))%string.
      now rewrite !lines_app_newline, (lines_one_line e He).
Qed.

(** *** Newline translation *)

(** The last character of [s] is a carriage return; [b] answers for the
    empty text. *)
Fixpoint ends_with_return (b : bool) (s : string) : bool :=
  match s with
  | EmptyString => b
  | String c r => ends_with_return (Ascii.eqb c "013") r
  end.

Lemma ends_with_return_app b a x :
  ends_with_return b (a ++ x) = ends_with_return (ends_with_return b a) x.
Proof.
  revert b. induction a as [|c a IH]; intros b; [reflexivity|].
  cbn [String.append ends_with_return]. apply IH.
Qed.

(** Translation goes through a concatenation, the second part told whether
    the first ended in a carriage return. *)
Lemma translate_newlines_app b a x :
  PyStr.translate_newlines b (a ++ x) =
    (PyStr.translate_newlines b a
     ++ PyStr.translate_newlines (ends_with_return b a) x)%string.
Proof.
  revert b. induction a as [|c a IH]; intros b; [reflexivity|].
  cbn [String.append PyStr.translate_newlines ends_with_return].
  destruct (Ascii.eqb c "013") eqn:Ecr.
  - rewrite IH. reflexivity.
  - destruct (Ascii.eqb c "010"); [destruct b|]; rewrite IH; reflexivity.
Qed.

Lemma has_line_break_app a b :
  PyStr.has_line_break (a ++ b)
  = PyStr.has_line_break a || PyStr.has_line_break b.
Proof.
  unfold PyStr.has_line_break. induction a as [|c a IH]; [reflexivity|].
  cbn [String.append PyStr.all_chars].
  destruct (Ascii.eqb c "010" || Ascii.eqb c "013"); [reflexivity|].
  simpl. exact IH.
Qed.

Lemma no_line_break_no_newline s :
  PyStr.has_line_break s = false -> PyStr.has_newline s = false.
Proof.
  unfold PyStr.has_line_break, PyStr.has_newline.
  induction s as [|c s IH]; [reflexivity|].
  cbn [PyStr.all_chars]. intros H.
  apply negb_false_iff, andb_prop in H. destruct H as [Hc Hs].
  apply negb_true_iff, orb_false_elim in Hc. destruct Hc as [Hc _].
  rewrite Hc. simpl. apply IH. now apply negb_false_iff.
Qed.

(** A text without line feed and carriage return is read as it is. *)
Lemma translate_newlines_plain s :
  PyStr.has_line_break s = false ->
  forall b, PyStr.translate_newlines b s = s /\ ends_with_return false s = false.
Proof.
  unfold PyStr.has_line_break. induction s as [|c s IH]; intros H b.
  - split; reflexivity.
  - cbn [PyStr.all_chars] in H.
    apply negb_false_iff, andb_prop in H. destruct H as [Hc Hs].
    apply negb_true_iff, orb_false_elim in Hc. destruct Hc as [Hlf Hcr].
    cbn [PyStr.translate_newlines ends_with_return]. rewrite Hlf, Hcr.
    destruct (IH (proj2 (negb_false_iff _) Hs) false) as [-> ->].
    split; reflexivity.
Qed.

(** A text that ends in a carriage return is read as one that ends in a
    line feed. *)
Lemma translate_newlines_return s :
  forall b b', ends_with_return b s = true ->
    s = EmptyString \/ exists u, PyStr.translate_newlines b' s = (u ++ newline)%string.
Proof.
  induction s as [|c s IH]; intros b b' H; [now left|]. right.
  cbn [ends_with_return] in H. cbn [PyStr.translate_newlines].
  destruct (Ascii.eqb c "013") eqn:Ecr.
  - destruct (IH true true H) as [->|(u & ->)].
    + exists EmptyString. reflexivity.
    + exists (String "010" u). reflexivity.
  - destruct (IH false false H) as [->|(u & Hu)]; [discriminate H|].
    rewrite Hu. destruct (Ascii.eqb c "010"); [destruct b'|].
    + exists u. reflexivity.
    + exists (String "010" u). reflexivity.
    + exists (String c u). reflexivity.
Qed.

(** A terminated text is read as a terminated text, and does not leave a
    carriage return pending. *)
Lemma universal_newlines_terminated old :
  newline_terminated old ->
  newline_terminated (PyStr.universal_newlines old)
  /\ ends_with_return false old = false.
Proof.
  unfold PyStr.universal_newlines.
  intros [->|(t & ->)]; [split; [now left | reflexivity]|].
  rewrite translate_newlines_app, ends_with_return_app. split; [|reflexivity].
  right. destruct (ends_with_return false t) eqn:E.
  - destruct (translate_newlines_return t false false E) as [->|(u & ->)];
      [discriminate E|].
    exists u. cbn [PyStr.translate_newlines newline]. simpl.
    now rewrite append_nil_r.
  - exists (PyStr.translate_newlines false t). reflexivity.
Qed.

(** Reading back a terminated text to which one entry without line feed and
    carriage return, and then a line feed, were appended: the entry is
    exactly one more line. *)
Lemma read_back_entry old e :
  newline_terminated old -> PyStr.has_line_break e = false ->
  exists L,
    PyStr.lines (PyStr.universal_newlines old) = L ++ [EmptyString]
    /\ PyStr.lines (PyStr.universal_newlines (old ++ e ++ newline))
       = L ++ [e; EmptyString].
Proof.
  intros Hold He.
  destruct (universal_newlines_terminated old Hold) as [Hterm Hpend].
  destruct (translate_newlines_plain e He false) as [Hplain Hend].
  assert (E : PyStr.universal_newlines (old ++ e ++ newline)
              = (PyStr.universal_newlines old ++ e ++ newline)%string).
  { unfold PyStr.universal_newlines.
    rewrite translate_newlines_app, Hpend, translate_newlines_app, Hplain, Hend.
    reflexivity. }
  rewrite E. apply lines_append_entry; [exact Hterm|].
  now apply no_line_break_no_newline.
Qed.

End LineFacts.

(** ** Index tokens *)

Module TokenFacts.
Import PyStr.

Lemma all_chars_forallb p s :
  all_chars p s = forallb p (list_ascii_of_string s).
Proof. induction s as [|c s IH]; simpl; [reflexivity | now rewrite IH]. Qed.

Lemma all_chars_reverse p s : all_chars p (reverse s) = all_chars p s.
Proof.
  unfold reverse. rewrite !all_chars_forallb, list_ascii_of_string_of_list_ascii.
  destruct (forallb p (list_ascii_of_string s)) eqn:E.
  - apply forallb_forall. intros x Hx. apply in_rev in Hx.
    now apply (proj1 (forallb_forall _ _) E).
  - destruct (forallb p (rev _)) eqn:E'; [|reflexivity].
    rewrite <- E. symmetry. apply forallb_forall. intros x Hx.
    apply (proj1 (forallb_forall _ _) E'). now apply in_rev in Hx.
Qed.

Lemma reverse_involutive s : reverse (reverse s) = s.
Proof.
  unfold reverse.
  now rewrite list_ascii_of_string_of_list_ascii, rev_involutive,
    string_of_list_ascii_of_string.
Qed.

Lemma lstrip_no_space s :
  all_chars (fun c => negb (char_isspace c)) s = true -> lstrip s = s.
Proof.
  destruct s as [|c s]; [reflexivity|]. simpl. intros H.
  apply andb_prop in H. destruct H as [H _].
  apply negb_true_iff in H. now rewrite H.
Qed.

Lemma strip_no_space s :
  all_chars (fun c => negb (char_isspace c)) s = true -> strip s = s.
Proof.
  intros H. unfold strip, rstrip. rewrite (lstrip_no_space s H).
  rewrite lstrip_no_space by (now rewrite all_chars_reverse).
  apply reverse_involutive.
Qed.

Lemma all_chars_impl (p q : ascii -> bool) s :
  (forall c, p c = true -> q c = true) ->
  all_chars p s = true -> all_chars q s = true.
Proof.
  intros Hpq. induction s as [|c s IH]; [reflexivity|]. simpl. intros H.
  apply andb_prop in H. destruct H as [Hc Hs].
  now rewrite (Hpq c Hc), (IH Hs).
Qed.

Lemma decimal_not_space c :
  char_isdecimal c = true -> negb (char_isspace c) = true.
Proof.
  destruct c as [[] [] [] [] [] [] [] []]; intros H;
    try reflexivity; discriminate H.
Qed.

Lemma decimal_is_digit c : char_isdecimal c = true -> char_isdigit c = true.
Proof. intros H. unfold char_isdigit. now rewrite H. Qed.

(** [int] of an unsigned literal skips the sign cases. *)
Lemma py_int_unsigned c r :
  char_isdecimal c = true ->
  all_chars char_isdecimal r = true ->
  py_int (String c r) = parse_literal (String c r).
Proof.
  intros Hc Hr. unfold py_int.
  rewrite strip_no_space.
  - destruct c as [[] [] [] [] [] [] [] []];
      try reflexivity; discriminate Hc.
  - simpl. rewrite (decimal_not_space c Hc). simpl.
    exact (all_chars_impl _ _ r decimal_not_space Hr).
Qed.

Lemma digit_value_bounds c :
  char_isdecimal c = true -> (0 <= digit_value c <= 9)%Z.
Proof.
  destruct c as [[] [] [] [] [] [] [] []]; intros H;
    try discriminate H; vm_compute; split; discriminate.
Qed.

Lemma parse_decimal s :
  all_chars char_isdecimal s = true ->
  forall acc b, (0 <= acc)%Z -> s <> EmptyString \/ b = true ->
  exists n, parse_digits acc b s = Some n /\ (0 <= n)%Z.
Proof.
  induction s as [|c s IH]; intros Hs acc b Hacc Hne.
  - destruct Hne as [Hne| ->]; [congruence|]. exists acc. auto.
  - simpl in Hs. apply andb_prop in Hs. destruct Hs as [Hc Hs].
    cbn [parse_digits]. rewrite Hc.
    apply (IH Hs); [|now right].
    pose proof (digit_value_bounds c Hc). lia.
Qed.

(** A token of ASCII digits has as many digits as characters. *)
Lemma count_digits_decimal s :
  all_chars char_isdecimal s = true ->
  count_digits s = Z.of_nat (String.length s).
Proof.
  induction s as [|c s IH]; intros Hs; [reflexivity|].
  simpl in Hs. apply andb_prop in Hs. destruct Hs as [Hc Hs].
  cbn [count_digits String.length]. rewrite Hc, (IH Hs). lia.
Qed.

(** Within the digit limit the literal is read digit by digit. *)
Lemma parse_literal_within s :
  all_chars char_isdecimal s = true ->
  (Z.of_nat (String.length s) <= int_max_str_digits)%Z ->
  parse_literal s = parse_digits 0 false s.
Proof.
  intros Hs Hlen. unfold parse_literal.
  rewrite (count_digits_decimal s Hs).
  destruct (Z.ltb_spec int_max_str_digits (Z.of_nat (String.length s)));
    [lia | reflexivity].
Qed.

(** A token of ASCII digits within the digit limit is accepted by [isdigit]
    and read by [int] as a non-negative integer. *)
Lemma decimal_token_parses p :
  p <> EmptyString -> all_chars char_isdecimal p = true ->
  (Z.of_nat (String.length p) <= int_max_str_digits)%Z ->
  isdigit p = true /\ exists n, py_int p = Some n /\ (0 <= n)%Z.
Proof.
  intros Hne Hp Hlen. split.
  - unfold isdigit. destruct p; [congruence|]. simpl.
    exact (all_chars_impl _ _ _ decimal_is_digit Hp).
  - destruct p as [|c r]; [congruence|].
    pose proof (parse_literal_within _ Hp Hlen) as Hlit.
    simpl in Hp. apply andb_prop in Hp. destruct Hp as [Hc Hr].
    rewrite (py_int_unsigned c r Hc Hr), Hlit.
    apply parse_decimal; [simpl; now rewrite Hc, Hr | lia | now left].
Qed.

(** A token of ASCII digits over the digit limit is accepted by [isdigit]
    and refused by [int]. *)
Lemma long_token_refused p :
  all_chars char_isdecimal p = true ->
  (int_max_str_digits < Z.of_nat (String.length p))%Z ->
  isdigit p = true /\ py_int p = None.
Proof.
  intros Hp Hlen.
  destruct p as [|c r]; [simpl in Hlen; unfold int_max_str_digits in Hlen; lia|].
  split.
  - unfold isdigit. simpl. exact (all_chars_impl _ _ _ decimal_is_digit Hp).
  - pose proof (count_digits_decimal _ Hp) as Hcount.
    simpl in Hp. apply andb_prop in Hp. destruct Hp as [Hc Hr].
    rewrite (py_int_unsigned c r Hc Hr). unfold parse_literal.
    rewrite Hcount.
    destruct (Z.ltb_spec int_max_str_digits (Z.of_nat (String.length (String c r))));
      [reflexivity | lia].
Qed.

Lemma digit_char_value d :
  (0 <= d <= 9)%Z -> digit_value (digit_char d) = d.
Proof.
  intros H.
  assert (d = 0 \/ d = 1 \/ d = 2 \/ d = 3 \/ d = 4 \/ d = 5 \/ d = 6
          \/ d = 7 \/ d = 8 \/ d = 9)%Z as Hd by lia.
  repeat (destruct Hd as [->|Hd]; [reflexivity|]). now subst.
Qed.

Lemma dec_digits_decimal f :
  forall n rest,
    all_chars char_isdecimal rest = true ->
    all_chars char_isdecimal (dec_digits f n rest) = true.
Proof.
  induction f as [|f IH]; intros n rest Hrest; [exact Hrest|].
  cbn [dec_digits].
  assert (Hacc : all_chars char_isdecimal
                   (String (digit_char (n mod 10)) rest) = true)
    by (simpl; now rewrite TimeStamp.digit_char_mod).
  destruct (n <? 10)%Z; [exact Hacc | now apply IH].
Qed.

Lemma dec_digits_not_empty f :
  forall n rest,
    rest <> EmptyString \/ f <> O -> dec_digits f n rest <> EmptyString.
Proof.
  induction f as [|f IH]; intros n rest H.
  - destruct H as [H|H]; [exact H | congruence].
  - cbn [dec_digits]. destruct (n <? 10)%Z; [discriminate|].
    apply IH. left. discriminate.
Qed.

Lemma dec_digits_S f n acc :
  dec_digits (S f) n acc =
    if (n <? 10)%Z then String (digit_char (n mod 10)) acc
    else dec_digits f (n / 10) (String (digit_char (n mod 10)) acc).
Proof. reflexivity. Qed.

(** Reading back what [dec_digits] printed, with enough fuel. *)
Lemma dec_digits_parse f :
  forall n rest b,
    (0 <= n < 10 ^ Z.of_nat (S f))%Z ->
    parse_digits 0 b (dec_digits (S f) n rest) = parse_digits n true rest.
Proof.
  induction f as [|f IH]; intros n rest b Hn.
  - assert (Hlt : (n < 10)%Z) by (change (10 ^ Z.of_nat 1)%Z with 10%Z in Hn; lia).
    cbn [dec_digits]. rewrite Z.mod_small by lia.
    assert (E : (if (n <? 10)%Z then String (digit_char n) rest
                 else String (digit_char n) rest) = String (digit_char n) rest)
      by (now destruct (n <? 10)%Z).
    rewrite E. cbn [parse_digits].
    rewrite TimeStamp.digit_char_decimal, digit_char_value by lia.
    f_equal.
  - rewrite dec_digits_S. destruct (Z.ltb_spec n 10).
    + cbn [parse_digits]. rewrite Z.mod_small by lia.
      rewrite TimeStamp.digit_char_decimal, digit_char_value by lia.
      f_equal.
    + rewrite IH.
      * cbn [parse_digits].
        pose proof (Z.mod_pos_bound n 10 ltac:(lia)) as Hm.
        rewrite TimeStamp.digit_char_decimal, digit_char_value by lia.
        f_equal. rewrite (Z.div_mod n 10) at 3 by lia. lia.
      * split; [apply Z.div_pos; lia|].
        apply Z.div_lt_upper_bound; [lia|].
        replace (Z.of_nat (S (S f))) with (Z.succ (Z.of_nat (S f))) in Hn by lia.
        rewrite Z.pow_succ_r in Hn by lia. lia.
Qed.

Lemma decimal_fuel n :
  (0 <= n)%Z -> (n < 10 ^ Z.of_nat (S (Z.to_nat (Z.log2 n))))%Z.
Proof.
  intros Hn.
  replace (Z.of_nat (S (Z.to_nat (Z.log2 n)))) with (Z.succ (Z.log2 n))
    by (pose proof (Z.log2_nonneg n); lia).
  destruct (Z.eq_dec n 0) as [->|Hne]; [reflexivity|].
  apply Z.lt_le_trans with (2 ^ Z.succ (Z.log2 n))%Z.
  - apply Z.log2_spec. lia.
  - apply Z.pow_le_mono_l. lia.
Qed.

(** Every index whose decimal numeral is within the digit limit has a
    token: the numeral of [n] is accepted by [isdigit] and read back by
    [int] as [n]. *)
Lemma index_token (n : nat) :
  (Z.of_nat (String.length (decimal (Z.of_nat n))) <= int_max_str_digits)%Z ->
  isdigit (decimal (Z.of_nat n)) = true
  /\ py_int (decimal (Z.of_nat n)) = Some (Z.of_nat n).
Proof.
  set (z := Z.of_nat n). assert (Hz : (0 <= z)%Z) by lia.
  unfold decimal. destruct (Z.ltb_spec z 0); [lia|].
  set (s := dec_digits (S (Z.to_nat (Z.log2 z))) z EmptyString).
  intros Hlen.
  assert (Hdec : all_chars char_isdecimal s = true)
    by (now apply dec_digits_decimal).
  assert (Hne : s <> EmptyString)
    by (apply dec_digits_not_empty; right; discriminate).
  split; [exact (proj1 (decimal_token_parses s Hne Hdec Hlen))|].
  pose proof (parse_literal_within s Hdec Hlen) as Hlit.
  destruct s as [|c r] eqn:E; [congruence|].
  simpl in Hdec. apply andb_prop in Hdec. destruct Hdec as [Hc Hr].
  rewrite (py_int_unsigned c r Hc Hr), Hlit, <- E. unfold s.
  rewrite dec_digits_parse by (split; [exact Hz | now apply decimal_fuel]).
  reflexivity.
Qed.

End TokenFacts.


(** ** The fact store *)

Import TimeStamp LineFacts.

(** The text of the fact file, empty when the file is missing. *)
Definition old_text (w : World) : string :=
  match fact_text w with Some t => t | None => EmptyString end.

(** The world after [text] became the content of the fact file and [es]
    were logged. *)
Definition with_facts (w : World) (text : string) (es : list Event) : World :=
  mkWorld (clock w) (utc_offset w) (Some (mkDir (key_text w) (Some text)))
    (inst_memory w) (temp_py w) (keyboard w) (log w ++ es).

(** What [save_fact] logs. *)
Definition save_events (w : World) : list Event :=
  Fs Exists FACT_MEMORY_FILE
  :: (if is_some (fact_text w) then [] else [Fs Mkdir FACT_MEMORY_FILE])
  ++ [Fs OpenAppend FACT_MEMORY_FILE].

(** [save_fact] never fails in this model: it creates the directory when the
    file is missing, and puts the fact and a line feed after the old text. *)
Lemma save_fact_run fact w :
  save_fact fact w =
    (Ok tt, with_facts w (old_text w ++ fact ++ newline) (save_events w)).
Proof.
  unfold save_fact, mkdir_parent, append_fact_file, with_facts, old_text,
    save_events.
  open_world w; [destruct ff|]; run_all; rewrite <- ?app_assoc; reflexivity.
Qed.

(** The fact file [save_fact] leaves behind ends with a line feed. *)
Lemma save_fact_terminated fact w :
  newline_terminated (old_text (snd (save_fact fact w))).
Proof.
  rewrite save_fact_run. right. exists (old_text w ++ fact)%string.
  unfold old_text at 1. simpl. now rewrite append_assoc.
Qed.

(** An invocation [sgpt --memorize x]. *)
Definition memorize_call (a : Args) (x : string) : Prop :=
  add_instruction a = false /\ clear_facts a = false
  /\ memorize_fact a = true /\ prompt a = Some x.

(** The UTC time stamp [main] computes in world [w]. *)
Definition stamp (w : World) : string :=
  PyTime.strftime time_format (PyTime.gmtime (clock w)).

(** The time stamp local time would give. *)
Definition local_stamp (w : World) : string :=
  PyTime.strftime time_format (PyTime.localtime (utc_offset w) (clock w)).

Lemma with_facts_logged w es text es' :
  with_facts (logged w es) text es' = with_facts w text (es ++ es').
Proof. unfold with_facts, logged; simpl. now rewrite <- app_assoc. Qed.

Lemma main_memorize env a w k x :
  config_ready env w k -> memorize_call a x ->
  main env a w =
    (Ok tt, with_facts w (old_text w ++ (stamp w ++ " " ++ x) ++ newline)
              (config_events ++ save_events w)).
Proof.
  intros Hcfg (Ha & Hc & Hm & Hp).
  unfold main. rewrite (bind_ok _ _ _ _ _ (get_config_ready _ _ _ Hcfg)).
  rewrite Ha, Hc, Hm. unfold main_memorize_fact.
  unfold bind at 1, get_world at 1. rewrite Hp. unfold str_add.
  unfold bind at 1, ret at 1. rewrite save_fact_run, with_facts_logged.
  rewrite (append_assoc _ " " x). reflexivity.
Qed.

(** [line] ends in [x]. *)
Definition ends_in (x line : string) : Prop :=
  exists pre, line = (pre ++ x)%string.

(** [line] starts with a time stamp of the shape HH:MM:SS DD/MM/YYYY. *)
Definition stamped (line : string) : Prop :=
  exists ts rest, line = (ts ++ rest)%string /\ PyTime.is_timestamp ts = true.

(** [sgpt --memorize x] *)
Definition memorize_args (x : string) : Args :=
  mkArgs (Some x) davinci 2048 1 1 false false false true false false false
    false false true true 500 None None false false false false.

Lemma memorize_args_call x : memorize_call (memorize_args x) x.
Proof. repeat split. Qed.

(** A fact text of two lines. *)
Definition two_lines : string := ("a" ++ newline ++ "b")%string.

(** C5, as amended. Memorizing a fact text that holds no line feed and no
    carriage return, into a fact file that is missing, empty or ends with a
    line feed, and reading the file back (in text mode, as [read_text]
    does) gives a text whose last complete line is a time stamp of the
    shape HH:MM:SS DD/MM/YYYY, a blank and the fact text. *)
Theorem fact_round_trip env a w k x :
  config_ready env w k -> memorize_call a x ->
  PyStr.has_line_break x = false ->
  newline_terminated (old_text w) ->
  four_digit_years (clock w) ->
  exists w' text line L,
    main env a w = (Ok tt, w')
    /\ read_fact_file w' = (Ok text, logged w' [Fs OpenRead FACT_MEMORY_FILE])
    /\ PyStr.lines text = L ++ [line; EmptyString]
    /\ In line (PyStr.lines text)
    /\ line = (stamp w ++ " " ++ x)%string
    /\ PyTime.is_timestamp (stamp w) = true
    /\ ends_in x line /\ stamped line.
Proof.
  intros Hcfg Hcall Hx Hold Hclock.
  assert (He : PyStr.has_line_break (stamp w ++ " " ++ x) = false).
  { rewrite !has_line_break_app, Hx. unfold stamp.
    now rewrite (timestamp_no_line_break _ Hclock). }
  destruct (read_back_entry _ _ Hold He) as (L & _ & Hnew).
  exists (with_facts w (old_text w ++ (stamp w ++ " " ++ x) ++ newline)
            (config_events ++ save_events w)),
    (PyStr.universal_newlines
       (old_text w ++ (stamp w ++ " " ++ x) ++ newline)),
    (stamp w ++ " " ++ x)%string, L.
  split; [exact (main_memorize env a w k x Hcfg Hcall)|].
  split; [reflexivity|]. split; [exact Hnew|].
  split; [rewrite Hnew; apply in_or_app; right; now left|].
  split; [reflexivity|].
  split; [exact (timestamp_shape _ Hclock)|]. split.
  - exists (stamp w ++ " ")%string. now rewrite append_assoc.
  - exists (stamp w), (" " ++ x)%string. split; [reflexivity|].
    exact (timestamp_shape _ Hclock).
Qed.

Lemma w0_four_digit_years : four_digit_years (clock w0).
Proof. unfold four_digit_years; simpl; lia. Qed.

Lemma fact_round_trip_witness :
  exists w' text line L,
    main env0 (memorize_args "coffee machine is broken") w0 = (Ok tt, w')
    /\ read_fact_file w' = (Ok text, logged w' [Fs OpenRead FACT_MEMORY_FILE])
    /\ PyStr.lines text = L ++ [line; EmptyString]
    /\ In line (PyStr.lines text)
    /\ line = (stamp w0 ++ " " ++ "coffee machine is broken")%string
    /\ PyTime.is_timestamp (stamp w0) = true
    /\ ends_in "coffee machine is broken" line /\ stamped line.
Proof.
  exact (fact_round_trip env0 (memorize_args "coffee machine is broken") w0
           (JStr "sk-test") "coffee machine is broken"
           w0_config_ready (memorize_args_call _) eq_refl
           (or_introl eq_refl) w0_four_digit_years).
Defined.

(** C5, as stated, fails for a fact text of two lines: no line of the file
    ends in that text. *)
Lemma two_line_fact_has_no_line :
  exists w' text,
    main env0 (memorize_args two_lines) w0 = (Ok tt, w')
    /\ read_fact_file w' = (Ok text, logged w' [Fs OpenRead FACT_MEMORY_FILE])
    /\ PyStr.lines text = ["22:13:20 14/11/2023 a"; "b"; EmptyString]
    /\ ~ (exists line,
            In line (PyStr.lines text) /\ ends_in two_lines line /\ stamped line).
Proof.
  eexists _, _.
  split; [exact (main_memorize env0 _ w0 _ two_lines w0_config_ready
                   (memorize_args_call two_lines))|].
  split; [reflexivity|]. split; [vm_compute; reflexivity|].
  intros (line & Hin & (pre & Hend) & _).
  assert (Hnl : PyStr.has_newline line = true).
  { rewrite Hend, has_newline_app. apply orb_true_r. }
  assert (Hl : PyStr.lines
                 (PyStr.universal_newlines
                    (old_text w0 ++ (stamp w0 ++ " " ++ two_lines) ++ newline))
               = ["22:13:20 14/11/2023 a"; "b"; EmptyString])
    by (vm_compute; reflexivity).
  cbn [with_facts data_dir fact_file] in Hin. rewrite Hl in Hin.
  destruct Hin as [<-|[<-|[<-|[]]]]; discriminate Hnl.
Qed.

(** A fact text with a carriage return comes back as two lines as well: the
    carriage return is read as a line feed. *)
Lemma carriage_return_fact_is_split :
  exists w' text,
    main env0 (memorize_args ("a" ++ String "013" "b")) w0 = (Ok tt, w')
    /\ fact_text w'
       = Some ("22:13:20 14/11/2023 a" ++ String "013" "b" ++ newline)%string
    /\ read_fact_file w' = (Ok text, logged w' [Fs OpenRead FACT_MEMORY_FILE])
    /\ PyStr.lines text = ["22:13:20 14/11/2023 a"; "b"; EmptyString].
Proof.
  eexists _, _.
  split; [exact (main_memorize env0 _ w0 _ _ w0_config_ready
                   (memorize_args_call _))|].
  split; [vm_compute; reflexivity|].
  split; [reflexivity|]. vm_compute; reflexivity.
Qed.

(** C6, as amended. [--memorize x] prefixes [x] with the UTC time of the
    call, in 24-hour HH:MM:SS and day-first DD/MM/YYYY form, and a blank;
    [save_fact] creates the directory of the fact file when the file is
    missing and puts the entry and a line feed after the text already
    there; for a text [x] without line break that is exactly one more
    line. *)
Theorem fact_append env a w k x :
  config_ready env w k -> memorize_call a x ->
  four_digit_years (clock w) ->
  main env a w =
    (Ok tt, with_facts w (old_text w ++ (stamp w ++ " " ++ x) ++ newline)
              (config_events ++ save_events w))
  /\ stamp w = PyTime.strftime "%H:%M:%S %d/%m/%Y" (PyTime.gmtime (clock w))
  /\ PyTime.is_timestamp (stamp w) = true
  /\ (let t := PyTime.gmtime (clock w) in
      0 <= PyTime.tm_hour t <= 23 /\ 0 <= PyTime.tm_min t <= 59
      /\ 0 <= PyTime.tm_sec t <= 59 /\ 1 <= PyTime.tm_mday t <= 31
      /\ 1 <= PyTime.tm_mon t <= 12 /\ 1000 <= PyTime.tm_year t <= 9999)%Z
  /\ (forall fact v,
        save_fact fact v =
          (Ok tt, with_facts v (old_text v ++ fact ++ newline) (save_events v))
        /\ (fact_text v = None -> In (Fs Mkdir FACT_MEMORY_FILE) (save_events v))
        /\ (fact_text v <> None -> save_events v =
              [Fs Exists FACT_MEMORY_FILE; Fs OpenAppend FACT_MEMORY_FILE]))
  /\ (PyStr.has_newline x = false -> newline_terminated (old_text w) ->
      exists L,
        PyStr.lines (old_text w) = L ++ [EmptyString]
        /\ PyStr.lines (old_text w ++ (stamp w ++ " " ++ x) ++ newline)
           = L ++ [(stamp w ++ " " ++ x)%string; EmptyString]).
Proof.
  intros Hcfg Hcall Hclock.
  split; [exact (main_memorize env a w k x Hcfg Hcall)|].
  split; [reflexivity|].
  split; [exact (timestamp_shape _ Hclock)|].
  split; [exact (gmtime_fields _ Hclock)|]. split.
  - intros fact v. split; [apply save_fact_run|]. unfold save_events. split.
    + intros ->. simpl. auto.
    + destruct (fact_text v); [reflexivity|congruence].
  - intros Hx Hold. apply lines_append_entry; [exact Hold|].
    rewrite !has_newline_app, Hx. unfold stamp.
    now rewrite (timestamp_one_line _ Hclock).
Qed.

Lemma fact_append_witness :
  main env0 (memorize_args "coffee machine is broken") w0 =
    (Ok tt, with_facts w0
              (old_text w0 ++ (stamp w0 ++ " " ++ "coffee machine is broken")
               ++ newline)
              (config_events ++ save_events w0))
  /\ PyTime.is_timestamp (stamp w0) = true
  /\ exists L,
       PyStr.lines (old_text w0) = L ++ [EmptyString]
       /\ PyStr.lines (old_text w0
                        ++ (stamp w0 ++ " " ++ "coffee machine is broken")
                        ++ newline)
          = L ++ [(stamp w0 ++ " " ++ "coffee machine is broken")%string;
                  EmptyString].
Proof.
  pose proof (fact_append env0 (memorize_args "coffee machine is broken") w0
                (JStr "sk-test") "coffee machine is broken"
                w0_config_ready (memorize_args_call _) w0_four_digit_years)
    as H.
  split; [exact (proj1 H)|].
  split; [exact (proj1 (proj2 (proj2 H)))|].
  exact (proj2 (proj2 (proj2 (proj2 (proj2 H)))) eq_refl (or_introl eq_refl)).
Defined.

(** C6, as stated, fails. In a world whose local time is one hour ahead of
    UTC the entry carries the UTC time, not the local wall-clock time; and
    a fact text of two lines adds two lines to the file. *)
Lemma stamp_is_utc_and_text_may_span_lines :
  utc_offset w0 = 3600%Z
  /\ local_stamp w0 = "23:13:20 14/11/2023"
  /\ fact_text (snd (main env0 (memorize_args "x") w0))
     = Some ("22:13:20 14/11/2023 x" ++ newline)%string
  /\ fact_text (snd (main env0 (memorize_args "x") w0))
     <> Some (local_stamp w0 ++ " x" ++ newline)%string
  /\ PyStr.lines (old_text w0) = [EmptyString]
  /\ PyStr.lines (old_text (snd (main env0 (memorize_args two_lines) w0)))
     = ["22:13:20 14/11/2023 a"; "b"; EmptyString].
Proof.
  repeat split; try (vm_compute; reflexivity).
  vm_compute. discriminate.
Qed.

(** ** One memory operation per invocation *)

(** The accesses to the two stores. Probing for the fact file is not an
    access; loading and rewriting the interaction file are one kind. *)
Inductive MemoryOp : Type := ClearFacts | AppendFact | ReadFacts | Interactions.

Definition store_op (e : Event) : option MemoryOp :=
  match e with
  | Fs Unlink FACT_MEMORY_FILE => Some ClearFacts
  | Fs Mkdir FACT_MEMORY_FILE => Some AppendFact
  | Fs OpenAppend FACT_MEMORY_FILE => Some AppendFact
  | Fs OpenRead FACT_MEMORY_FILE => Some ReadFacts
  | Fs OpenWrite FACT_MEMORY_FILE => Some AppendFact
  | Fs _ INST_MEMORY => Some Interactions
  | _ => None
  end.

(** [c] only adds events that satisfy [P] to the log. *)
Definition emits {A} (P : Event -> Prop) (c : Py A) : Prop :=
  forall w, exists es, log (snd (c w)) = log w ++ es /\ Forall P es.

Section Footprint.

Variable P : Event -> Prop.

Lemma emits_ret {A} (a : A) : emits P (ret a).
Proof. intros w. exists []. simpl. now rewrite app_nil_r. Qed.

Lemma emits_raise {A} e : emits P (@raise A e).
Proof. intros w. exists []. simpl. now rewrite app_nil_r. Qed.

Lemma emits_lift {A} (r : PyErr + A) : emits P (lift r).
Proof. destruct r; [apply emits_raise | apply emits_ret]. Qed.

Lemma emits_get_world : emits P get_world.
Proof. intros w. exists []. simpl. now rewrite app_nil_r. Qed.

Lemma emits_emit e : P e -> emits P (emit e).
Proof. intros H w. exists [e]. simpl. auto. Qed.

Lemma emits_set_data_dir d : emits P (set_data_dir d).
Proof. intros w. exists []. simpl. now rewrite app_nil_r. Qed.

Lemma emits_set_inst_memory d : emits P (set_inst_memory d).
Proof. intros w. exists []. simpl. now rewrite app_nil_r. Qed.

Lemma emits_set_temp_py d : emits P (set_temp_py d).
Proof. intros w. exists []. simpl. now rewrite app_nil_r. Qed.

Lemma emits_set_keyboard d : emits P (set_keyboard d).
Proof. intros w. exists []. simpl. now rewrite app_nil_r. Qed.

Lemma emits_bind {A B} (c : Py A) (k : A -> Py B) :
  emits P c -> (forall a, emits P (k a)) -> emits P (bind c k).
Proof.
  intros Hc Hk w. unfold bind.
  destruct (Hc w) as (es1 & Hlog1 & HP1).
  destruct (c w) as [[a|e] w1]; simpl in Hlog1.
  - destruct (Hk a w1) as (es2 & Hlog2 & HP2).
    exists (es1 ++ es2). split.
    + now rewrite Hlog2, Hlog1, app_assoc.
    + now apply Forall_app.
  - exists es1. auto.
Qed.

End Footprint.

Lemma emits_weaken {A} (P Q : Event -> Prop) (c : Py A) :
  (forall e, P e -> Q e) -> emits P c -> emits Q c.
Proof.
  intros HPQ Hc w. destruct (Hc w) as (es & Hlog & HP).
  exists es. split; [exact Hlog|]. eapply Forall_impl; eauto.
Qed.

Lemma emits_events {A} (P : Event -> Prop) (c : Py A) w :
  emits P c -> forall e, In e (events_of c w) -> P e.
Proof.
  intros Hc e Hin. destruct (Hc w) as (es & Hlog & HP).
  unfold events_of in Hin. rewrite Hlog in Hin.
  rewrite skipn_app, skipn_all, Nat.sub_diag in Hin. simpl in Hin.
  rewrite Forall_forall in HP. auto.
Qed.

(** Events that touch neither store. *)
Definition quiet (e : Event) : Prop := store_op e = None.

(** Events that touch no store, or touch one in the way [o]. *)
Definition only (o : MemoryOp) (e : Event) : Prop :=
  store_op e = None \/ store_op e = Some o.

Ltac footprint :=
  repeat first
    [ apply emits_ret | apply emits_raise | apply emits_lift
    | apply emits_get_world | apply emits_set_data_dir
    | apply emits_set_inst_memory | apply emits_set_temp_py
    | apply emits_set_keyboard
    | apply emits_emit; unfold quiet, only; simpl; now auto
    | apply emits_bind; [|intro]
    | match goal with
      | |- emits _ (if ?b then _ else _) => destruct b
      | |- emits _ (match ?x with _ => _ end) => destruct x
      | |- emits _ (let (_, _) := ?x in _) => destruct x
      end ].

Lemma input_quiet q : emits quiet (input q).
Proof. unfold input. footprint. Qed.

Lemma confirm_quiet q : emits quiet (confirm q).
Proof.
  unfold confirm. apply emits_bind; [apply emits_get_world|]. intros w.
  induction (keyboard w) as [|l r IH]; simpl.
  - footprint.
  - apply emits_bind; [footprint|]. intros _.
    apply emits_bind; [footprint|]. intros _.
    destruct (_ || _); [footprint|].
    destruct (_ || _); [footprint|]. exact IH.
Qed.

Lemma create_config_quiet : emits quiet create_config.
Proof.
  unfold create_config, mkdir_parent, write_key_file.
  apply emits_bind; [apply input_quiet|]. intros k. footprint.
Qed.

Lemma get_config_quiet env key : emits quiet (get_config env key).
Proof.
  unfold get_config, load_key_file, read_key_file, path_exists.
  apply emits_bind; [footprint|]. intros found.
  apply emits_bind; [destruct (negb found); [apply create_config_quiet|footprint]|].
  intros _. footprint.
Qed.

Lemma update_config_quiet env key v : emits quiet (update_config env key v).
Proof.
  unfold update_config, load_key_file, read_key_file, write_key_file, path_exists.
  apply emits_bind; [footprint|]. intros found.
  apply emits_bind; [destruct (negb found); [apply create_config_quiet|footprint]|].
  intros _. footprint.
Qed.

Lemma openai_request_quiet env p m n k t q s :
  emits quiet (openai_request env p m n k t q s).
Proof. unfold openai_request. footprint. Qed.

Lemma quiet_only o e : quiet e -> only o e.
Proof. unfold quiet, only. auto. Qed.

Ltac quiet_step lem := eapply emits_weaken; [apply quiet_only | apply lem].

Lemma main_add_instruction_quiet env a k :
  emits quiet (main_add_instruction env a k).
Proof.
  unfold main_add_instruction, secho, read_resource, str_add, typer_writer,
    write_temp_py, system.
  apply emits_bind; [footprint|]. intros _.
  apply emits_bind; [footprint|]. intros ip.
  apply emits_bind; [footprint|]. intros fp.
  apply emits_bind; [apply openai_request_quiet|]. intros r.
  apply emits_bind; [footprint|]. intros _.
  apply emits_bind; [apply input_quiet|]. intros c.
  footprint.
Qed.

Lemma clear_fact_memory_only : emits (only ClearFacts) clear_fact_memory.
Proof. unfold clear_fact_memory, path_exists, unlink_fact_file. footprint. Qed.

Lemma save_fact_only fact : emits (only AppendFact) (save_fact fact).
Proof.
  unfold save_fact, path_exists, mkdir_parent, append_fact_file. footprint.
Qed.

Lemma main_memorize_fact_only a : emits (only AppendFact) (main_memorize_fact a).
Proof.
  unfold main_memorize_fact, str_add.
  apply emits_bind; [footprint|]. intros w.
  apply emits_bind; [footprint|]. intros f. apply save_fact_only.
Qed.

Lemma main_retrieve_fact_only env a k :
  emits (only ReadFacts) (main_retrieve_fact env a k).
Proof.
  unfold main_retrieve_fact, path_exists, secho, read_fact_file, read_resource,
    typer_writer.
  apply emits_bind; [footprint|]. intros found.
  destruct (negb found); [footprint|].
  apply emits_bind; [quiet_step get_config_quiet|]. intros hf.
  apply emits_bind; [footprint|]. intros facts.
  apply emits_bind; [footprint|]. intros rp.
  apply emits_bind; [quiet_step openai_request_quiet|]. intros r.
  footprint.
Qed.

Lemma main_settings_only env a : emits (only ReadFacts) (main_settings env a).
Proof.
  unfold main_settings, typer_writer, read_fact_file, print.
  destruct (negb _).
  { apply emits_bind; [quiet_step update_config_quiet|]. intros _. footprint. }
  destruct (set_openai_api_key a).
  { apply emits_bind; [quiet_step update_config_quiet|]. intros _. footprint. }
  destruct (set_hugging_face_api_key a).
  { apply emits_bind; [quiet_step update_config_quiet|]. intros _. footprint. }
  footprint.
Qed.

Lemma main_cache_only a : emits (only Interactions) (main_cache a).
Proof.
  unfold main_cache, load_inst_memory, print, typer_writer. footprint.
Qed.

Lemma write_to_memory_only i o n f :
  emits (only Interactions) (write_to_memory i o n f).
Proof.
  unfold write_to_memory, load_inst_memory, dump_inst_memory. footprint.
Qed.

Lemma main_complete_only env a k :
  emits (only Interactions) (main_complete env a k).
Proof.
  unfold main_complete, typer_writer, system.
  destruct (if shell a then _ else _) as [[t q] p].
  apply emits_bind; [footprint|]. intros p'.
  apply emits_bind; [quiet_step openai_request_quiet|]. intros r.
  apply emits_bind; [footprint|]. intros _.
  apply emits_bind;
    [destruct (shell a); [apply write_to_memory_only|footprint]|]. intros _.
  destruct (shell a && execute a); [|footprint].
  apply emits_bind; [quiet_step confirm_quiet|]. intros yes. footprint.
Qed.

(** The store access [main] may make, read off the flags in the order in
    which [main] tests them. *)
Definition selected (a : Args) : option MemoryOp :=
  if add_instruction a then None
  else if clear_facts a then Some ClearFacts
  else if memorize_fact a then Some AppendFact
  else if retrieve_fact a then Some ReadFacts
  else if PyVal.falsy (prompt a) && negb (editor a) then Some ReadFacts
  else Some Interactions.

Lemma main_footprint env a :
  emits (fun e => store_op e = None \/ store_op e = selected a) (main env a).
Proof.
  unfold main, selected.
  apply emits_bind.
  { eapply emits_weaken; [|apply get_config_quiet]. unfold quiet. auto. }
  intros k.
  destruct (add_instruction a).
  { eapply emits_weaken; [|apply main_add_instruction_quiet]. unfold quiet. auto. }
  destruct (clear_facts a); [apply clear_fact_memory_only|].
  destruct (memorize_fact a); [apply main_memorize_fact_only|].
  destruct (retrieve_fact a); [apply main_retrieve_fact_only|].
  destruct (PyVal.falsy (prompt a) && negb (editor a));
    [apply main_settings_only|].
  destruct (cache a); [apply main_cache_only | apply main_complete_only].
Qed.

Lemma clear_fact_memory_clears w :
  fact_text (snd (clear_fact_memory w)) = None.
Proof.
  unfold clear_fact_memory, unlink_fact_file.
  open_world w; [destruct ff|]; run_all; reflexivity.
Qed.

(** C10. The store accesses of one invocation are all of one kind, and the
    kind follows the order clear, memorize, retrieve, cache: a flag earlier
    in that order excludes the accesses of the later ones, whatever flags
    are set besides. After the configuration is loaded, and unless
    [--add_instruction] is given, [main] is the first branch in that order
    whose flag is set. *)
Theorem one_memory_operation env a w :
  (exists o, forall e, In e (events_of (main env a) w) -> only o e)
  /\ (clear_facts a = true ->
      forall e, In e (events_of (main env a) w) -> only ClearFacts e)
  /\ (clear_facts a = false -> memorize_fact a = true ->
      forall e, In e (events_of (main env a) w) -> only AppendFact e)
  /\ (clear_facts a = false -> memorize_fact a = false ->
      retrieve_fact a = true ->
      forall e, In e (events_of (main env a) w) -> only ReadFacts e)
  /\ (clear_facts a = false -> memorize_fact a = false ->
      retrieve_fact a = false -> cache a = true ->
      PyVal.falsy (prompt a) && negb (editor a) = false ->
      forall e, In e (events_of (main env a) w) -> only Interactions e)
  /\ (forall k,
        config_ready env w k -> add_instruction a = false ->
        main env a w =
          (if clear_facts a then clear_fact_memory
           else if memorize_fact a then main_memorize_fact a
           else if retrieve_fact a then main_retrieve_fact env a k
           else if PyVal.falsy (prompt a) && negb (editor a)
                then main_settings env a
           else if cache a then main_cache a
           else main_complete env a k) (logged w config_events))
  /\ (forall k,
        config_ready env w k -> add_instruction a = false ->
        clear_facts a = true ->
        fact_text (snd (main env a w)) = None).
Proof.
  pose proof (emits_events _ _ w (main_footprint env a)) as Hfoot.
  unfold selected in Hfoot.
  assert (Hsel : forall k,
    config_ready env w k -> add_instruction a = false ->
    main env a w =
      (if clear_facts a then clear_fact_memory
       else if memorize_fact a then main_memorize_fact a
       else if retrieve_fact a then main_retrieve_fact env a k
       else if PyVal.falsy (prompt a) && negb (editor a)
            then main_settings env a
       else if cache a then main_cache a
       else main_complete env a k) (logged w config_events)).
  { intros k Hcfg Ha. unfold main.
    rewrite (bind_ok _ _ _ _ _ (get_config_ready _ _ _ Hcfg)), Ha.
    reflexivity. }
  split; [|split; [|split; [|split; [|split; [|split]]]]].
  - destruct (add_instruction a); [exists ClearFacts|].
    { intros e He. left. destruct (Hfoot e He) as [H|H]; congruence. }
    destruct (clear_facts a); [exists ClearFacts; exact Hfoot|].
    destruct (memorize_fact a); [exists AppendFact; exact Hfoot|].
    destruct (retrieve_fact a); [exists ReadFacts; exact Hfoot|].
    destruct (PyVal.falsy (prompt a) && negb (editor a));
      [exists ReadFacts | exists Interactions]; exact Hfoot.
  - intros Hc e He. rewrite Hc in Hfoot.
    destruct (add_instruction a); [|now apply Hfoot].
    left. destruct (Hfoot e He) as [H|H]; congruence.
  - intros Hc Hm e He. rewrite Hc, Hm in Hfoot.
    destruct (add_instruction a); [|now apply Hfoot].
    left. destruct (Hfoot e He) as [H|H]; congruence.
  - intros Hc Hm Hr e He. rewrite Hc, Hm, Hr in Hfoot.
    destruct (add_instruction a); [|now apply Hfoot].
    left. destruct (Hfoot e He) as [H|H]; congruence.
  - intros Hc Hm Hr _ Hp e He. rewrite Hc, Hm, Hr, Hp in Hfoot.
    destruct (add_instruction a); [|now apply Hfoot].
    left. destruct (Hfoot e He) as [H|H]; congruence.
  - exact Hsel.
  - intros k Hcfg Ha Hc. rewrite (Hsel k Hcfg Ha), Hc.
    apply clear_fact_memory_clears.
Qed.

(** [sgpt --clear_facts --memorize --retrieve --cache 0] *)
Definition every_flag_args : Args :=
  mkArgs (Some "0") davinci 2048 1 1 true false false true true true false
    false false true true 500 None None false false false false.

(** A world in which one fact was memorized. *)
Definition w1 : World :=
  {| clock := 1700000000;
     utc_offset := 3600;
     data_dir :=
       Some (mkDir (Some "openai_api_key: sk-test")
               (Some ("12:00:00 01/01/2024 coffee machine is broken" ++ newline)%string));
     inst_memory := Document (JList [entry list_files; entry show_date]);
     temp_py := None;
     keyboard := [];
     log := [] |}.

Lemma one_memory_operation_witness :
  (forall e, In e (events_of (main env0 every_flag_args) w1) -> only ClearFacts e)
  /\ main env0 every_flag_args w1 = clear_fact_memory (logged w1 config_events)
  /\ fact_text (snd (main env0 every_flag_args w1)) = None.
Proof.
  pose proof (one_memory_operation env0 every_flag_args w1) as H.
  assert (Hcfg : config_ready env0 w1 (JStr "sk-test"))
    by (do 2 eexists; repeat split).
  split; [exact (proj1 (proj2 H) eq_refl)|]. split.
  - exact (proj1 (proj2 (proj2 (proj2 (proj2 (proj2 H))))) _ Hcfg eq_refl).
  - exact (proj2 (proj2 (proj2 (proj2 (proj2 (proj2 H))))) _ Hcfg eq_refl eq_refl).
Defined.

(** * Further properties of the program *)

(** ** The configuration file *)

(** [get_config] on an existing, well-formed configuration file. *)
Lemma get_config_present env key w text data :
  key_text w = Some text -> yaml_safe_load env text = Some data ->
  get_config env key w =
    (match PyVal.getitem_str data key with
     | inr v => Ok v
     | inl KeyError =>
         Raised (UsageError ("Key '" ++ key ++
                   "' not found in config file. Please check your config file."))
     | inl e => Raised e
     end, logged w config_events).
Proof.
  intros Htext Hyaml.
  open_world w; [|discriminate]. subst kf.
  unfold get_config, load_key_file, read_key_file, key_text. run_all.
  rewrite Hyaml. simpl.
  destruct (PyVal.getitem_str data key) as [[]|v]; simpl; log_eq.
Qed.

(** ** A second environment: a reader of [key: value] lines *)

(** Splits a line at its first colon-and-blank. *)
Fixpoint cut_pair (s : string) : option (string * string) :=
  match s with
  | EmptyString => None
  | String c r =>
      if PyStr.starts_with ": " s then Some (EmptyString, PyStr.drop 2 s)
      else match cut_pair r with
           | Some (k, v) => Some (String c k, v)
           | None => None
           end
  end.

Fixpoint read_pairs (ls : list string) : option (list (string * json)) :=
  match ls with
  | [] => Some []
  | l :: r =>
      if PyStr.is_empty l then read_pairs r
      else match cut_pair l, read_pairs r with
           | Some (k, v), Some kv => Some ((k, JStr v) :: kv)
           | _, _ => None
           end
  end.

Definition pairs_yaml_load (text : string) : option json :=
  option_map JDict (read_pairs (PyStr.lines text)).

Definition scalar_text (v : json) : string :=
  match v with
  | JStr s => s
  | JInt n => PyStr.decimal n
  | _ => "null"
  end.

Fixpoint write_pairs (kv : list (string * json)) : string :=
  match kv with
  | [] => EmptyString
  | (k, v) :: r => (k ++ ": " ++ scalar_text v ++ newline ++ write_pairs r)%string
  end.

Definition pairs_yaml_dump (v : json) : string :=
  match v with
  | JDict kv => write_pairs kv
  | _ => "null"
  end.

Definition env1 : Env :=
  {| yaml_safe_load := pairs_yaml_load;
     yaml_dump := pairs_yaml_dump;
     completion := fun _ _ _ _ _ _ => inr "  ls -la  ";
     hf_rank := fun _ _ _ => None;
     edited_prompt := "list files";
     script_path := "/opt/shell_gpt/sgpt.py";
     instruction_generation_v2 := Some "Write a program.";
     fact_retrieval_v1 := Some "Answer from these facts." |}.

(** No configuration file yet; the user will type a key. *)
Definition w_fresh : World :=
  {| clock := 1700000000; utc_offset := 0; data_dir := None;
     inst_memory := Absent; temp_py := None;
     keyboard := ["sk-typed"]; log := [] |}.

(** A configuration file without [openai_api_key]. *)
Definition w_nokey : World :=
  {| clock := 1700000000; utc_offset := 0;
     data_dir := Some (mkDir (Some "history_length: 200")
                         (Some ("12:00:00 01/01/2024 tea is out" ++ newline)%string));
     inst_memory := Document (JList []); temp_py := None;
     keyboard := []; log := [] |}.

(** X2. A key that the configuration mapping does not hold makes [get_config]
    raise [UsageError] with a message that names the key; the files are
    left as they were. *)
Theorem get_config_missing_key env key w text entries :
  key_text w = Some text ->
  yaml_safe_load env text = Some (JDict entries) ->
  PyVal.assoc key entries = None ->
  get_config env key w =
    (Raised (UsageError ("Key '" ++ key ++
               "' not found in config file. Please check your config file.")),
     logged w config_events).
Proof.
  intros Htext Hyaml Hkey.
  rewrite (get_config_present env key w text _ Htext Hyaml).
  unfold PyVal.getitem_str. now rewrite Hkey.
Qed.

Lemma get_config_missing_key_witness :
  get_config env0 "hugging_face_api_key" w0 =
    (Raised (UsageError
       "Key 'hugging_face_api_key' not found in config file. Please check your config file."),
     logged w0 config_events).
Proof.
  exact (get_config_missing_key env0 "hugging_face_api_key" w0
           "openai_api_key: sk-test" [("openai_api_key", JStr "sk-test")]
           eq_refl eq_refl eq_refl).
Defined.

(** X3. [main] loads the OpenAI key before it looks at any flag: when the
    configuration mapping has no [openai_api_key], every invocation, also
    [--clear_facts] or [--cache], ends in [UsageError] and touches no
    store. *)
Theorem main_needs_openai_key env a w text entries :
  key_text w = Some text ->
  yaml_safe_load env text = Some (JDict entries) ->
  PyVal.assoc "openai_api_key" entries = None ->
  main env a w =
    (Raised (UsageError
       "Key 'openai_api_key' not found in config file. Please check your config file."),
     logged w config_events).
Proof.
  intros Htext Hyaml Hkey. unfold main.
  apply bind_raised.
  rewrite (get_config_present env _ w text _ Htext Hyaml).
  unfold PyVal.getitem_str. now rewrite Hkey.
Qed.

Lemma main_needs_openai_key_witness :
  main env1 every_flag_args w_nokey =
    (Raised (UsageError
       "Key 'openai_api_key' not found in config file. Please check your config file."),
     logged w_nokey config_events).
Proof.
  exact (main_needs_openai_key env1 every_flag_args w_nokey
           "history_length: 200" [("history_length", JStr "200")]
           eq_refl eq_refl eq_refl).
Defined.


(** The world after the configuration file received [text]. *)
Definition with_key (w : World) (text : string) (es : list Event) : World :=
  mkWorld (clock w) (utc_offset w) (Some (mkDir (Some text) (fact_text w)))
    (inst_memory w) (temp_py w) (keyboard w) (log w ++ es).

Definition set_keys (w : World) (k : list string) : World :=
  mkWorld (clock w) (utc_offset w) (data_dir w) (inst_memory w) (temp_py w)
    k (log w).

(** What the first run logs: the probe, the question, the directory, the
    write and the read of the new file. *)
Definition first_run_events : list Event :=
  [Fs Exists KEY_FILE; Ask "Please enter your OpenAI API secret key: ";
   Fs Mkdir KEY_FILE; Fs OpenWrite KEY_FILE; Fs OpenRead KEY_FILE].

(** X4. First run: without a configuration file [get_config] asks for the
    key, creates the directory, writes the line [openai_api_key: <answer>]
    and then reads that very file; the fact file and the interaction file
    are not touched. When no answer can be read the call ends in [EOFError]
    and nothing is created. *)
Theorem get_config_first_run env key w :
  key_text w = None ->
  (forall answer rest,
     keyboard w = answer :: rest ->
     get_config env key w =
       (match yaml_safe_load env ("openai_api_key: " ++ answer) with
        | None => Raised YAMLError
        | Some data =>
            match PyVal.getitem_str data key with
            | inr v => Ok v
            | inl KeyError =>
                Raised (UsageError ("Key '" ++ key ++
                  "' not found in config file. Please check your config file."))
            | inl e => Raised e
            end
        end,
        with_key (set_keys w rest) ("openai_api_key: " ++ answer)
          first_run_events))
  /\ (keyboard w = [] ->
      get_config env key w =
        (Raised EOFError,
         logged w [Fs Exists KEY_FILE;
                   Ask "Please enter your OpenAI API secret key: "])).
Proof.
  intros Hkey. split.
  - intros answer rest Hkb.
    unfold get_config, create_config, load_key_file, read_key_file, input,
      mkdir_parent, write_key_file, with_key, set_keys, first_run_events.
    open_world w; subst; run_all;
      destruct (yaml_safe_load env _) as [data|]; simpl;
      try destruct (PyVal.getitem_str data key) as [[]|v]; simpl;
      rewrite <- ?app_assoc; reflexivity.
  - intros Hkb.
    unfold get_config, create_config, input.
    open_world w; subst; run_all; log_eq.
Qed.

Lemma get_config_first_run_witness :
  get_config env1 "openai_api_key" w_fresh =
    (Ok (JStr "sk-typed"),
     with_key (set_keys w_fresh []) "openai_api_key: sk-typed" first_run_events)
  /\ get_config env1 "openai_api_key" (set_keys w_fresh []) =
       (Raised EOFError,
        logged (set_keys w_fresh [])
          [Fs Exists KEY_FILE; Ask "Please enter your OpenAI API secret key: "]).
Proof.
  split.
  - exact (proj1 (get_config_first_run env1 "openai_api_key" w_fresh eq_refl)
             "sk-typed" [] eq_refl).
  - exact (proj2 (get_config_first_run env1 "openai_api_key"
                    (set_keys w_fresh []) eq_refl) eq_refl).
Defined.

Lemma assoc_set_same k v kv : PyVal.assoc k (PyVal.assoc_set k v kv) = Some v.
Proof.
  induction kv as [|[k' v'] r IH]; simpl.
  - now rewrite String.eqb_refl.
  - destruct (String.eqb k k') eqn:E; simpl.
    + now rewrite String.eqb_refl.
    + now rewrite E.
Qed.

Lemma assoc_set_other k k' v kv :
  k' <> k -> PyVal.assoc k' (PyVal.assoc_set k v kv) = PyVal.assoc k' kv.
Proof.
  intros Hne. induction kv as [|[k0 v0] r IH]; simpl.
  - destruct (String.eqb_spec k' k); [congruence | reflexivity].
  - destruct (String.eqb_spec k k0) as [->|Hk]; simpl.
    + destruct (String.eqb_spec k' k0); [congruence | reflexivity].
    + destruct (String.eqb_spec k' k0); [reflexivity | exact IH].
Qed.

(** What [update_config] logs on an existing file. *)
Definition update_events : list Event :=
  [Fs Exists KEY_FILE; Fs OpenRead KEY_FILE; Fs OpenWrite KEY_FILE].

Lemma update_config_run env key value w text entries :
  key_text w = Some text ->
  yaml_safe_load env text = Some (JDict entries) ->
  update_config env key value w =
    (Ok value,
     with_key w (yaml_dump env (JDict (PyVal.assoc_set key value entries)))
       update_events).
Proof.
  intros Htext Hyaml.
  unfold update_config, load_key_file, read_key_file, write_key_file,
    with_key, update_events.
  open_world w; [|discriminate]. subst kf. run_all.
  rewrite Hyaml. simpl. rewrite <- !app_assoc. reflexivity.
Qed.

(** X5. [update_config] on a configuration mapping rewrites the file with
    the mapping in which [key] holds [value] and every other key holds what
    it held, returns [value], and leaves the fact file alone; when the file
    format reads back what it wrote, a following [get_config key] returns
    [value]. *)
Theorem update_then_get env key value w text entries :
  key_text w = Some text ->
  yaml_safe_load env text = Some (JDict entries) ->
  let updated := JDict (PyVal.assoc_set key value entries) in
  let w' := snd (update_config env key value w) in
  fst (update_config env key value w) = Ok value
  /\ key_text w' = Some (yaml_dump env updated)
  /\ fact_text w' = fact_text w
  /\ inst_memory w' = inst_memory w
  /\ PyVal.getitem_str updated key = inr value
  /\ (forall other, other <> key ->
        PyVal.getitem_str updated other = PyVal.getitem_str (JDict entries) other)
  /\ (yaml_safe_load env (yaml_dump env updated) = Some updated ->
      fst (get_config env key w') = Ok value).
Proof.
  intros Htext Hyaml updated w'. subst w' updated.
  rewrite (update_config_run env key value w text entries Htext Hyaml).
  cbn [fst snd]. repeat split.
  - unfold PyVal.getitem_str. now rewrite assoc_set_same.
  - intros other Hne. unfold PyVal.getitem_str. now rewrite assoc_set_other.
  - intros Hround.
    erewrite get_config_present; [|reflexivity|exact Hround].
    unfold PyVal.getitem_str. now rewrite assoc_set_same.
Qed.

Lemma update_then_get_witness :
  fst (update_config env1 "openai_api_key" (JStr "sk-new") w_nokey)
    = Ok (JStr "sk-new")
  /\ key_text (snd (update_config env1 "openai_api_key" (JStr "sk-new") w_nokey))
     = Some ("history_length: 200" ++ newline
             ++ "openai_api_key: sk-new" ++ newline)%string
  /\ fst (get_config env1 "openai_api_key"
            (snd (update_config env1 "openai_api_key" (JStr "sk-new") w_nokey)))
     = Ok (JStr "sk-new")
  /\ fst (get_config env1 "history_length"
            (snd (update_config env1 "openai_api_key" (JStr "sk-new") w_nokey)))
     = Ok (JStr "200").
Proof.
  pose proof (update_then_get env1 "openai_api_key" (JStr "sk-new") w_nokey
                "history_length: 200" [("history_length", JStr "200")]
                eq_refl eq_refl) as H.
  cbv zeta in H. destruct H as (H1 & H2 & _ & _ & _ & _ & H7).
  split; [exact H1|]. split; [exact H2|]. split; [exact (H7 eq_refl)|].
  reflexivity.
Defined.

(** ** Clearing the facts *)

(** X1. [clear_fact_memory] never fails: it removes the fact file when there
    is one and does nothing otherwise, keeps the configuration file and the
    interaction file, and a second call right after only probes for the
    file. *)
Theorem clear_fact_memory_idempotent w :
  let w1 := snd (clear_fact_memory w) in
  fst (clear_fact_memory w) = Ok tt
  /\ fact_text w1 = None
  /\ key_text w1 = key_text w
  /\ inst_memory w1 = inst_memory w
  /\ (fact_text w = None ->
      clear_fact_memory w = (Ok tt, logged w [Fs Exists FACT_MEMORY_FILE]))
  /\ clear_fact_memory w1 = (Ok tt, logged w1 [Fs Exists FACT_MEMORY_FILE]).
Proof.
  unfold clear_fact_memory, unlink_fact_file.
  open_world w; [destruct ff|]; run_all; repeat split; try discriminate.
Qed.

Lemma clear_fact_memory_idempotent_witness :
  clear_fact_memory w0 = (Ok tt, logged w0 [Fs Exists FACT_MEMORY_FILE]).
Proof.
  exact (proj1 (proj2 (proj2 (proj2 (proj2 (clear_fact_memory_idempotent w0)))))
           eq_refl).
Defined.

(** ** Invocations without a prompt *)

(** An invocation that reaches the settings branch: no memory flag, no
    prompt, no editor. *)
Definition settings_call (a : Args) : Prop :=
  add_instruction a = false /\ clear_facts a = false
  /\ memorize_fact a = false /\ retrieve_fact a = false
  /\ PyVal.falsy (prompt a) = true /\ editor a = false.

Lemma main_settings_branch env a w k :
  config_ready env w k -> settings_call a ->
  main env a w = main_settings env a (logged w config_events).
Proof.
  intros Hcfg (Ha & Hc & Hm & Hr & Hp & He).
  unfold main. rewrite (bind_ok _ _ _ _ _ (get_config_ready _ _ _ Hcfg)).
  now rewrite Ha, Hc, Hm, Hr, Hp, He.
Qed.

Lemma with_key_logged w es text es' :
  with_key (logged w es) text es' = with_key w text (es ++ es').
Proof. unfold with_key, logged; simpl. now rewrite <- app_assoc. Qed.

Lemma logged_with_key w text es es' :
  logged (with_key w text es) es' = with_key w text (es ++ es').
Proof. unfold with_key, logged; simpl. now rewrite <- app_assoc. Qed.

(** One setting is stored and reported. *)
Lemma store_setting env w text entries key value msg anim :
  key_text w = Some text ->
  yaml_safe_load env text = Some (JDict entries) ->
  bind (update_config env key value)
       (fun _ => typer_writer (JStr msg) false false anim)
       (logged w config_events) =
    (Ok tt,
     with_key w (yaml_dump env (JDict (PyVal.assoc_set key value entries)))
       (config_events ++ update_events ++ [TyperWriter (JStr msg) false false anim])).
Proof.
  intros Htext Hyaml.
  rewrite (bind_ok _ _ _ _ _
             (update_config_run env key value (logged w config_events)
                text entries Htext Hyaml)).
  unfold typer_writer. rewrite emit_run, logged_with_key, with_key_logged.
  reflexivity.
Qed.

(** X6. Without a prompt, [main] stores at most one setting, chosen in the
    order history length, OpenAI key, Hugging Face key: a history length
    other than 500 wins over both keys, and the OpenAI key wins over the
    Hugging Face key; the options that lose are ignored. *)
Theorem one_setting_per_invocation env a w text entries k :
  settings_call a ->
  key_text w = Some text ->
  yaml_safe_load env text = Some (JDict entries) ->
  PyVal.assoc "openai_api_key" entries = Some k ->
  (set_history a <> 500%Z ->
   main env a w =
     (Ok tt,
      with_key w
        (yaml_dump env
           (JDict (PyVal.assoc_set "history_length" (JInt (set_history a)) entries)))
        (config_events ++ update_events ++
         [TyperWriter
            (JStr ("History length set to " ++ PyStr.decimal (set_history a) ++ "."))
            false false (animation a)])))
  /\ (forall key, set_history a = 500%Z -> set_openai_api_key a = Some key ->
      main env a w =
        (Ok tt,
         with_key w
           (yaml_dump env
              (JDict (PyVal.assoc_set "openai_api_key" (JStr key) entries)))
           (config_events ++ update_events ++
            [TyperWriter (JStr "OpenAI API key set.") false false (animation a)])))
  /\ (forall key, set_history a = 500%Z -> set_openai_api_key a = None ->
      set_hugging_face_api_key a = Some key ->
      main env a w =
        (Ok tt,
         with_key w
           (yaml_dump env
              (JDict (PyVal.assoc_set "hugging_face_api_key" (JStr key) entries)))
           (config_events ++ update_events ++
            [TyperWriter (JStr "Hugging Face API key set.") false false
               (animation a)]))).
Proof.
  intros Hcall Htext Hyaml Hk.
  assert (Hcfg : config_ready env w k).
  { exists text, (JDict entries). repeat split; try assumption.
    unfold PyVal.getitem_str. now rewrite Hk. }
  rewrite (main_settings_branch env a w k Hcfg Hcall).
  unfold main_settings. split; [|split].
  - intros Hh. destruct (Z.eqb_spec (set_history a) 500); [contradiction|].
    cbn [negb]. now apply (store_setting env w text entries).
  - intros key Hh Ho. rewrite Hh, Ho. cbn [Z.eqb Pos.eqb negb].
    now apply (store_setting env w text entries).
  - intros key Hh Ho Hg. rewrite Hh, Ho, Hg. cbn [Z.eqb Pos.eqb negb].
    now apply (store_setting env w text entries).
Qed.

(** A world for [env1]: the key is configured, one fact is memorized, two
    interactions are stored, and the user will answer [y]. *)
Definition w2 : World :=
  {| clock := 1700000000; utc_offset := 0;
     data_dir := Some (mkDir (Some "openai_api_key: sk-test")
                         (Some ("12:00:00 01/01/2024 tea is out" ++ newline)%string));
     inst_memory := Document (JList [entry list_files; entry show_date]);
     temp_py := None;
     keyboard := ["y"]; log := [] |}.

Lemma w2_config_ready : config_ready env1 w2 (JStr "sk-test").
Proof. do 2 eexists. repeat split. Qed.

(** [sgpt --set_history 100 --set_openai_api_key sk-other] *)
Definition settings_args : Args :=
  mkArgs None davinci 2048 1 1 false false false false false false false
    false false true true 100 (Some "sk-other") None false false false false.

Lemma one_setting_per_invocation_witness :
  main env1 settings_args w2 =
    (Ok tt,
     with_key w2
       ("openai_api_key: sk-test" ++ newline ++ "history_length: 100" ++ newline)
       (config_events ++ update_events ++
        [TyperWriter (JStr "History length set to 100.") false false true])).
Proof.
  exact (proj1 (one_setting_per_invocation env1 settings_args w2
                  "openai_api_key: sk-test" [("openai_api_key", JStr "sk-test")]
                  (JStr "sk-test")
                  ltac:(repeat split) eq_refl eq_refl eq_refl)
           ltac:(discriminate)).
Defined.

(** X7. Without a prompt and without a setting to store: [--ls_common] and
    [--ls_history] return without any output, [--list_memory] prints the
    whole fact file when there is one, as [read_text] reads it (a carriage
    return, alone or before a line feed, read as a line feed), and
    otherwise the invocation ends in [MissingParameter], whatever
    [--cache], [--shell], [--code] or [--execute] say. *)
Theorem bare_invocation env a w k :
  config_ready env w k -> settings_call a ->
  set_history a = 500%Z -> set_openai_api_key a = None ->
  set_hugging_face_api_key a = None ->
  (ls_common a || ls_history a = true ->
   main env a w = (Ok tt, logged w config_events))
  /\ (forall text,
        ls_common a = false -> ls_history a = false -> ls_memory a = true ->
        fact_text w = Some text ->
        main env a w =
          (Ok tt, logged w (config_events ++
                    [Fs OpenRead FACT_MEMORY_FILE;
                     Print (PyStr.universal_newlines text)])))
  /\ (ls_common a = false -> ls_history a = false -> ls_memory a = false ->
      main env a w =
        (Raised (MissingParameter "PROMPT" "string"), logged w config_events)).
Proof.
  intros Hcfg Hcall Hh Ho Hg.
  rewrite (main_settings_branch env a w k Hcfg Hcall).
  unfold main_settings. rewrite Hh, Ho, Hg. cbn [Z.eqb Pos.eqb negb].
  split; [|split].
  - intros Hls. destruct (ls_common a); [reflexivity|].
    simpl in Hls. now rewrite Hls.
  - intros text Hc Hl Hm Hf. rewrite Hc, Hl, Hm. unfold read_fact_file.
    open_world w; [subst ff|discriminate]. run_all. log_eq.
  - intros Hc Hl Hm. now rewrite Hc, Hl, Hm.
Qed.

(** [sgpt --cache --shell --execute] *)
Definition no_prompt_args : Args :=
  mkArgs None davinci 2048 1 1 true true true false false false false
    false false true true 500 None None false false false false.

(** The world [w2] with a fact file whose first line ends in a carriage
    return and a line feed, and whose second line ends in a carriage return
    alone. *)
Definition w2_returns : World :=
  {| clock := clock w2; utc_offset := utc_offset w2;
     data_dir := Some (mkDir (Some "openai_api_key: sk-test")
                         (Some ("a" ++ String "013" newline
                                ++ "b" ++ String "013" "c")%string));
     inst_memory := inst_memory w2;
     temp_py := None;
     keyboard := ["y"]; log := [] |}.

Lemma w2_returns_config_ready : config_ready env1 w2_returns (JStr "sk-test").
Proof. do 2 eexists. repeat split. Qed.

Lemma bare_invocation_witness :
  main env1 no_prompt_args w2 =
    (Raised (MissingParameter "PROMPT" "string"), logged w2 config_events)
  /\ main env1 list_memory_args w2 =
       (Ok tt, logged w2 (config_events ++
                 [Fs OpenRead FACT_MEMORY_FILE;
                  Print ("12:00:00 01/01/2024 tea is out" ++ newline)]))
  /\ main env1 list_memory_args w2_returns =
       (Ok tt, logged w2_returns (config_events ++
                 [Fs OpenRead FACT_MEMORY_FILE;
                  Print ("a" ++ newline ++ "b" ++ newline ++ "c")])).
Proof.
  split; [|split].
  - exact (proj2 (proj2 (bare_invocation env1 no_prompt_args w2 (JStr "sk-test")
                           w2_config_ready ltac:(repeat split)
                           eq_refl eq_refl eq_refl))
             eq_refl eq_refl eq_refl).
  - exact (proj1 (proj2 (bare_invocation env1 list_memory_args w2 (JStr "sk-test")
                           w2_config_ready ltac:(repeat split)
                           eq_refl eq_refl eq_refl))
             _ eq_refl eq_refl eq_refl eq_refl).
  - exact (proj1 (proj2 (bare_invocation env1 list_memory_args w2_returns
                           (JStr "sk-test")
                           w2_returns_config_ready ltac:(repeat split)
                           eq_refl eq_refl eq_refl))
             _ eq_refl eq_refl eq_refl eq_refl).
Defined.

(** ** Asking for a completion *)

(** An invocation with a prompt and none of the flags that [main] tests
    before it asks for a completion. *)
Definition complete_call (a : Args) (p : string) : Prop :=
  add_instruction a = false /\ clear_facts a = false
  /\ memorize_fact a = false /\ retrieve_fact a = false
  /\ cache a = false /\ prompt a = Some p /\ PyStr.is_empty p = false
  /\ editor a = false.

Lemma main_complete_branch env a w k p :
  config_ready env w k -> complete_call a p ->
  main env a w = main_complete env a k (logged w config_events).
Proof.
  intros Hcfg (Ha & Hc & Hm & Hr & Hcache & Hp & Hne & He).
  unfold main. rewrite (bind_ok _ _ _ _ _ (get_config_ready _ _ _ Hcfg)).
  rewrite Ha, Hc, Hm, Hr, Hcache, Hp, He. simpl. now rewrite Hne.
Qed.

Definition anything (e : Event) : Prop := True.

Lemma quiet_anything e : quiet e -> anything e.
Proof. intros _. exact I. Qed.

Lemma only_anything o e : only o e -> anything e.
Proof. intros _. exact I. Qed.

(** The request is the first thing a completion logs. *)
Lemma request_first {B} env p m n k t q s (K : string -> Py B) w :
  (forall r, emits anything (K r)) ->
  exists rest,
    log (snd (bind (openai_request env p m n k t q s) K w)) =
      log w ++ Post p m n k t q :: rest.
Proof.
  intros HK. unfold openai_request, bind at 1 2, emit.
  destruct (completion env p m n k t q) as [e|r]; simpl.
  - exists []. reflexivity.
  - destruct (HK r (mkWorld (clock w) (utc_offset w) (data_dir w)
                      (inst_memory w) (temp_py w) (keyboard w)
                      (log w ++ [Post p m n k t q]))) as (es & Hlog & _).
    exists es. rewrite Hlog. simpl. now rewrite <- app_assoc.
Qed.

(** What follows the request in [main_complete] only adds to the log. *)
Ltac tail_emits :=
  unfold typer_writer, system;
  repeat first
    [ apply emits_ret
    | apply emits_emit; exact I
    | eapply emits_weaken; [apply only_anything | apply write_to_memory_only]
    | eapply emits_weaken; [apply quiet_anything | apply confirm_quiet]
    | apply emits_bind; [|intro]
    | match goal with
      | |- emits _ (if ?b then _ else _) => destruct b
      end ].

Lemma events_of_log {A} (c : Py A) w es :
  log (snd (c w)) = log w ++ es -> events_of c w = es.
Proof.
  intros H. unfold events_of. rewrite H.
  now rewrite skipn_app, skipn_all, Nat.sub_diag.
Qed.

Local Open Scope Q_scope.

(** X8. The request of [--shell] and [--code]. With both sampling options
    at their default 1.0, [--shell] asks with temperature 0.2 and top-p 0.9
    and [--code] alone with 0.8 and 0.2; the prompt gets the matching
    sentence appended, [--shell] winning over [--code]; other sampling
    values are passed on as given; and the model curie with the default
    2048 tokens is asked for 1024. *)
Theorem completion_request env a w k p :
  config_ready env w k -> complete_call a p ->
  exists t q rest,
    events_of (main env a) w =
      (config_events ++
       Post (if shell a
             then Some (p ++ ". Provide only shell command as output.")%string
             else if code a
             then Some (p ++ ". Provide only code as output.")%string
             else Some p)
         (model a)
         (match model a with
          | curie => if (max_tokens a =? 2048)%Z then 1024%Z else max_tokens a
          | _ => max_tokens a
          end) k t q :: rest)%list
    /\ (Qeq_bool (temperature a) 1 && Qeq_bool 1 (top_probability a) = true ->
        (shell a = true -> t = 2 # 10 /\ q = 9 # 10)
        /\ (shell a = false -> code a = true -> t = 8 # 10 /\ q = 2 # 10))
    /\ (Qeq_bool (temperature a) 1 && Qeq_bool 1 (top_probability a) = false
        \/ (shell a = false /\ code a = false) ->
        t = temperature a /\ q = top_probability a).
Proof.
  intros Hcfg Hcall.
  pose proof (main_complete_branch env a w k p Hcfg Hcall) as Hmain.
  assert (Hp : prompt a = Some p) by apply Hcall.
  assert (He : editor a = false) by apply Hcall.
  pose (t := if shell a || code a
             then if Qeq_bool (temperature a) 1 && Qeq_bool 1 (top_probability a)
                  then if shell a then 2 # 10 else 8 # 10
                  else temperature a
             else temperature a).
  pose (q := if shell a || code a
             then if Qeq_bool (temperature a) 1 && Qeq_bool 1 (top_probability a)
                  then if shell a then 9 # 10 else 2 # 10
                  else top_probability a
             else top_probability a).
  exists t, q.
  assert (Hrun : exists rest,
    log (snd (main_complete env a k (logged w config_events))) =
      (log (logged w config_events) ++
       Post (if shell a
             then Some (p ++ ". Provide only shell command as output.")%string
             else if code a
             then Some (p ++ ". Provide only code as output.")%string
             else Some p)
         (model a)
         (match model a with
          | curie => if (max_tokens a =? 2048)%Z then 1024%Z else max_tokens a
          | _ => max_tokens a
          end) k t q :: rest)%list).
  { unfold main_complete. rewrite Hp, He. subst t q. cbn [PyVal.format].
    destruct (shell a), (code a),
      (Qeq_bool (temperature a) 1 && Qeq_bool 1 (top_probability a));
      cbn [orb]; unfold bind at 1, ret at 1;
      apply request_first; intros r; tail_emits. }
  destruct Hrun as (rest & Hlog). exists rest. split; [|split].
  - apply events_of_log. rewrite Hmain, Hlog. unfold logged. simpl.
    now rewrite <- app_assoc.
  - intros Hu. subst t q. rewrite Hu. split.
    + intros ->. now split.
    + intros -> ->. now split.
  - intros [Hu|[Hs Hc]]; subst t q.
    + rewrite Hu. destruct (shell a || code a); now split.
    + rewrite Hs, Hc. now split.
Qed.

Local Close Scope Q_scope.

(** [sgpt --shell "list files"] *)
Definition shell_args : Args :=
  mkArgs (Some "list files") davinci 2048 1 1 false true false false false
    false false false false true true 500 None None false false false false.

Lemma shell_args_call : complete_call shell_args "list files".
Proof. repeat split. Qed.

Lemma completion_request_witness :
  exists t q rest,
    events_of (main env1 shell_args) w2 =
      config_events ++
      Post (Some "list files. Provide only shell command as output.")
        davinci 2048 (JStr "sk-test") t q :: rest
    /\ t = (2 # 10)%Q /\ q = (9 # 10)%Q.
Proof.
  destruct (completion_request env1 shell_args w2 (JStr "sk-test") "list files"
              w2_config_ready shell_args_call)
    as (t & q & rest & Hev & Hdef & _).
  exists t, q, rest. split; [exact Hev|].
  exact (proj1 (Hdef eq_refl) eq_refl).
Defined.

(** The prompt [--shell] sends and stores. *)
Definition shell_prompt (p : string) : string :=
  (p ++ ". Provide only shell command as output.")%string.

(** The service answers [r] to the prompt [p], whatever the sampling
    options. *)
Definition answers (env : Env) (a : Args) (k : json) (p r : string) : Prop :=
  forall n t q, completion env (Some p) (model a) n k t q = inr r.

(** The world after [data] became the interaction file and [es] were
    logged. *)
Definition with_interactions (w : World) (data : json) (es : list Event) : World :=
  mkWorld (clock w) (utc_offset w) (data_dir w) (Document data) (temp_py w)
    (keyboard w) (log w ++ es).

(** A successful [--shell] completion without [--execute], on a stored
    list. *)
Lemma shell_run env a w k p r items :
  config_ready env w k -> complete_call a p ->
  shell a = true -> execute a = false ->
  answers env a k (shell_prompt p) r ->
  inst_memory w = Document (JList items) ->
  exists n t q,
    main env a w =
      (Ok tt,
       with_interactions w
         (JList (items ++ [dictionary (Some (shell_prompt p)) (PyStr.strip r)
                             "bro" (favorite a)]))
         (config_events ++
          [Post (Some (shell_prompt p)) (model a) n k t q;
           TyperWriter (JStr (PyStr.strip r)) (code a) true (animation a);
           Fs OpenReadWrite INST_MEMORY; Fs OpenWrite INST_MEMORY])).
Proof.
  intros Hcfg Hcall Hs He Hans Hinst.
  rewrite (main_complete_branch env a w k p Hcfg Hcall).
  assert (Hp : prompt a = Some p) by apply Hcall.
  assert (Hed : editor a = false) by apply Hcall.
  unfold main_complete. rewrite Hp, Hed, Hs, He. cbn [PyVal.format andb].
  fold (shell_prompt p).
  destruct (Qeq_bool (temperature a) 1 && Qeq_bool 1 (top_probability a))%Q;
    do 3 eexists;
    unfold openai_request, write_to_memory, load_inst_memory, dump_inst_memory,
      with_interactions;
    open_world w; subst im; run_all; rewrite Hans; simpl;
    rewrite <- ?app_assoc; reflexivity.
Qed.

(** X9. Remember, then recall. After a successful [--shell] completion the
    interaction file holds one more record, whose input is the prompt as it
    was sent and whose output is the stripped answer; a following
    [--cache 0] shows exactly that answer. *)
Theorem remember_then_recall env a b w k p r items :
  config_ready env w k -> complete_call a p ->
  shell a = true -> execute a = false ->
  answers env a k (shell_prompt p) r ->
  inst_memory w = Document (JList items) ->
  recall_call b "0" ->
  let w' := snd (main env a w) in
  fst (main env a w) = Ok tt
  /\ inst_memory w' =
       Document (JList (items ++ [dictionary (Some (shell_prompt p))
                                    (PyStr.strip r) "bro" (favorite a)]))
  /\ fact_text w' = fact_text w
  /\ main env b w' =
       (Ok tt, logged w' (config_events ++
                 [Fs OpenReadWrite INST_MEMORY;
                  TyperWriter (JStr (PyStr.strip r)) (code b) (shell b)
                    (animation b)])).
Proof.
  intros Hcfg Hcall Hs He Hans Hinst Hb w'.
  destruct (shell_run env a w k p r items Hcfg Hcall Hs He Hans Hinst)
    as (n & t & q & Hrun).
  subst w'. rewrite Hrun. cbn [fst snd].
  split; [reflexivity|]. split; [reflexivity|]. split; [reflexivity|].
  set (d := dictionary (Some (shell_prompt p)) (PyStr.strip r) "bro" (favorite a)).
  set (w' := with_interactions w (JList (items ++ [d])) _).
  assert (Hcfg' : config_ready env w' k).
  { destruct Hcfg as (text & data & H1 & H2 & H3). now exists text, data. }
  rewrite (main_recall env b w' k "0" Hcfg' Hb eq_refl).
  rewrite (main_cache_list b (logged w' config_events) "0" 0 (items ++ [d])
             (proj2 (proj2 (proj2 (proj2 (proj2 Hb))))) eq_refl eq_refl eq_refl).
  rewrite length_app. cbn [length].
  destruct (Z.geb_spec 0 (Z.of_nat (length items + 1))); [lia|].
  replace (Z.of_nat (length items + 1) - 0 - 1)%Z
    with (Z.of_nat (length items)) by lia.
  rewrite (getitem_int_list _ _ d)
    by (now rewrite nth_error_app2, Nat.sub_diag by lia).
  change (PyVal.getitem_str d "output") with (@inr PyErr _ (JStr (PyStr.strip r))).
  cbv beta iota. now rewrite logged_logged.
Qed.

Lemma remember_then_recall_witness :
  inst_memory (snd (main env1 shell_args w2)) =
    Document (JList [entry list_files; entry show_date;
                     dictionary
                       (Some "list files. Provide only shell command as output.")
                       "ls -la" "bro" false])
  /\ main env1 (recall_args "0") (snd (main env1 shell_args w2)) =
       (Ok tt, logged (snd (main env1 shell_args w2))
                 (config_events ++
                  [Fs OpenReadWrite INST_MEMORY;
                   TyperWriter (JStr "ls -la") false false true])).
Proof.
  pose proof (remember_then_recall env1 shell_args (recall_args "0") w2
                (JStr "sk-test") "list files" "  ls -la  "
                [entry list_files; entry show_date]
                w2_config_ready shell_args_call eq_refl eq_refl
                (fun _ _ _ => eq_refl) eq_refl (recall_args_call "0")) as H.
  cbv zeta in H. destruct H as (_ & H2 & _ & H4).
  split; [exact H2 | exact H4].
Defined.

(** X11. A [--shell] completion in a directory without [.inst_memory.json]:
    the answer is shown, then [write_to_memory] raises [FileNotFoundError];
    the file is not created, and with [--execute] the command is neither
    confirmed nor run. *)
Theorem shell_without_store env a w k p r :
  config_ready env w k -> complete_call a p ->
  shell a = true ->
  answers env a k (shell_prompt p) r ->
  inst_memory w = Absent ->
  exists n t q,
    main env a w =
      (Raised FileNotFoundError,
       logged w (config_events ++
         [Post (Some (shell_prompt p)) (model a) n k t q;
          TyperWriter (JStr (PyStr.strip r)) (code a) true (animation a);
          Fs OpenReadWrite INST_MEMORY])).
Proof.
  intros Hcfg Hcall Hs Hans Hinst.
  rewrite (main_complete_branch env a w k p Hcfg Hcall).
  assert (Hp : prompt a = Some p) by apply Hcall.
  assert (Hed : editor a = false) by apply Hcall.
  unfold main_complete. rewrite Hp, Hed, Hs. cbn [PyVal.format andb].
  fold (shell_prompt p).
  destruct (Qeq_bool (temperature a) 1 && Qeq_bool 1 (top_probability a))%Q;
    do 3 eexists;
    unfold openai_request, write_to_memory, load_inst_memory;
    open_world w; subst im; run_all; rewrite Hans; simpl;
    unfold logged; simpl; rewrite <- ?app_assoc; reflexivity.
Qed.

(** [sgpt --shell --execute "list files"] *)
Definition shell_execute_args : Args :=
  mkArgs (Some "list files") davinci 2048 1 1 false true true false false
    false false false false true true 500 None None false false false false.

Definition w2_no_store : World :=
  mkWorld (clock w2) (utc_offset w2) (data_dir w2) Absent (temp_py w2)
    (keyboard w2) (log w2).

Lemma shell_without_store_witness :
  exists n t q,
    main env1 shell_execute_args w2_no_store =
      (Raised FileNotFoundError,
       logged w2_no_store (config_events ++
         [Post (Some (shell_prompt "list files")) davinci n (JStr "sk-test") t q;
          TyperWriter (JStr "ls -la") false true true;
          Fs OpenReadWrite INST_MEMORY])).
Proof.
  exact (shell_without_store env1 shell_execute_args w2_no_store (JStr "sk-test")
           "list files" "  ls -la  "
           ltac:(do 2 eexists; repeat split) ltac:(repeat split) eq_refl
           (fun _ _ _ => eq_refl) eq_refl).
Defined.

(** ** What an invocation leaves untouched *)

(** [c] takes every world to one related to it by [R]. *)
Definition maintains {A} (R : World -> World -> Prop) (c : Py A) : Prop :=
  forall w, R w (snd (c w)).

Section Frame.

Variable R : World -> World -> Prop.
Hypothesis R_refl : forall w, R w w.
Hypothesis R_trans : forall w1 w2 w3, R w1 w2 -> R w2 w3 -> R w1 w3.

Lemma maintains_ret {A} (a : A) : maintains R (ret a).
Proof. intros w. apply R_refl. Qed.

Lemma maintains_raise {A} e : maintains R (@raise A e).
Proof. intros w. apply R_refl. Qed.

Lemma maintains_lift {A} (r : PyErr + A) : maintains R (lift r).
Proof. destruct r; [apply maintains_raise | apply maintains_ret]. Qed.

Lemma maintains_bind {A B} (c : Py A) (k : A -> Py B) :
  maintains R c -> (forall a, maintains R (k a)) -> maintains R (bind c k).
Proof.
  intros Hc Hk w. unfold bind. specialize (Hc w).
  destruct (c w) as [[a|e] w1]; simpl in *; [|exact Hc].
  eapply R_trans; [exact Hc | apply Hk].
Qed.

End Frame.

Lemma maintains_weaken {A} (R R' : World -> World -> Prop) (c : Py A) :
  (forall w w', R w w' -> R' w w') -> maintains R c -> maintains R' c.
Proof. intros H Hc w. apply H, Hc. Qed.

(** Both stores are as they were. *)
Definition same_stores (w w' : World) : Prop :=
  fact_text w' = fact_text w /\ inst_memory w' = inst_memory w.

(** The interaction file is as it was, or it held a list and now holds that
    list with records added at its end. *)
Definition grows (w w' : World) : Prop :=
  fact_text w' = fact_text w
  /\ (inst_memory w' = inst_memory w
      \/ exists items extra,
           inst_memory w = Document (JList items)
           /\ inst_memory w' = Document (JList (items ++ extra))).

(** The interaction file is as it was. *)
Definition same_interactions (w w' : World) : Prop :=
  inst_memory w' = inst_memory w.

Lemma same_stores_refl w : same_stores w w.
Proof. split; reflexivity. Qed.

Lemma same_stores_trans w1 w2 w3 :
  same_stores w1 w2 -> same_stores w2 w3 -> same_stores w1 w3.
Proof. intros [H1 H2] [H3 H4]. split; congruence. Qed.

Lemma grows_refl w : grows w w.
Proof. split; [reflexivity | now left]. Qed.

Lemma grows_trans w1 w2 w3 : grows w1 w2 -> grows w2 w3 -> grows w1 w3.
Proof.
  intros [F1 H1] [F2 H2]. split; [congruence|].
  destruct H1 as [H1|(items & e1 & Ha & Hb)].
  - rewrite <- H1. exact H2.
  - destruct H2 as [H2|(items' & e2 & Hc & Hd)].
    + right. exists items, e1. split; [exact Ha | congruence].
    + right. exists items, (e1 ++ e2). split; [exact Ha|].
      rewrite Hd. rewrite Hb in Hc. injection Hc as <-.
      now rewrite app_assoc.
Qed.

Lemma same_interactions_refl w : same_interactions w w.
Proof. reflexivity. Qed.

Lemma same_interactions_trans w1 w2 w3 :
  same_interactions w1 w2 -> same_interactions w2 w3 -> same_interactions w1 w3.
Proof. unfold same_interactions. congruence. Qed.

Lemma same_stores_grows w w' : same_stores w w' -> grows w w'.
Proof. intros [H1 H2]. split; [exact H1 | now left]. Qed.

Lemma same_stores_interactions w w' : same_stores w w' -> same_interactions w w'.
Proof. intros [_ H]. exact H. Qed.

(** The steps that leave both stores alone. *)
Ltac still :=
  intros w; unfold same_stores, fact_text;
  destruct w as [clk off [[kf ff]|] im tp kb lg]; run_all;
  repeat match goal with
         | |- context [match ?x with _ => _ end] => is_var x; destruct x; simpl
         end;
  split; reflexivity.

Lemma emit_still e : maintains same_stores (emit e).
Proof. still. Qed.

Lemma path_exists_still f : maintains same_stores (path_exists f).
Proof. unfold path_exists. still. Qed.

Lemma mkdir_key_still : maintains same_stores (mkdir_parent KEY_FILE).
Proof. unfold mkdir_parent. still. Qed.

Lemma write_key_file_still s : maintains same_stores (write_key_file s).
Proof. unfold write_key_file. still. Qed.

Lemma read_key_file_still : maintains same_stores read_key_file.
Proof. unfold read_key_file, key_text. still. Qed.

Lemma read_fact_file_still : maintains same_stores read_fact_file.
Proof. unfold read_fact_file. still. Qed.

Lemma load_inst_memory_still : maintains same_stores load_inst_memory.
Proof. unfold load_inst_memory. still. Qed.

Lemma input_still q : maintains same_stores (input q).
Proof. unfold input. still. Qed.

Lemma write_temp_py_still s : maintains same_stores (write_temp_py s).
Proof. unfold write_temp_py. still. Qed.

Lemma read_resource_still n c : maintains same_stores (read_resource n c).
Proof. unfold read_resource. still. Qed.

Lemma str_add_still s p : maintains same_stores (str_add s p).
Proof. unfold str_add. still. Qed.

Lemma set_keyboard_still k : maintains same_stores (set_keyboard k).
Proof. still. Qed.

Lemma get_world_still : maintains same_stores get_world.
Proof. still. Qed.

Create HintDb still.
#[local] Hint Resolve emit_still path_exists_still mkdir_key_still
  write_key_file_still read_key_file_still read_fact_file_still
  load_inst_memory_still input_still write_temp_py_still read_resource_still
  str_add_still set_keyboard_still get_world_still : still.

Ltac frame :=
  unfold print, secho, typer_writer, system;
  repeat first
    [ solve [auto with still]
    | apply (maintains_ret _ same_stores_refl)
    | apply (maintains_raise _ same_stores_refl)
    | apply (maintains_lift _ same_stores_refl)
    | apply (maintains_bind _ same_stores_trans); [|intro]
    | match goal with
      | |- maintains _ (if ?b then _ else _) => destruct b
      | |- maintains _ (match ?x with _ => _ end) => destruct x
      end ].

Lemma openai_request_still env p m n k t q s :
  maintains same_stores (openai_request env p m n k t q s).
Proof. unfold openai_request. frame. Qed.

#[local] Hint Resolve openai_request_still : still.

Lemma confirm_still q : maintains same_stores (confirm q).
Proof.
  unfold confirm.
  apply (maintains_bind _ same_stores_trans); [auto with still|].
  intros w. induction (keyboard w) as [|l r IH]; simpl; [frame|].
  apply (maintains_bind _ same_stores_trans); [frame|]. intros _.
  apply (maintains_bind _ same_stores_trans); [frame|]. intros _.
  destruct (_ || _); [frame|]. destruct (_ || _); [frame|]. exact IH.
Qed.

Lemma create_config_still : maintains same_stores create_config.
Proof. unfold create_config. frame. Qed.

#[local] Hint Resolve confirm_still create_config_still : still.

Lemma get_config_still env key : maintains same_stores (get_config env key).
Proof. unfold get_config, load_key_file. frame. Qed.

Lemma update_config_still env key v :
  maintains same_stores (update_config env key v).
Proof. unfold update_config, load_key_file. frame. Qed.

#[local] Hint Resolve get_config_still update_config_still : still.

Lemma main_add_instruction_still env a k :
  maintains same_stores (main_add_instruction env a k).
Proof. unfold main_add_instruction. frame. Qed.

Lemma main_retrieve_fact_still env a k :
  maintains same_stores (main_retrieve_fact env a k).
Proof. unfold main_retrieve_fact. frame. Qed.

Lemma main_settings_still env a : maintains same_stores (main_settings env a).
Proof. unfold main_settings. frame. Qed.

Lemma main_cache_still a : maintains same_stores (main_cache a).
Proof. unfold main_cache. frame. Qed.

Lemma clear_fact_memory_interactions :
  maintains same_interactions clear_fact_memory.
Proof.
  intros w. unfold same_interactions, clear_fact_memory, unlink_fact_file.
  destruct w as [clk off [[kf [ff|]]|] im tp kb lg]; run_all; reflexivity.
Qed.

Lemma main_memorize_fact_interactions a :
  maintains same_interactions (main_memorize_fact a).
Proof.
  intros w. unfold same_interactions, main_memorize_fact, str_add.
  unfold bind at 1, get_world at 1.
  destruct (prompt a) as [x|]; [|reflexivity].
  unfold bind at 1, ret at 1. now rewrite save_fact_run.
Qed.

Lemma write_to_memory_grows i o n f : maintains grows (write_to_memory i o n f).
Proof.
  intros w. unfold grows, write_to_memory, load_inst_memory, dump_inst_memory,
    fact_text.
  destruct w as [clk off dd [| | |[]] tp kb lg]; run_all;
    split; try reflexivity; try (now left).
  right. do 2 eexists. split; reflexivity.
Qed.

Ltac frame_grows :=
  unfold print, secho, typer_writer, system;
  repeat first
    [ apply write_to_memory_grows
    | solve [apply (maintains_weaken _ _ _ same_stores_grows); auto with still]
    | apply (maintains_ret _ grows_refl)
    | apply (maintains_raise _ grows_refl)
    | apply (maintains_lift _ grows_refl)
    | apply (maintains_bind _ grows_trans); [|intro]
    | match goal with
      | |- maintains _ (if ?b then _ else _) => destruct b
      | |- maintains _ (match ?x with _ => _ end) => destruct x
      | |- maintains _ (let (_, _) := ?x in _) => destruct x
      end ].

Lemma main_complete_grows env a k : maintains grows (main_complete env a k).
Proof.
  unfold main_complete.
  destruct (if shell a then _ else _) as [[t q] p]. frame_grows.
Qed.

Lemma main_complete_still env a k :
  shell a = false -> maintains same_stores (main_complete env a k).
Proof.
  intros Hs. unfold main_complete. rewrite Hs. cbn [andb].
  destruct (if code a then _ else _) as [[t q] p]. frame.
Qed.

(** The run of [main] passes no command to the system. What a command does
    is not part of this model, so the statements on the state of the files
    after [main] are made for such runs. *)
Definition no_command (env : Env) (a : Args) (w : World) : Prop :=
  forall cmd, ~ In (System cmd) (events_of (main env a) w).

(** X10. An invocation that runs no command deletes or alters no stored
    interaction: after [main], however it ends, the interaction file is as
    it was, or it held a list and holds that list with records added at its
    end; and it is as it was unless the invocation is a [--shell]
    completion. *)
Theorem interactions_append_only env a w :
  no_command env a w ->
  let w' := snd (main env a w) in
  (inst_memory w' = inst_memory w
   \/ exists items extra,
        inst_memory w = Document (JList items)
        /\ inst_memory w' = Document (JList (items ++ extra)))
  /\ (inst_memory w' <> inst_memory w ->
      shell a = true /\ cache a = false /\ add_instruction a = false
      /\ clear_facts a = false /\ memorize_fact a = false
      /\ retrieve_fact a = false).
Proof.
  intros _. cbv zeta.
  assert (Hcases :
    (shell a = true /\ cache a = false /\ add_instruction a = false
     /\ clear_facts a = false /\ memorize_fact a = false
     /\ retrieve_fact a = false) /\ grows w (snd (main env a w))
    \/ same_interactions w (snd (main env a w))).
  { unfold main.
    pose proof (get_config_still env "openai_api_key" w) as Hcfg.
    unfold bind. destruct (get_config env "openai_api_key" w) as [[k|e] w1];
      simpl in Hcfg; [|right; apply Hcfg].
    assert (Hg : grows w w1) by (now apply same_stores_grows).
    assert (Hi : same_interactions w w1) by apply Hcfg.
    destruct (add_instruction a).
    { right. eapply same_interactions_trans; [exact Hi|].
      apply same_stores_interactions, main_add_instruction_still. }
    destruct (clear_facts a).
    { right. eapply same_interactions_trans; [exact Hi|].
      apply clear_fact_memory_interactions. }
    destruct (memorize_fact a).
    { right. eapply same_interactions_trans; [exact Hi|].
      apply main_memorize_fact_interactions. }
    destruct (retrieve_fact a).
    { right. eapply same_interactions_trans; [exact Hi|].
      apply same_stores_interactions, main_retrieve_fact_still. }
    destruct (PyVal.falsy (prompt a) && negb (editor a)).
    { right. eapply same_interactions_trans; [exact Hi|].
      apply same_stores_interactions, main_settings_still. }
    destruct (cache a).
    { right. eapply same_interactions_trans; [exact Hi|].
      apply same_stores_interactions, main_cache_still. }
    destruct (shell a) eqn:Hs.
    - left. split; [repeat split|].
      eapply grows_trans; [exact Hg | apply main_complete_grows].
    - right. eapply same_interactions_trans; [exact Hi|].
      apply same_stores_interactions, main_complete_still, Hs. }
  destruct Hcases as [[Hflags [_ Hg]]|Hsame].
  - split; [exact Hg | intros _; exact Hflags].
  - split; [now left | intros Hne; contradiction].
Qed.

(** X14. In an invocation that runs no command the fact file changes only
    under [--clear_facts] and [--memorize]: with [--add_instruction], or
    with neither of the two flags, [main] leaves its text exactly as it
    was; retrieving, listing, recalling and completing only read it. *)
Theorem facts_change_only_on_request env a w :
  no_command env a w ->
  add_instruction a = true
  \/ (clear_facts a = false /\ memorize_fact a = false) ->
  fact_text (snd (main env a w)) = fact_text w.
Proof.
  intros _ Hflags.
  assert (H : grows w (snd (main env a w))); [|apply H].
  unfold main.
  apply (maintains_bind _ grows_trans).
  { apply (maintains_weaken _ _ _ same_stores_grows), get_config_still. }
  intros k.
  destruct (add_instruction a).
  { apply (maintains_weaken _ _ _ same_stores_grows), main_add_instruction_still. }
  destruct Hflags as [Hf|[Hc Hm]]; [discriminate|]. rewrite Hc, Hm.
  destruct (retrieve_fact a).
  { apply (maintains_weaken _ _ _ same_stores_grows), main_retrieve_fact_still. }
  destruct (PyVal.falsy (prompt a) && negb (editor a)).
  { apply (maintains_weaken _ _ _ same_stores_grows), main_settings_still. }
  destruct (cache a).
  { apply (maintains_weaken _ _ _ same_stores_grows), main_cache_still. }
  apply main_complete_grows.
Qed.

Lemma facts_change_only_on_request_witness :
  fact_text (snd (main env1 (retrieve_args "tea") w2)) = fact_text w2
  /\ fact_text (snd (main env1 shell_args w2)) = fact_text w2.
Proof.
  split.
  - apply (facts_change_only_on_request env1 (retrieve_args "tea") w2).
    + intros cmd H. vm_compute in H. intuition discriminate.
    + right. split; reflexivity.
  - apply (facts_change_only_on_request env1 shell_args w2).
    + intros cmd H. vm_compute in H. intuition discriminate.
    + right. split; reflexivity.
Defined.

Lemma interactions_append_only_witness :
  shell shell_args = true /\ cache shell_args = false
  /\ add_instruction shell_args = false /\ clear_facts shell_args = false
  /\ memorize_fact shell_args = false /\ retrieve_fact shell_args = false.
Proof.
  refine (proj2 (interactions_append_only env1 shell_args w2 _) _).
  - intros cmd H. vm_compute in H. intuition discriminate.
  - intros H. vm_compute in H. discriminate H.
Defined.

(** ** Running commands *)

(** Events other than running a command, or running [allowed]. *)
Definition runs_only (allowed : option string) (e : Event) : Prop :=
  match e with
  | System cmd => allowed = Some cmd
  | _ => True
  end.

Ltac no_run :=
  repeat first
    [ apply emits_ret | apply emits_raise | apply emits_lift
    | apply emits_get_world | apply emits_set_data_dir
    | apply emits_set_inst_memory | apply emits_set_temp_py
    | apply emits_set_keyboard
    | apply emits_emit; exact I
    | apply emits_emit; reflexivity
    | apply emits_bind; [|intro]
    | match goal with
      | |- emits _ (if ?b then _ else _) => destruct b
      | |- emits _ (match ?x with _ => _ end) => destruct x
      | |- emits _ (let (_, _) := ?x in _) => destruct x
      end ].

Lemma get_config_no_run o env key : emits (runs_only o) (get_config env key).
Proof.
  unfold get_config, create_config, load_key_file, read_key_file, path_exists,
    input, mkdir_parent, write_key_file.
  no_run.
Qed.

Lemma update_config_no_run o env key v :
  emits (runs_only o) (update_config env key v).
Proof.
  unfold update_config, create_config, load_key_file, read_key_file,
    path_exists, input, mkdir_parent, write_key_file.
  no_run.
Qed.

(** Without [--add_instruction], and unless [--shell] and [--execute] are
    both given, [main] runs nothing. *)
Lemma main_no_run env a :
  add_instruction a = false -> shell a && execute a = false ->
  emits (runs_only None) (main env a).
Proof.
  intros Ha Hx. unfold main. rewrite Ha.
  apply emits_bind; [apply get_config_no_run|]. intros k.
  destruct (clear_facts a).
  { unfold clear_fact_memory, path_exists, unlink_fact_file. no_run. }
  destruct (memorize_fact a).
  { unfold main_memorize_fact, str_add, save_fact, path_exists, mkdir_parent,
      append_fact_file. no_run. }
  destruct (retrieve_fact a).
  { unfold main_retrieve_fact, path_exists, secho, read_fact_file,
      read_resource, typer_writer, openai_request.
    apply emits_bind; [no_run|]. intros found.
    destruct (negb found); [no_run|].
    apply emits_bind; [apply get_config_no_run|]. intros hf. no_run. }
  destruct (PyVal.falsy (prompt a) && negb (editor a)).
  { unfold main_settings, typer_writer, read_fact_file, print.
    destruct (negb _).
    { apply emits_bind; [apply update_config_no_run|]. intros _. no_run. }
    destruct (set_openai_api_key a).
    { apply emits_bind; [apply update_config_no_run|]. intros _. no_run. }
    destruct (set_hugging_face_api_key a).
    { apply emits_bind; [apply update_config_no_run|]. intros _. no_run. }
    no_run. }
  destruct (cache a).
  { unfold main_cache, load_inst_memory, print, typer_writer. no_run. }
  unfold main_complete. rewrite Hx.
  destruct (if shell a then _ else _) as [[t q] p].
  unfold openai_request, typer_writer, write_to_memory, load_inst_memory,
    dump_inst_memory.
  no_run.
Qed.

(** With [--add_instruction] the only command [main] may run is
    [python temp.py]. *)
Lemma main_runs_temp_only env a :
  add_instruction a = true ->
  emits (runs_only (Some "python temp.py")) (main env a).
Proof.
  intros Ha. unfold main. rewrite Ha.
  apply emits_bind; [apply get_config_no_run|]. intros k.
  unfold main_add_instruction, secho, read_resource, str_add, openai_request,
    typer_writer, input, write_temp_py, system.
  no_run.
Qed.

(** X12. [main] runs a command only when asked to: a command is passed to
    the system either under [--add_instruction], and then it is
    [python temp.py], or when [--shell] and [--execute] are both given. *)
Theorem runs_only_on_request env a w cmd :
  In (System cmd) (events_of (main env a) w) ->
  (add_instruction a = true /\ cmd = "python temp.py")
  \/ (add_instruction a = false /\ shell a = true /\ execute a = true).
Proof.
  intros Hin. destruct (add_instruction a) eqn:Ha.
  - left. split; [reflexivity|].
    pose proof (emits_events _ _ w (main_runs_temp_only env a Ha) _ Hin) as H.
    simpl in H. congruence.
  - right. split; [reflexivity|].
    destruct (shell a && execute a) eqn:Hx.
    + now apply andb_prop in Hx.
    + pose proof (emits_events _ _ w (main_no_run env a Ha Hx) _ Hin) as H.
      simpl in H. discriminate.
Qed.

(** ** Adding an instruction *)

(** The world after [temp.py] received [text], the keyboard was read up to
    [rest] and [es] were logged. *)
Definition with_temp (w : World) (text : string) (rest : list string)
    (es : list Event) : World :=
  mkWorld (clock w) (utc_offset w) (data_dir w) (inst_memory w) (Some text)
    rest (log w ++ es).

(** X13. [--add_instruction] with a prompt: the instruction template, a
    blank and the prompt are sent with temperature 0; the stripped answer is
    shown; the answer with every [lsh] replaced by [python <path of
    sgpt.py>] is written to [temp.py] before the answer to "Execute?" is
    looked at; and [python temp.py] is run exactly when that answer is [y],
    every other answer giving the notice "Command not executed.". The memory
    flags are not looked at. *)
Theorem add_instruction_run env a w k template p r answer rest :
  config_ready env w k ->
  add_instruction a = true ->
  instruction_generation_v2 env = Some template ->
  prompt a = Some p ->
  completion env (Some (template ++ " " ++ p)%string) (model a) (max_tokens a)
    k 0%Q (top_probability a) = inr r ->
  keyboard w = answer :: rest ->
  main env a w =
    (Ok tt,
     with_temp w
       (PyStr.replace "lsh" ("python " ++ script_path env) (PyStr.strip r)) rest
       (config_events ++
        [Secho "Adding new instruction..." "green";
         ReadResource "prompts/instruction_generation_v2.txt";
         Post (Some (template ++ " " ++ p)%string) (model a) (max_tokens a) k
           0%Q (top_probability a);
         TyperWriter (JStr (PyStr.strip r)) (code a) (shell a) (animation a);
         Ask "Execute? (y/n)";
         Fs OpenWrite TEMP_PY;
         if String.eqb answer "y" then System "python temp.py"
         else Secho "Command not executed." "red"])).
Proof.
  intros Hcfg Ha Ht Hp Hans Hkb.
  unfold main. rewrite (bind_ok _ _ _ _ _ (get_config_ready _ _ _ Hcfg)), Ha.
  unfold main_add_instruction, read_resource, str_add, openai_request, input,
    write_temp_py, with_temp.
  rewrite Ht, Hp. rewrite <- (append_assoc template " " p) in Hans |- *.
  open_world w; subst kb; run_all; rewrite Hans; simpl;
    destruct (String.eqb answer "y"); run_all;
    rewrite <- ?app_assoc; reflexivity.
Qed.

(** [sgpt --add_instruction --clear_facts "rename files"] *)
Definition add_instruction_args : Args :=
  mkArgs (Some "rename files") davinci 2048 1 1 false false false false true
    false true false false true true 500 None None false false false false.

Lemma add_instruction_run_witness :
  main env1 add_instruction_args w2 =
    (Ok tt,
     with_temp w2 "ls -la" []
       (config_events ++
        [Secho "Adding new instruction..." "green";
         ReadResource "prompts/instruction_generation_v2.txt";
         Post (Some "Write a program. rename files") davinci 2048
           (JStr "sk-test") 0%Q 1%Q;
         TyperWriter (JStr "ls -la") false false true;
         Ask "Execute? (y/n)";
         Fs OpenWrite TEMP_PY;
         System "python temp.py"])).
Proof.
  exact (add_instruction_run env1 add_instruction_args w2 (JStr "sk-test")
           "Write a program." "rename files" "  ls -la  " "y" []
           w2_config_ready eq_refl eq_refl eq_refl eq_refl eq_refl).
Defined.

Lemma runs_only_on_request_witness :
  (add_instruction add_instruction_args = true
   /\ "python temp.py" = "python temp.py")
  \/ (add_instruction add_instruction_args = false
      /\ shell add_instruction_args = true
      /\ execute add_instruction_args = true).
Proof.
  apply (runs_only_on_request env1 add_instruction_args w2 "python temp.py").
  vm_compute. auto 20.
Defined.

(** ** Tokens of digits that are no number *)

Lemma digit_not_space c :
  PyStr.char_isdigit c = true -> negb (PyStr.char_isspace c) = true.
Proof.
  destruct c as [[] [] [] [] [] [] [] []]; intros H;
    try reflexivity; discriminate H.
Qed.

(** On a token of digit characters [int] reads no sign and strips
    nothing. *)
Lemma py_int_digits p :
  PyStr.isdigit p = true -> PyStr.py_int p = PyStr.parse_literal p.
Proof.
  unfold PyStr.isdigit. intros H. apply andb_prop in H. destruct H as [_ H].
  unfold PyStr.py_int.
  rewrite TokenFacts.strip_no_space
    by exact (TokenFacts.all_chars_impl _ _ p digit_not_space H).
  destruct p as [|c r]; [reflexivity|].
  simpl in H. apply andb_prop in H. destruct H as [Hc _].
  destruct c as [[] [] [] [] [] [] [] []]; try reflexivity; discriminate Hc.
Qed.

Lemma superscript_stops_parse c :
  PyStr.char_isdigit c = true -> PyStr.char_isdecimal c = false ->
  Ascii.eqb c "_" = false.
Proof.
  destruct c as [[] [] [] [] [] [] [] []]; intros H1 H2;
    try reflexivity; discriminate.
Qed.

Lemma parse_not_decimal s :
  PyStr.all_chars PyStr.char_isdigit s = true ->
  PyStr.all_chars PyStr.char_isdecimal s = false ->
  forall acc b, PyStr.parse_digits acc b s = None.
Proof.
  induction s as [|c s IH]; intros Hd Hn acc b; [discriminate|].
  simpl in Hd, Hn. apply andb_prop in Hd. destruct Hd as [Hc Hs].
  cbn [PyStr.parse_digits].
  destruct (PyStr.char_isdecimal c) eqn:E.
  - apply IH; [exact Hs | exact Hn].
  - now rewrite (superscript_stops_parse c Hc E).
Qed.

Lemma getitem_int_no_value_error v i : PyVal.getitem_int v i <> inl ValueError.
Proof.
  unfold PyVal.getitem_int. destruct v; try discriminate.
  - destruct (_ || _)%bool; [discriminate|].
    destruct (String.get _ _); discriminate.
  - destruct (_ || _)%bool; [discriminate|].
    destruct (nth_error _ _); discriminate.
Qed.

Lemma getitem_str_no_value_error v key : PyVal.getitem_str v key <> inl ValueError.
Proof.
  unfold PyVal.getitem_str. destruct v; try discriminate.
  destruct (PyVal.assoc _ _); discriminate.
Qed.

(** X15. A token of the digits 0 to 9 and the superscript digits U+00B2,
    U+00B3 and U+00B9 passes the [isdigit] test of the cache branch. When
    one of its characters is a superscript, or when it has more than 4300
    characters, [int] refuses it: the invocation opens the interaction file
    and ends in an uncaught [ValueError]. A token of at most 4300 of the
    digits 0 to 9 never ends in [ValueError]. *)
Theorem digit_token_value_error env a w k p items :
  config_ready env w k -> recall_call a p ->
  PyStr.isdigit p = true ->
  inst_memory w = Document (JList items) ->
  (PyStr.all_chars PyStr.char_isdecimal p = false
   \/ (PyStr.int_max_str_digits < Z.of_nat (String.length p))%Z ->
   main env a w =
     (Raised ValueError,
      logged w (config_events ++ [Fs OpenReadWrite INST_MEMORY])))
  /\ (PyStr.all_chars PyStr.char_isdecimal p = true ->
      (Z.of_nat (String.length p) <= PyStr.int_max_str_digits)%Z ->
      fst (main env a w) <> Raised ValueError).
Proof.
  intros Hcfg Hcall Hd Hs.
  assert (Hp : prompt a = Some p) by apply Hcall.
  assert (Hmain : main env a w = main_cache a (logged w config_events))
    by (apply (main_recall env a w k p Hcfg Hcall);
        now rewrite (isdigit_nonempty p Hd)).
  split.
  - intros Hn.
    assert (Hint : PyStr.py_int p = None).
    { destruct (PyStr.all_chars PyStr.char_isdecimal p) eqn:Hdec.
      - destruct Hn as [Hn|Hn]; [discriminate Hn|].
        exact (proj2 (TokenFacts.long_token_refused p Hdec Hn)).
      - rewrite (py_int_digits p Hd). unfold PyStr.parse_literal.
        destruct (_ <? _)%Z; [reflexivity|].
        apply parse_not_decimal; [|exact Hdec].
        unfold PyStr.isdigit in Hd. now apply andb_prop in Hd. }
    rewrite Hmain. unfold main_cache, load_inst_memory. rewrite Hp, Hd.
    open_world w; subst im; run_all; rewrite Hint; simpl; log_eq.
  - intros Hdec Hlen.
    destruct (TokenFacts.decimal_token_parses p) as (_ & n & Hn & _);
      [intros ->; discriminate | exact Hdec | exact Hlen |].
    rewrite Hmain,
      (main_cache_list a (logged w config_events) p n items Hp Hd Hn Hs).
    destruct (n >=? Z.of_nat (length items))%Z; [discriminate|].
    destruct (PyVal.getitem_int _ _) as [e|rec] eqn:E1.
    + cbn [fst]. intros H. injection H as ->.
      exact (getitem_int_no_value_error _ _ E1).
    + destruct (PyVal.getitem_str rec "output") as [e|out] eqn:E2;
        [|discriminate].
      cbn [fst]. intros H. injection H as ->.
      exact (getitem_str_no_value_error _ _ E2).
Qed.

Lemma digit_token_value_error_witness :
  main env0 (recall_args superscript_two) w0 =
    (Raised ValueError,
     logged w0 (config_events ++ [Fs OpenReadWrite INST_MEMORY]))
  /\ main env0 (recall_args many_ones) w0 =
       (Raised ValueError,
        logged w0 (config_events ++ [Fs OpenReadWrite INST_MEMORY]))
  /\ fst (main env0 (recall_args "1") w0) <> Raised ValueError.
Proof.
  split; [|split].
  - exact (proj1 (digit_token_value_error env0 (recall_args superscript_two) w0
                    (JStr "sk-test") superscript_two
                    [entry list_files; entry show_date]
                    w0_config_ready (recall_args_call _) eq_refl eq_refl)
             (or_introl eq_refl)).
  - apply (proj1 (digit_token_value_error env0 (recall_args many_ones) w0
                    (JStr "sk-test") many_ones
                    [entry list_files; entry show_date]
                    w0_config_ready (recall_args_call _) eq_refl eq_refl)).
    right. vm_compute. reflexivity.
  - exact (proj2 (digit_token_value_error env0 (recall_args "1") w0
                    (JStr "sk-test") "1"
                    [entry list_files; entry show_date]
                    w0_config_ready (recall_args_call _) eq_refl eq_refl)
             eq_refl ltac:(vm_compute; discriminate)).
Defined.

(** ** Invocations that lack their prompt *)

(** X16. A flag that needs the prompt, given without one: [--memorize]
    ends in [TypeError] before anything is written, [--add_instruction]
    ends in [TypeError] after the template was read and before any request,
    and [--cache] together with [--editor] ends in [AttributeError]; in each
    case both stores are as they were. *)
Theorem prompt_missing env a w k :
  config_ready env w k -> prompt a = None ->
  (add_instruction a = false -> clear_facts a = false ->
   memorize_fact a = true ->
   main env a w = (Raised TypeError, logged w config_events))
  /\ (forall template,
        add_instruction a = true ->
        instruction_generation_v2 env = Some template ->
        main env a w =
          (Raised TypeError,
           logged w (config_events ++
             [Secho "Adding new instruction..." "green";
              ReadResource "prompts/instruction_generation_v2.txt"])))
  /\ (add_instruction a = false -> clear_facts a = false ->
      memorize_fact a = false -> retrieve_fact a = false ->
      editor a = true -> cache a = true ->
      main env a w = (Raised AttributeError, logged w config_events)).
Proof.
  intros Hcfg Hp.
  unfold main. rewrite (bind_ok _ _ _ _ _ (get_config_ready env w k Hcfg)).
  split; [|split].
  - intros Ha Hc Hm. rewrite Ha, Hc, Hm.
    unfold main_memorize_fact. now rewrite Hp.
  - intros template Ha Ht. rewrite Ha.
    unfold main_add_instruction, read_resource, str_add. rewrite Hp, Ht.
    run_all. log_eq.
  - intros Ha Hc Hm Hr He Hcache. rewrite Ha, Hc, Hm, Hr, He, Hcache, Hp.
    cbn [PyVal.falsy negb andb]. unfold main_cache. now rewrite Hp.
Qed.

(** [sgpt --memorize] *)
Definition memorize_nothing_args : Args :=
  mkArgs None davinci 2048 1 1 false false false true false false false
    false false true true 500 None None false false false false.

(** [sgpt --cache --editor] *)
Definition cache_editor_args : Args :=
  mkArgs None davinci 2048 1 1 true false false false false false false
    false true true true 500 None None false false false false.

(** [sgpt --add_instruction] *)
Definition add_nothing_args : Args :=
  mkArgs None davinci 2048 1 1 false false false false false false true
    false false true true 500 None None false false false false.

Lemma prompt_missing_witness :
  main env1 memorize_nothing_args w2 = (Raised TypeError, logged w2 config_events)
  /\ main env1 add_nothing_args w2 =
       (Raised TypeError,
        logged w2 (config_events ++
          [Secho "Adding new instruction..." "green";
           ReadResource "prompts/instruction_generation_v2.txt"]))
  /\ main env1 cache_editor_args w2 =
       (Raised AttributeError, logged w2 config_events).
Proof.
  split; [|split].
  - exact (proj1 (prompt_missing env1 memorize_nothing_args w2 (JStr "sk-test")
                    w2_config_ready eq_refl) eq_refl eq_refl eq_refl).
  - exact (proj1 (proj2 (prompt_missing env1 add_nothing_args w2 (JStr "sk-test")
                           w2_config_ready eq_refl)) _ eq_refl eq_refl).
  - exact (proj2 (proj2 (prompt_missing env1 cache_editor_args w2 (JStr "sk-test")
                           w2_config_ready eq_refl))
             eq_refl eq_refl eq_refl eq_refl eq_refl eq_refl).
Defined.

(** ** Sequences of invocations on the fact file *)

(** The world [w] at a later reading [t] of the clock. *)
Definition at_time (w : World) (t : Z) : World :=
  mkWorld t (utc_offset w) (data_dir w) (inst_memory w) (temp_py w)
    (keyboard w) (log w).

Lemma terminated_after_entry old e :
  newline_terminated (old ++ e ++ newline).
Proof. right. exists (old ++ e)%string. now rewrite append_assoc. Qed.

(** X17. Facts stay in the order in which they were memorized: after
    [--memorize x] and, at a later clock reading, [--memorize y], the fact
    file is the old text, the entry of [x] and then the entry of [y], each
    with the time stamp of its own invocation; when neither text has a line
    break these are the last two lines, in that order. *)
Theorem memorize_keeps_order env a b w k x y t :
  config_ready env w k -> memorize_call a x -> memorize_call b y ->
  let v1 := at_time (snd (main env a w)) t in
  let first := (stamp w ++ " " ++ x)%string in
  let second := (stamp v1 ++ " " ++ y)%string in
  fst (main env b v1) = Ok tt
  /\ fact_text (snd (main env b v1)) =
       Some (old_text w ++ first ++ newline ++ second ++ newline)%string
  /\ (four_digit_years (clock w) -> four_digit_years t ->
      PyStr.has_newline x = false -> PyStr.has_newline y = false ->
      newline_terminated (old_text w) ->
      exists L,
        PyStr.lines (old_text w) = L ++ [EmptyString]
        /\ PyStr.lines (old_text w ++ first ++ newline ++ second ++ newline)
           = L ++ [first; second; EmptyString]).
Proof.
  intros Hcfg Ha Hb v1 first second.
  pose proof (main_memorize env a w k x Hcfg Ha) as Hrun1.
  assert (Hcfg1 : config_ready env v1 k).
  { subst v1. rewrite Hrun1.
    destruct Hcfg as (text & data & H1 & H2 & H3). exists text, data.
    repeat split; assumption. }
  pose proof (main_memorize env b v1 k y Hcfg1 Hb) as Hrun2.
  assert (Hold1 : old_text v1 = (old_text w ++ first ++ newline)%string).
  { subst v1. rewrite Hrun1. reflexivity. }
  rewrite Hrun2. cbn [fst snd]. split; [reflexivity|]. split.
  - unfold with_facts, fact_text. cbn [data_dir fact_file].
    rewrite Hold1. fold second. now rewrite !append_assoc.
  - intros Hw Ht Hx Hy Hold.
    assert (He1 : PyStr.has_newline first = false).
    { subst first. rewrite !has_newline_app, Hx. unfold stamp.
      now rewrite (timestamp_one_line _ Hw). }
    assert (He2 : PyStr.has_newline second = false).
    { subst second. rewrite !has_newline_app, Hy. unfold stamp.
      replace (clock v1) with t by (subst v1; reflexivity).
      now rewrite (timestamp_one_line _ Ht). }
    destruct (lines_append_entry _ _ Hold He1) as (L & HL & Hfirst).
    destruct (lines_append_entry _ _ (terminated_after_entry (old_text w) first)
                He2) as (L' & HL' & Hsecond).
    exists L. split; [exact HL|].
    rewrite Hfirst in HL'.
    assert (HLL : L' = L ++ [first]).
    { change (L ++ [first; EmptyString]) with (L ++ [first] ++ [EmptyString]) in HL'.
      rewrite app_assoc in HL'. apply app_inj_tail in HL'. now destruct HL'. }
    rewrite !append_assoc in Hsecond. rewrite Hsecond, HLL, <- app_assoc.
    reflexivity.
Qed.

(** [sgpt --clear_facts] *)
Definition clear_args : Args :=
  mkArgs None davinci 2048 1 1 false false false false true false false
    false false true true 500 None None false false false false.

Lemma memorize_keeps_order_witness :
  fact_text (snd (main env1 (memorize_args "milk is out")
                    (at_time (snd (main env1 (memorize_args "tea is in") w2))
                       1700000060))) =
    Some ("12:00:00 01/01/2024 tea is out" ++ newline
          ++ "22:13:20 14/11/2023 tea is in" ++ newline
          ++ "22:14:20 14/11/2023 milk is out" ++ newline)%string.
Proof.
  pose proof (memorize_keeps_order env1 (memorize_args "tea is in")
                (memorize_args "milk is out") w2 (JStr "sk-test")
                "tea is in" "milk is out" 1700000060
                w2_config_ready (memorize_args_call _) (memorize_args_call _))
    as H.
  cbv zeta in H. destruct H as (_ & H & _).
  rewrite H. vm_compute. reflexivity.
Defined.

Lemma clear_present_run w text :
  fact_text w = Some text ->
  clear_fact_memory w =
    (Ok tt,
     mkWorld (clock w) (utc_offset w) (Some (mkDir (key_text w) None))
       (inst_memory w) (temp_py w) (keyboard w)
       (log w ++ [Fs Exists FACT_MEMORY_FILE; Fs Unlink FACT_MEMORY_FILE])).
Proof.
  intros Hf. unfold clear_fact_memory, unlink_fact_file.
  open_world w; [subst ff|discriminate]. run_all.
  now rewrite <- app_assoc.
Qed.

(** X18. Clearing forgets everything: after [--memorize x] and then
    [--clear_facts] the fact file is gone, the configuration file and the
    interaction file are as before, and a following [--retrieve] answers
    that no facts have been memorized, without any request. *)
Theorem clear_forgets env a c r w k x :
  config_ready env w k -> memorize_call a x ->
  add_instruction c = false -> clear_facts c = true ->
  add_instruction r = false -> clear_facts r = false ->
  memorize_fact r = false -> retrieve_fact r = true ->
  let v1 := snd (main env a w) in
  let v2 := snd (main env c v1) in
  fst (main env c v1) = Ok tt
  /\ fact_text v2 = None
  /\ key_text v2 = key_text w
  /\ inst_memory v2 = inst_memory w
  /\ main env r v2 =
       (Ok tt, logged v2 (config_events ++
                 [Fs Exists FACT_MEMORY_FILE;
                  Secho "No facts have been memorized yet." "red"])).
Proof.
  intros Hcfg Ha Hc1 Hc2 Hr1 Hr2 Hr3 Hr4 v1 v2.
  pose proof (main_memorize env a w k x Hcfg Ha) as Hrun1.
  destruct Hcfg as (text & data & H1 & H2 & H3).
  assert (Hcfg1 : config_ready env v1 k).
  { subst v1. rewrite Hrun1. exists text, data. repeat split; assumption. }
  assert (Hrun2 : main env c v1 = clear_fact_memory (logged v1 config_events)).
  { unfold main. rewrite (bind_ok _ _ _ _ _ (get_config_ready _ _ _ Hcfg1)).
    now rewrite Hc1, Hc2. }
  assert (Hf1 : fact_text (logged v1 config_events)
                = Some (old_text w ++ (stamp w ++ " " ++ x) ++ newline)%string).
  { subst v1. rewrite Hrun1. reflexivity. }
  rewrite (clear_present_run _ _ Hf1) in Hrun2.
  assert (Hk1 : key_text v1 = key_text w)
    by (subst v1; rewrite Hrun1; reflexivity).
  assert (Hi1 : inst_memory v1 = inst_memory w)
    by (subst v1; rewrite Hrun1; reflexivity).
  subst v2. rewrite Hrun2. cbn [fst snd].
  split; [reflexivity|]. split; [reflexivity|].
  split; [exact Hk1|]. split; [exact Hi1|].
  eapply (retrieve_without_store env r _ k);
    [ | exact Hr1 | exact Hr2 | exact Hr3 | exact Hr4 | reflexivity ].
  exists text, data. repeat split; try assumption.
  rewrite <- H1, <- Hk1. reflexivity.
Qed.

Lemma clear_forgets_witness :
  fact_text (snd (main env1 clear_args
                    (snd (main env1 (memorize_args "tea is in") w2)))) = None
  /\ main env1 (retrieve_args "tea")
       (snd (main env1 clear_args
               (snd (main env1 (memorize_args "tea is in") w2)))) =
     (Ok tt,
      logged (snd (main env1 clear_args
                     (snd (main env1 (memorize_args "tea is in") w2))))
        (config_events ++
         [Fs Exists FACT_MEMORY_FILE;
          Secho "No facts have been memorized yet." "red"])).
Proof.
  pose proof (clear_forgets env1 (memorize_args "tea is in") clear_args
                (retrieve_args "tea") w2 (JStr "sk-test") "tea is in"
                w2_config_ready (memorize_args_call _)
                eq_refl eq_refl eq_refl eq_refl eq_refl eq_refl) as H.
  cbv zeta in H. destruct H as (_ & H2 & _ & _ & H5).
  split; [exact H2 | exact H5].
Defined.

(** ** The editor and the retrieval key *)

Lemma editor_first {B} x (K : option string -> Py B) w :
  bind (bind (emit Editor) (fun _ => ret x)) K w = K x (logged w [Editor]).
Proof. reflexivity. Qed.

(** X19. With [--editor], and none of the flags tested before, the request
    carries the text that came back from the editor, verbatim: the prompt of
    the command line and the sentence that [--shell] or [--code] appends to
    it are dropped. *)
Theorem editor_replaces_prompt env a w k :
  config_ready env w k ->
  add_instruction a = false -> clear_facts a = false ->
  memorize_fact a = false -> retrieve_fact a = false ->
  cache a = false -> editor a = true ->
  exists n t q rest,
    events_of (main env a) w =
      config_events ++
      Editor :: Post (Some (edited_prompt env)) (model a) n k t q :: rest.
Proof.
  intros Hcfg Ha Hc Hm Hr Hcache He.
  assert (Hmain : main env a w = main_complete env a k (logged w config_events)).
  { unfold main. rewrite (bind_ok _ _ _ _ _ (get_config_ready _ _ _ Hcfg)).
    rewrite Ha, Hc, Hm, Hr, Hcache, He. now rewrite andb_false_r. }
  assert (Hrun : exists n t q rest,
    log (snd (main_complete env a k (logged w config_events))) =
      log (logged w config_events) ++
      Editor :: Post (Some (edited_prompt env)) (model a) n k t q :: rest).
  { unfold main_complete. rewrite He.
    destruct (if shell a then _ else _) as [[t q] p].
    rewrite editor_first.
    match goal with
    | |- exists n t q rest,
           log (snd (bind (openai_request ?e ?p ?m ?n0 ?k0 ?t0 ?q0 ?s) ?K ?W)) = _ =>
        destruct (request_first e p m n0 k0 t0 q0 s K W) as (rest & Hlog);
          [intros r; tail_emits|];
        exists n0, t0, q0, rest
    end.
    rewrite Hlog. cbn [log logged]. now rewrite <- app_assoc. }
  destruct Hrun as (n & t & q & rest & Hlog).
  exists n, t, q, rest. apply events_of_log. rewrite Hmain, Hlog.
  unfold logged. simpl. now rewrite <- app_assoc.
Qed.

(** [sgpt --shell --editor "ignored"] *)
Definition editor_args : Args :=
  mkArgs (Some "ignored") davinci 2048 1 1 false true false false false
    false false false true true true 500 None None false false false false.

Lemma editor_replaces_prompt_witness :
  exists n t q rest,
    events_of (main env1 editor_args) w2 =
      config_events ++
      Editor :: Post (Some "list files") davinci n (JStr "sk-test") t q :: rest.
Proof.
  exact (editor_replaces_prompt env1 editor_args w2 (JStr "sk-test")
           w2_config_ready eq_refl eq_refl eq_refl eq_refl eq_refl eq_refl).
Defined.

(** X20. [--retrieve] needs the Hugging Face key: when facts are memorized
    but the configuration mapping has no [hugging_face_api_key], the
    invocation ends in [UsageError] before the fact file is read and before
    any request is sent. *)
Theorem retrieve_needs_hf_key env a w text entries k :
  key_text w = Some text ->
  yaml_safe_load env text = Some (JDict entries) ->
  PyVal.assoc "openai_api_key" entries = Some k ->
  PyVal.assoc "hugging_face_api_key" entries = None ->
  fact_text w <> None ->
  add_instruction a = false -> clear_facts a = false ->
  memorize_fact a = false -> retrieve_fact a = true ->
  main env a w =
    (Raised (UsageError
       "Key 'hugging_face_api_key' not found in config file. Please check your config file."),
     logged w (config_events ++ Fs Exists FACT_MEMORY_FILE :: config_events)).
Proof.
  intros Htext Hyaml Hk Hhf Hfact Ha Hc Hm Hr.
  assert (Hcfg : config_ready env w k).
  { exists text, (JDict entries). repeat split; try assumption.
    unfold PyVal.getitem_str. now rewrite Hk. }
  unfold main. rewrite (bind_ok _ _ _ _ _ (get_config_ready _ _ _ Hcfg)).
  rewrite Ha, Hc, Hm, Hr. unfold main_retrieve_fact.
  assert (Hfound : path_exists FACT_MEMORY_FILE (logged w config_events) =
            (Ok true, logged w (config_events ++ [Fs Exists FACT_MEMORY_FILE]))).
  { unfold path_exists. open_world w; [|contradiction].
    destruct ff; [|contradiction]. run_all. log_eq. }
  rewrite (bind_ok _ _ _ _ _ Hfound). cbn [negb].
  apply bind_raised.
  erewrite get_config_present; [|exact Htext|exact Hyaml].
  unfold PyVal.getitem_str. rewrite Hhf. f_equal.
  rewrite logged_logged, <- app_assoc. reflexivity.
Qed.

Lemma retrieve_needs_hf_key_witness :
  main env1 (retrieve_args "tea") w2 =
    (Raised (UsageError
       "Key 'hugging_face_api_key' not found in config file. Please check your config file."),
     logged w2 (config_events ++ Fs Exists FACT_MEMORY_FILE :: config_events)).
Proof.
  exact (retrieve_needs_hf_key env1 (retrieve_args "tea") w2
           "openai_api_key: sk-test" [("openai_api_key", JStr "sk-test")]
           (JStr "sk-test") eq_refl eq_refl eq_refl eq_refl
           ltac:(discriminate) eq_refl eq_refl eq_refl eq_refl).
Defined.
